(** * Nexus profile service: routes, guards and badge eligibility

    A shallow embedding of the profile micro-service: the authentication
    and role guards of [middleware/auth], and the routes of
    [routes/profile.routes] with their schemas, guards and handlers
    (profile enrichment, skills, ownership-checked updates, badge awards
    and badge eligibility).

    The relational store reached through Prisma is a record of finite
    maps, the auth service reached through axios is an oracle of the
    request's environment, and a handler is a state transformer on a
    [World] that also keeps the log of the external calls it made. *)

From Stdlib Require Import ZArith String Ascii List Bool Lia.
From stdpp Require Import base option list strings pretty gmap sorting.

Open Scope string_scope.
Open Scope Z_scope.

(** ** JavaScript value conventions used by the handlers *)

Module Js.

(** A string is truthy when it is not empty. *)
Definition truthy_string (s : string) : bool := negb (String.eqb s "").

(** [null] and [undefined] are [None]. *)
Definition truthy (o : option string) : bool :=
  match o with
  | Some s => truthy_string s
  | None => false
  end.

(** [a || b] on strings that may be absent. *)
Definition or (a b : option string) : option string :=
  if truthy a then a else b.

(** [a || ''] *)
Definition or_empty (a : option string) : string :=
  match a with
  | Some s => s
  | None => ""
  end.

(** [a || null]: a falsy value becomes [null]. *)
Definition or_null (a : option string) : option string :=
  if truthy a then a else None.

(** [a || b] on integers that may be absent: [0] is falsy. *)
Definition truthy_num (o : option Z) : bool :=
  match o with
  | Some n => negb (n =? 0)
  | None => false
  end.

Definition or_num (a b : option Z) : option Z :=
  if truthy_num a then a else b.

(** [a || d] with a number literal [d] as the fallback. *)
Definition or_default (a : option Z) (d : Z) : Z :=
  match a with
  | Some n => if n =? 0 then d else n
  | None => d
  end.

(** [a || []] *)
Definition or_nil {A} (a : option (list A)) : list A :=
  match a with
  | Some l => l
  | None => []
  end.

(** [s.slice(n)] *)
Definition slice_from (n : nat) (s : string) : string :=
  String.substring n (String.length s - n) s.

(** [[...new Set(l)]]: the distinct elements, each at its first
    occurrence. *)
Fixpoint set_spread (l : list string) : list string :=
  match l with
  | [] => []
  | x :: l' => x :: filter (λ y, y ≠ x) (set_spread l')
  end.

End Js.

(** ** Data model (the Prisma models the routes touch) *)

Inductive Level := Beginner | Intermediate | Advanced | Expert.
Inductive Rarity := COMMON | UNCOMMON | RARE | EPIC | LEGENDARY.

(** Dates are milliseconds since the epoch. *)
Definition Date := Z.

(** Profile rows are keyed by [userId], which is unique. *)
Record Profile := mkProfile {
  profile_id : string;
  profile_name : option string;
  profile_bio : option string;
  profile_skills : list string;
  profile_expertise : list string;
  profile_linkedIn : option string;
  profile_github : option string;
  profile_twitter : option string;
  profile_resumeUrl : option string;
  profile_contactInfo : option string;
  profile_phoneNumber : option string;
  profile_alternateEmail : option string;
  profile_department : option string;
  profile_year : option Z;
  profile_createdAt : Date
}.

(** Sub-entities are keyed by their own id and point at the owning
    profile through [userId]. *)
Record PersonalProject := mkPersonalProject {
  project_userId : string;
  project_title : string;
  project_description : string;
  project_github : option string;
  project_demoLink : option string;
  project_image : option string;
  project_createdAt : Date
}.

Record Publication := mkPublication {
  publication_userId : string;
  publication_title : string;
  publication_year : Z;
  publication_link : option string;
  publication_createdAt : Date
}.

Record Experience := mkExperience {
  experience_userId : string;
  experience_area : string;
  experience_level : Level;
  experience_yearsExp : option Z;
  experience_description : option string
}.

Record BadgeDefinition := mkBadgeDefinition {
  badge_name : string;
  badge_description : string;
  badge_icon : option string;
  badge_color : option string;
  badge_category : option string;
  badge_criteria : option string;
  badge_rarity : Rarity;
  badge_createdBy : string;
  badge_isActive : bool
}.

Record StudentBadge := mkStudentBadge {
  award_id : string;
  award_studentId : string;
  award_badgeId : string;
  award_awardedBy : string;
  award_awardedByName : option string;
  award_reason : string;
  award_projectId : option string;
  award_eventId : option string;
  award_awardedAt : Date
}.

(** Policies are keyed by [collegeId], which is unique. *)
Record BadgePolicy := mkBadgePolicy {
  policy_departmentId : option string;
  policy_eventCreationRequired : Z;
  policy_categoryDiversityMin : Z;
  policy_isActive : bool
}.

(** Cache rows are keyed by [userId], which is unique. *)
Record BadgeEligibilityCache := mkBadgeEligibilityCache {
  cache_canCreate : bool;
  cache_badgeCount : Z;
  cache_categories : list string;
  cache_lastChecked : Date;
  cache_expiresAt : Date
}.

Record Store := mkStore {
  profiles : gmap string Profile;
  personalProjects : gmap string PersonalProject;
  publications : gmap string Publication;
  experiences : gmap string Experience;
  badgeDefinitions : gmap string BadgeDefinition;
  studentBadges : list StudentBadge;
  badgePolicies : gmap string BadgePolicy;
  badgeEligibilityCache : gmap string BadgeEligibilityCache
}.

Definition emptyStore : Store :=
  mkStore ∅ ∅ ∅ ∅ ∅ [] ∅ ∅.

Definition set_profiles (f : gmap string Profile → gmap string Profile) (s : Store) : Store :=
  mkStore (f (profiles s)) (personalProjects s) (publications s) (experiences s)
          (badgeDefinitions s) (studentBadges s) (badgePolicies s) (badgeEligibilityCache s).

Definition set_personalProjects (f : gmap string PersonalProject → gmap string PersonalProject)
    (s : Store) : Store :=
  mkStore (profiles s) (f (personalProjects s)) (publications s) (experiences s)
          (badgeDefinitions s) (studentBadges s) (badgePolicies s) (badgeEligibilityCache s).

Definition set_publications (f : gmap string Publication → gmap string Publication)
    (s : Store) : Store :=
  mkStore (profiles s) (personalProjects s) (f (publications s)) (experiences s)
          (badgeDefinitions s) (studentBadges s) (badgePolicies s) (badgeEligibilityCache s).

Definition set_experiences (f : gmap string Experience → gmap string Experience)
    (s : Store) : Store :=
  mkStore (profiles s) (personalProjects s) (publications s) (f (experiences s))
          (badgeDefinitions s) (studentBadges s) (badgePolicies s) (badgeEligibilityCache s).

Definition set_studentBadges (f : list StudentBadge → list StudentBadge) (s : Store) : Store :=
  mkStore (profiles s) (personalProjects s) (publications s) (experiences s)
          (badgeDefinitions s) (f (studentBadges s)) (badgePolicies s) (badgeEligibilityCache s).

Definition set_badgeEligibilityCache
    (f : gmap string BadgeEligibilityCache → gmap string BadgeEligibilityCache)
    (s : Store) : Store :=
  mkStore (profiles s) (personalProjects s) (publications s) (experiences s)
          (badgeDefinitions s) (studentBadges s) (badgePolicies s) (f (badgeEligibilityCache s)).

(** ** The auth service and the network service, as seen through HTTP *)

(** What an axios call gives: a 2xx response with its body ([None] when the
    body is empty), or a rejection that carries [error.response?.status]
    (absent on a timeout or a network error). *)
Inductive AxiosResult (A : Type) :=
| Resolved (data : option A)
| Rejected (status : option Z).
Arguments Resolved {A} data.
Arguments Rejected {A} status.

(** The [user] object of [GET /v1/users/:id]. *)
Record UserInfo := mkUserInfo {
  user_displayName : option string;
  user_name : option string;
  user_email : option string;
  user_avatarUrl : option string;
  user_collegeId : option string;
  user_collegeMemberId : option string;
  user_department : option string;
  user_year : option Z;
  user_roles : option (list string);
  user_createdAt : option string
}.

Record UserResponse := mkUserResponse { response_user : option UserInfo }.
Record CollegeResponse := mkCollegeResponse { college_name : option string }.

(** [userInfo?.field] *)
Definition opt_field {A} (f : UserInfo → option A) (userInfo : option UserInfo) : option A :=
  userInfo ≫= f.

Record BadgeData := mkBadgeData {
  data_badgeId : string;
  data_badgeName : string;
  data_description : string;
  data_criteria : string;
  data_rarity : string;
  data_awardedTo : string;
  data_awardedToId : string;
  data_awardedAt : Date;
  data_awardedByName : option string
}.

Record PostData := mkPostData {
  post_type : string;
  post_content : string;
  post_visibility : string;
  post_badgeData : BadgeData;
  post_tags : list string
}.

(** What [fetch] gives for the post to the network service: a response
    with its status (and whether its body parses as JSON), or a thrown
    network error. *)
Inductive FetchResult :=
| FetchResponse (status : Z) (json : bool)
| FetchError.

(** [response.ok] *)
Definition fetch_ok (status : Z) : bool := (200 <=? status) && (status <=? 299).

(** ** The environment of one request *)

Record Env := mkEnv {
  getUser : string → AxiosResult UserResponse;
  getCollege : string → AxiosResult CollegeResponse;
  postSpecialized : PostData → FetchResult;
  (** [process.env.BADGE_AUTO_POST_ENABLED] *)
  BADGE_AUTO_POST_ENABLED : option string;
  (** the n-th reading of the clock and the n-th generated id *)
  clock : nat → Date;
  cuid : nat → string
}.

(** ** Worlds and handlers *)

Inductive Table :=
| TProfile | TPersonalProject | TPublication | TExperience
| TBadgeDefinition | TStudentBadge | TBadgePolicy | TBadgeEligibilityCache.

(** The external calls a handler makes, in order. *)
Inductive Effect :=
| Query (t : Table)
| Mutation (t : Table)
| HttpGetUser (userId : string)
| HttpGetCollege (collegeId : string)
| HttpPostSpecialized (post : PostData).

Record World := mkWorld {
  store : Store;
  log : list Effect;
  clockReads : nat;
  idsDrawn : nat
}.

Definition M (A : Type) : Type := World → A * World.

Definition ret {A} (a : A) : M A := λ w, (a, w).

Definition bind {A B} (m : M A) (k : A → M B) : M B :=
  λ w, let (a, w') := m w in k a w'.

Notation "x <- m ;; k" := (bind m (λ x, k))
  (at level 100, m at next level, right associativity).
Notation "m ;;; k" := (bind m (λ _, k))
  (at level 100, right associativity).

Definition emit (e : Effect) : M unit :=
  λ w, (tt, mkWorld (store w) (log w ++ [e])%list (clockReads w) (idsDrawn w)).

Definition peek {A} (f : Store → A) : M A := λ w, (f (store w), w).

Definition poke (f : Store → Store) : M unit :=
  λ w, (tt, mkWorld (f (store w)) (log w) (clockReads w) (idsDrawn w)).

(** A read of table [t]. *)
Definition query {A} (t : Table) (f : Store → A) : M A :=
  emit (Query t) ;;; peek f.

(** [new Date()] / [Date.now()] *)
Definition newDate (env : Env) : M Date :=
  λ w, (clock env (clockReads w),
        mkWorld (store w) (log w) (S (clockReads w)) (idsDrawn w)).

(** The id the store generates for a new row. *)
Definition newId (env : Env) : M string :=
  λ w, (cuid env (idsDrawn w),
        mkWorld (store w) (log w) (clockReads w) (S (idsDrawn w))).

(** [axios.get(`${authServiceUrl}/v1/users/${userId}`)] *)
Definition axios_getUser (env : Env) (userId : string) : M (AxiosResult UserResponse) :=
  emit (HttpGetUser userId) ;;; ret (getUser env userId).

(** [axios.get(`${authServiceUrl}/v1/colleges/${collegeId}`)] *)
Definition axios_getCollege (env : Env) (collegeId : string) : M (AxiosResult CollegeResponse) :=
  emit (HttpGetCollege collegeId) ;;; ret (getCollege env collegeId).

(** ** Responses *)

Record EnhancedProfile := mkEnhancedProfile {
  view_id : string;
  view_userId : string;
  view_name : string;
  view_displayName : string;
  view_email : string;
  view_avatarUrl : string;
  view_bio : string;
  view_skills : list string;
  view_linkedIn : string;
  view_github : string;
  view_twitter : string;
  view_resumeUrl : string;
  view_contactInfo : string;
  view_phoneNumber : string;
  view_alternateEmail : string;
  view_collegeName : option string;
  view_collegeId : string;
  view_collegeMemberId : string;
  view_department : string;
  view_year : option Z;
  view_roles : list string;
  view_joinedAt : option (string + Date);
  view_experiences : list (string * Experience);
  view_badges : list (StudentBadge * BadgeDefinition);
  view_projects : list (string * PersonalProject);
  view_publications : list (string * Publication)
}.

Record EligibilityView := mkEligibilityView {
  elig_canCreate : bool;
  elig_badgeCount : Z;
  elig_requiredBadges : option Z;
  elig_categories : list string;
  elig_requiredCategories : option Z;
  elig_lastChecked : Date
}.

Inductive Body :=
| NoBody
| MessageBody (message : string)
| ErrorBody (error message : string)
| InternalServerError
| ValidationError
| ProfileBody (profile : EnhancedProfile)
| SkillsBody (skills : list string)
| ProjectBody (id : string) (project : PersonalProject)
| PublicationBody (id : string) (publication : Publication)
| ExperienceBody (id : string) (experience : Experience)
| BadgeBody (badge : StudentBadge) (definition : BadgeDefinition)
| EligibilityBody (view : EligibilityView)
| EligibilityFailure (error : string) (canCreate : bool) (missing : option (list string)).

Record Response := mkResponse { status : Z; body : Body }.

(** [reply.send(b)] on a fresh reply answers 200. *)
Definition send (b : Body) : Response := mkResponse 200 b.

(** [reply.code(c).send(b)] *)
Definition code_send (c : Z) (b : Body) : Response := mkResponse c b.

(** ** The request framework: requests, replies and preHandler hooks *)

(** The claims of a verified access token. *)
Record JwtPayload := mkJwtPayload {
  payload_sub : string;
  payload_email : option string;
  payload_roles : option (list string);
  payload_name : option string
}.

(** [request.user], set by [requireAuth]. *)
Record RequestUser := mkRequestUser {
  ru_sub : string;
  ru_id : string;
  ru_email : string;
  ru_roles : list string;
  ru_displayName : option string
}.

Record FastifyRequest := mkRequest {
  authorization : option string;
  user : option RequestUser
}.

(** A reply holds the response once it is sent. *)
Record FastifyReply := mkReply { sent : option Response }.

Definition freshReply : FastifyReply := mkReply None.

(** [reply.code(c).send(b)]: the first response sent is the one the
    client receives; sending again on a reply that was sent changes
    nothing. *)
Definition reply_code_send (c : Z) (b : Body) (reply : FastifyReply) : FastifyReply :=
  match sent reply with
  | Some _ => reply
  | None => mkReply (Some (code_send c b))
  end.

(** An async hook either returns or throws. *)
Inductive Completion := Returned | Threw.

Definition Hook : Type :=
  FastifyRequest → FastifyReply → Completion * FastifyRequest * FastifyReply.

(** The framework runs the preHandler hooks in order. It stops at the
    first hook that leaves the reply sent, and answers 500 when a hook
    throws on a reply that was not sent. *)
Fixpoint runHooks (hooks : list Hook) (request : FastifyRequest) (reply : FastifyReply)
    : FastifyRequest * FastifyReply :=
  match hooks with
  | [] => (request, reply)
  | hook :: rest =>
      match sent reply with
      | Some _ => (request, reply)
      | None =>
          let '(completion, request', reply') := hook request reply in
          match completion with
          | Returned => runHooks rest request' reply'
          | Threw => (request', reply_code_send 500 InternalServerError reply')
          end
      end
  end.

(** A route. The framework first validates the params and the body of
    the request against the schema of the route, with the validator
    that [setValidatorCompiler] installs: [valid] is what the validator
    finds. A request that fails is answered by the error handler of the
    framework, with status 400 and a body that lists the issues
    ([ValidationError]), before any preHandler hook runs. For a request
    that passes, the hooks run, and the handler runs only when no hook
    has sent the reply. *)
Definition route (valid : bool) (preHandler : list Hook)
    (handler : FastifyRequest → M Response) (request : FastifyRequest) : M Response :=
  if valid then
    let '(request', reply) := runHooks preHandler request freshReply in
    match sent reply with
    | Some response => ret response
    | None => handler request'
    end
  else ret (code_send 400 ValidationError).

(** [req.user!]: a handler that reads the caller. A handler that throws
    is answered with a 500. *)
Definition with_request_user (handler : RequestUser → M Response)
    : FastifyRequest → M Response :=
  λ request,
    match user request with
    | Some u => handler u
    | None => ret (code_send 500 InternalServerError)
    end.

(** [req.user!.sub]: a handler that reads the caller's id. *)
Definition with_user (handler : string → M Response) : FastifyRequest → M Response :=
  with_request_user (λ u, handler (ru_sub u)).

(** ** middleware/auth *)

(** The object [requireAuth] stores in [request.user]. *)
Definition requestUser (payload : JwtPayload) : RequestUser :=
  {| ru_sub := payload_sub payload;
     ru_id := payload_sub payload;
     ru_email := Js.or_empty (payload_email payload);
     ru_roles := Js.or_nil (payload_roles payload);
     ru_displayName := payload_name payload |}.

Section Auth.

(** [verifyAccessToken] of [utils/jwt]: the payload of a token it
    accepts, [None] when it throws. *)
Variable verifyAccessToken : string → option JwtPayload.

Definition requireAuth : Hook :=
  λ request reply,
    let missing := reply_code_send 401 (MessageBody "Missing authorization token") reply in
    match authorization request with
    | Some auth =>
        if String.prefix "Bearer " auth then
          let token := Js.slice_from (String.length "Bearer ") auth in
          match verifyAccessToken token with
          | Some payload =>
              (Returned,
               mkRequest (authorization request) (Some (requestUser payload)),
               reply)
          | None =>
              (Returned, request,
               reply_code_send 401 (MessageBody "Invalid or expired token") reply)
          end
        else (Returned, request, missing)
    | None => (Returned, request, missing)
    end.

Definition requireRole (roles : list string) : Hook :=
  λ request reply,
    let '(_, request1, reply1) := requireAuth request reply in
    let forbidden :=
      reply_code_send 403 (MessageBody "Insufficient permissions") reply1 in
    match user request1 with
    | Some u =>
        let hasRole := existsb (λ role, bool_decide (role ∈ ru_roles u)) roles in
        if hasRole then (Returned, request1, reply1)
        else (Returned, request1, forbidden)
    | None =>
        (* [user] is undefined: the first call of the [some] callback
           throws on [user.roles]; with no role to try, [hasRole] is false *)
        match roles with
        | [] => (Returned, request1, forbidden)
        | _ :: _ => (Threw, request1, reply1)
        end
    end.

End Auth.

(** ** Prisma operations *)

Definition newProfile (id : string) (createdAt : Date) : Profile :=
  {| profile_id := id; profile_name := None; profile_bio := None;
     profile_skills := []; profile_expertise := [];
     profile_linkedIn := None; profile_github := None; profile_twitter := None;
     profile_resumeUrl := None; profile_contactInfo := None;
     profile_phoneNumber := None; profile_alternateEmail := None;
     profile_department := None; profile_year := None;
     profile_createdAt := createdAt |}.

Definition with_name (name : string) (p : Profile) : Profile :=
  {| profile_id := profile_id p; profile_name := Some name; profile_bio := profile_bio p;
     profile_skills := profile_skills p; profile_expertise := profile_expertise p;
     profile_linkedIn := profile_linkedIn p; profile_github := profile_github p;
     profile_twitter := profile_twitter p; profile_resumeUrl := profile_resumeUrl p;
     profile_contactInfo := profile_contactInfo p;
     profile_phoneNumber := profile_phoneNumber p;
     profile_alternateEmail := profile_alternateEmail p;
     profile_department := profile_department p; profile_year := profile_year p;
     profile_createdAt := profile_createdAt p |}.

Definition with_skills (skills : list string) (p : Profile) : Profile :=
  {| profile_id := profile_id p; profile_name := profile_name p; profile_bio := profile_bio p;
     profile_skills := skills; profile_expertise := profile_expertise p;
     profile_linkedIn := profile_linkedIn p; profile_github := profile_github p;
     profile_twitter := profile_twitter p; profile_resumeUrl := profile_resumeUrl p;
     profile_contactInfo := profile_contactInfo p;
     profile_phoneNumber := profile_phoneNumber p;
     profile_alternateEmail := profile_alternateEmail p;
     profile_department := profile_department p; profile_year := profile_year p;
     profile_createdAt := profile_createdAt p |}.

(** [prisma.profile.findUnique({ where: { userId } })] *)
Definition profile_findUnique (userId : string) : M (option Profile) :=
  query TProfile (λ s, profiles s !! userId).

(** [prisma.profile.upsert({ where: { userId }, update, create })]: one
    statement on the profile table. A created row gets its id and its
    creation date from the store. *)
Definition profile_upsert (env : Env) (userId : string)
    (update : Profile → Profile) (create : Profile → Profile) : M Profile :=
  emit (Mutation TProfile) ;;;
  existing <- peek (λ s, profiles s !! userId) ;;
  match existing with
  | Some p =>
      poke (set_profiles (<[userId := update p]>)) ;;;
      ret (update p)
  | None =>
      id <- newId env ;;
      createdAt <- newDate env ;;
      poke (set_profiles (<[userId := create (newProfile id createdAt)]>)) ;;;
      ret (create (newProfile id createdAt))
  end.

(** The rows of a relation that belong to [userId]. *)
Definition related {A} (owner : A → string) (userId : string) (m : gmap string A)
    : list (string * A) :=
  filter (λ row, owner row.2 = userId) (map_to_list m).

(** An award joined to its badge definition ([include: { badge: true }]). *)
Definition joinBadge (s : Store) (award : StudentBadge) : option (StudentBadge * BadgeDefinition) :=
  (λ definition, (award, definition)) <$> badgeDefinitions s !! award_badgeId award.

(** The awards of [userId], each with its badge definition. *)
Definition awardsOf (s : Store) (userId : string) : list (StudentBadge * BadgeDefinition) :=
  omap (joinBadge s) (filter (λ award, award_studentId award = userId) (studentBadges s)).

(** A profile read with
    [include: { personalProjects, publications, experiences, studentBadges: { include: { badge } } }]. *)
Record ProfileIncluded := mkProfileIncluded {
  row : Profile;
  inc_personalProjects : list (string * PersonalProject);
  inc_publications : list (string * Publication);
  inc_experiences : list (string * Experience);
  inc_studentBadges : list (StudentBadge * BadgeDefinition)
}.

Definition included (s : Store) (userId : string) (p : Profile) : ProfileIncluded :=
  {| row := p;
     inc_personalProjects := related project_userId userId (personalProjects s);
     inc_publications := related publication_userId userId (publications s);
     inc_experiences := related experience_userId userId (experiences s);
     inc_studentBadges := awardsOf s userId |}.

Definition profile_findUnique_include (userId : string) : M (option ProfileIncluded) :=
  query TProfile (λ s, included s userId <$> profiles s !! userId).

Definition profile_upsert_include (env : Env) (userId : string)
    (update : Profile → Profile) (create : Profile → Profile) : M ProfileIncluded :=
  p <- profile_upsert env userId update create ;;
  peek (λ s, included s userId p).

(** ** Profile enrichment: GET /v1/profile/me and GET /v1/profile/user/:userId *)

(** The [try] block that asks the auth service for the user and, when the
    user has a college, for the college's name. Every failure is caught:
    the user info stays [null] when the user request fails, the college
    name stays [null] when the college request fails. *)
Definition fetchUserInfo (env : Env) (userId : string)
    : M (option UserInfo * option string) :=
  response <- axios_getUser env userId ;;
  match response with
  | Resolved (Some data) =>
      let userInfo := response_user data in
      if Js.truthy (opt_field user_collegeId userInfo) then
        collegeResponse <-
          axios_getCollege env (Js.or_empty (opt_field user_collegeId userInfo)) ;;
        match collegeResponse with
        | Resolved collegeData =>
            ret (userInfo, Js.or_null (collegeData ≫= college_name))
        | Rejected _ => ret (userInfo, None)
        end
      else ret (userInfo, None)
  | Resolved None => ret (None, None)
  | Rejected _ => ret (None, None)
  end.

(** The response object built from the stored profile and the user info. *)
Definition enhancedProfile (userId : string) (profile : option ProfileIncluded)
    (userInfo : option UserInfo) (collegeName : option string) : EnhancedProfile :=
  let local {A} (f : Profile → option A) : option A := profile ≫= (λ p, f (row p)) in
  {| view_id := Js.or_empty (profile_id ∘ row <$> profile);
     view_userId := userId;
     view_name :=
       Js.or_empty (Js.or (local profile_name) (opt_field user_displayName userInfo));
     view_displayName := Js.or_empty (opt_field user_displayName userInfo);
     view_email := Js.or_empty (opt_field user_email userInfo);
     view_avatarUrl := Js.or_empty (opt_field user_avatarUrl userInfo);
     view_bio := Js.or_empty (local profile_bio);
     view_skills := Js.or_nil (profile_skills ∘ row <$> profile);
     view_linkedIn := Js.or_empty (local profile_linkedIn);
     view_github := Js.or_empty (local profile_github);
     view_twitter := Js.or_empty (local profile_twitter);
     view_resumeUrl := Js.or_empty (local profile_resumeUrl);
     view_contactInfo := Js.or_empty (local profile_contactInfo);
     view_phoneNumber := Js.or_empty (local profile_phoneNumber);
     view_alternateEmail := Js.or_empty (local profile_alternateEmail);
     view_collegeName := collegeName;
     view_collegeId := Js.or_empty (opt_field user_collegeId userInfo);
     view_collegeMemberId := Js.or_empty (opt_field user_collegeMemberId userInfo);
     view_department :=
       Js.or_empty (Js.or (local profile_department) (opt_field user_department userInfo));
     view_year :=
       Js.or_num (Js.or_num (local profile_year) (opt_field user_year userInfo)) None;
     view_roles := Js.or_nil (opt_field user_roles userInfo);
     view_joinedAt :=
       if Js.truthy (opt_field user_createdAt userInfo)
       then inl <$> opt_field user_createdAt userInfo
       else inr ∘ profile_createdAt ∘ row <$> profile;
     view_experiences := Js.or_nil (inc_experiences <$> profile);
     view_badges := Js.or_nil (inc_studentBadges <$> profile);
     view_projects := Js.or_nil (inc_personalProjects <$> profile);
     view_publications := Js.or_nil (inc_publications <$> profile) |}.

(** The handler of both enrichment routes (the source repeats the same
    text in each). The stored name is written only when the auth service
    gives a display name and no name is stored. *)
Definition get_enhanced_profile (env : Env) (userId : string) : M Response :=
  initialProfile <- profile_findUnique_include userId ;;
  fetched <- fetchUserInfo env userId ;;
  let '(userInfo, collegeName) := fetched in
  profile <-
    (if Js.truthy (opt_field user_displayName userInfo)
        && (bool_decide (initialProfile = None)
            || negb (Js.truthy (initialProfile ≫= (λ p, profile_name (row p)))))
     then
       upserted <-
         profile_upsert_include env userId
           (with_name (Js.or_empty (opt_field user_displayName userInfo)))
           (with_name (Js.or_empty (opt_field user_displayName userInfo))) ;;
       ret (Some upserted)
     else ret initialProfile) ;;
  ret (send (ProfileBody (enhancedProfile userId profile userInfo collegeName))).

(** ** String built-ins *)

(** The built-ins of JavaScript strings that the routes call, kept
    abstract: [decodeURIComponent] is [None] when it throws. *)
Class JsString := {
  toLowerCase : string → string;
  trim : string → string;
  decodeURIComponent : string → option string
}.

(** ** Skills: the routes under /v1/profile/me/skills *)

Section Skills.
Context `{JsString}.

(** [skills.map(trim).filter(nonempty).slice(0, 50)] *)
Definition cleanSkills (skills : list string) : list string :=
  take 50 (List.filter (λ skill, (0 <? String.length skill)%nat) (map trim skills)).

(** GET /v1/profile/me/skills *)
Definition get_skills (userId : string) : M Response :=
  profile <- profile_findUnique userId ;;
  ret (send (SkillsBody (Js.or_nil (profile_skills <$> profile)))).

(** PUT /v1/profile/me/skills *)
Definition put_skills (env : Env) (skills : list string) (userId : string) : M Response :=
  let cleanedSkills := cleanSkills skills in
  profile <- profile_upsert env userId (with_skills cleanedSkills) (with_skills cleanedSkills) ;;
  ret (send (SkillsBody (profile_skills profile))).

(** POST /v1/profile/me/skills *)
Definition post_skill (env : Env) (skill : string) (userId : string) : M Response :=
  let cleanedSkill := trim skill in
  if negb (Js.truthy_string cleanedSkill) then
    ret (code_send 400 (MessageBody "Skill cannot be empty"))
  else
    profile <- profile_findUnique userId ;;
    let currentSkills := Js.or_nil (profile_skills <$> profile) in
    if existsb (λ s, String.eqb (toLowerCase s) (toLowerCase cleanedSkill)) currentSkills then
      ret (code_send 400 (MessageBody "Skill already exists"))
    else if (50 <=? List.length currentSkills)%nat then
      ret (code_send 400 (MessageBody "Maximum 50 skills allowed"))
    else
      let updatedSkills := (currentSkills ++ [cleanedSkill])%list in
      updatedProfile <-
        profile_upsert env userId (with_skills updatedSkills) (with_skills updatedSkills) ;;
      ret (send (SkillsBody (profile_skills updatedProfile))).

(** DELETE /v1/profile/me/skills/:skill *)
Definition delete_skill (env : Env) (skill : string) (userId : string) : M Response :=
  match decodeURIComponent skill with
  | None => ret (code_send 500 InternalServerError)
  | Some decodedSkill =>
      profile <- profile_findUnique userId ;;
      let currentSkills := Js.or_nil (profile_skills <$> profile) in
      let updatedSkills := List.filter (λ s, negb (String.eqb s decodedSkill)) currentSkills in
      updatedProfile <-
        profile_upsert env userId (with_skills updatedSkills) (with_skills updatedSkills) ;;
      ret (send (SkillsBody (profile_skills updatedProfile)))
  end.

End Skills.

(** ** Projects, publications and experiences: update and delete *)

Record PersonalProjectInput := mkPersonalProjectInput {
  in_title : string;
  in_description : string;
  in_github : option string;
  in_demoLink : option string;
  in_image : option string
}.

Record PublicationInput := mkPublicationInput {
  in_pub_title : string;
  in_pub_year : Z;
  in_pub_link : option string
}.

Record ExperienceInput := mkExperienceInput {
  in_area : string;
  in_level : Level;
  in_yearsExp : option Z;
  in_exp_description : option string
}.

(** A field absent from [data] keeps its stored value. *)
Definition updated {A} (new old : option A) : option A :=
  match new with
  | Some v => Some v
  | None => old
  end.

Definition updateProject (data : PersonalProjectInput) (p : PersonalProject) : PersonalProject :=
  {| project_userId := project_userId p;
     project_title := in_title data;
     project_description := in_description data;
     project_github := updated (in_github data) (project_github p);
     project_demoLink := updated (in_demoLink data) (project_demoLink p);
     project_image := updated (in_image data) (project_image p);
     project_createdAt := project_createdAt p |}.

Definition updatePublication (data : PublicationInput) (p : Publication) : Publication :=
  {| publication_userId := publication_userId p;
     publication_title := in_pub_title data;
     publication_year := in_pub_year data;
     publication_link := updated (in_pub_link data) (publication_link p);
     publication_createdAt := publication_createdAt p |}.

Definition updateExperience (data : ExperienceInput) (e : Experience) : Experience :=
  {| experience_userId := experience_userId e;
     experience_area := in_area data;
     experience_level := in_level data;
     experience_yearsExp := updated (in_yearsExp data) (experience_yearsExp e);
     experience_description := updated (in_exp_description data) (experience_description e) |}.

(** [findFirst({ where: { id, profile: { userId } } })] on a relation
    whose rows point at their profile through [userId]: the row with this
    id, when its owner is [userId]. *)
Definition findFirst_owned {A} (owner : A → string) (m : gmap string A)
    (id userId : string) : option A :=
  match m !! id with
  | Some r => if bool_decide (owner r = userId) then Some r else None
  | None => None
  end.

(** [update({ where: { id }, data })]: the updated row, [None] when the
    row is missing (the client throws). *)
Definition update_row {A} (t : Table) (get : Store → gmap string A)
    (set : (gmap string A → gmap string A) → Store → Store)
    (id : string) (f : A → A) : M (option A) :=
  emit (Mutation t) ;;;
  existing <- peek (λ s, get s !! id) ;;
  match existing with
  | Some r => poke (set (<[id := f r]>)) ;;; ret (Some (f r))
  | None => ret None
  end.

(** [delete({ where: { id } })]: the deleted row, [None] when the row is
    missing (the client throws). *)
Definition delete_row {A} (t : Table) (get : Store → gmap string A)
    (set : (gmap string A → gmap string A) → Store → Store)
    (id : string) : M (option A) :=
  emit (Mutation t) ;;;
  existing <- peek (λ s, get s !! id) ;;
  match existing with
  | Some r => poke (set (delete id)) ;;; ret (Some r)
  | None => ret None
  end.

(** PUT /v1/profiles/me/projects/:projectId *)
Definition put_project (projectId : string) (data : PersonalProjectInput) (userId : string)
    : M Response :=
  existingProject <-
    query TPersonalProject (λ s, findFirst_owned project_userId (personalProjects s) projectId userId) ;;
  match existingProject with
  | None => ret (code_send 404 (MessageBody "Project not found"))
  | Some _ =>
      project <- update_row TPersonalProject personalProjects set_personalProjects
                   projectId (updateProject data) ;;
      match project with
      | Some p => ret (send (ProjectBody projectId p))
      | None => ret (code_send 500 InternalServerError)
      end
  end.

(** DELETE /v1/profiles/me/projects/:projectId *)
Definition delete_project (projectId : string) (userId : string) : M Response :=
  existingProject <-
    query TPersonalProject (λ s, findFirst_owned project_userId (personalProjects s) projectId userId) ;;
  match existingProject with
  | None => ret (code_send 404 (MessageBody "Project not found"))
  | Some _ =>
      deleted <- delete_row TPersonalProject personalProjects set_personalProjects projectId ;;
      match deleted with
      | Some _ => ret (code_send 204 NoBody)
      | None => ret (code_send 500 InternalServerError)
      end
  end.

(** PUT /v1/profiles/me/publications/:publicationId *)
Definition put_publication (publicationId : string) (data : PublicationInput) (userId : string)
    : M Response :=
  existingPublication <-
    query TPublication (λ s, findFirst_owned publication_userId (publications s) publicationId userId) ;;
  match existingPublication with
  | None => ret (code_send 404 (MessageBody "Publication not found"))
  | Some _ =>
      publication <- update_row TPublication publications set_publications
                       publicationId (updatePublication data) ;;
      match publication with
      | Some p => ret (send (PublicationBody publicationId p))
      | None => ret (code_send 500 InternalServerError)
      end
  end.

(** DELETE /v1/profiles/me/publications/:publicationId *)
Definition delete_publication (publicationId : string) (userId : string) : M Response :=
  existingPublication <-
    query TPublication (λ s, findFirst_owned publication_userId (publications s) publicationId userId) ;;
  match existingPublication with
  | None => ret (code_send 404 (MessageBody "Publication not found"))
  | Some _ =>
      deleted <- delete_row TPublication publications set_publications publicationId ;;
      match deleted with
      | Some _ => ret (code_send 204 (MessageBody "Publication deleted successfully"))
      | None => ret (code_send 500 InternalServerError)
      end
  end.

(** PUT /v1/profile/experiences/:id *)
Definition put_experience (id : string) (data : ExperienceInput) (userId : string)
    : M Response :=
  existingExperience <-
    query TExperience (λ s, findFirst_owned experience_userId (experiences s) id userId) ;;
  match existingExperience with
  | None => ret (code_send 404 (MessageBody "Experience not found or access denied"))
  | Some _ =>
      experience <- update_row TExperience experiences set_experiences
                      id (updateExperience data) ;;
      match experience with
      | Some e => ret (send (ExperienceBody id e))
      | None => ret (code_send 500 InternalServerError)
      end
  end.

(** DELETE /v1/profile/experiences/:id: the row is read by id together
    with its profile, and the owner is compared in the handler. *)
Definition delete_experience (id : string) (userId : string) : M Response :=
  experience <- query TExperience (λ s, experiences s !! id) ;;
  match experience with
  | None => ret (code_send 404 (MessageBody "Experience not found"))
  | Some e =>
      if negb (String.eqb (experience_userId e) userId) then
        ret (code_send 404 (MessageBody "Experience not found"))
      else
        deleted <- delete_row TExperience experiences set_experiences id ;;
        match deleted with
        | Some _ => ret (send (MessageBody "Experience deleted successfully"))
        | None => ret (code_send 500 InternalServerError)
        end
  end.

(** ** Badge awards: POST /v1/badges/award *)

Record AwardInput := mkAwardInput {
  in_badgeDefinitionId : string;
  in_userId : string;
  in_reason : string;
  in_projectId : option string;
  in_eventId : option string;
  in_awardedByName : option string
}.

Definition rarityName (r : Rarity) : string :=
  match r with
  | COMMON => "COMMON"
  | UNCOMMON => "UNCOMMON"
  | RARE => "RARE"
  | EPIC => "EPIC"
  | LEGENDARY => "LEGENDARY"
  end.

Definition dquote : string := String (ascii_of_nat 34) EmptyString.
Definition newline : string := String (ascii_of_nat 10) EmptyString.

(** The party-popper emoji that opens the post, U+1F389 in UTF-8. *)
Definition party_popper : string :=
  String (ascii_of_nat 240) (String (ascii_of_nat 159)
    (String (ascii_of_nat 142) (String (ascii_of_nat 137) EmptyString))).

(** [prisma.studentBadge.create({ data, include: { badge: true } })]: the
    award refers to its badge definition, so the create throws ([None])
    when no definition has this id. *)
Definition studentBadge_create (env : Env) (data : AwardInput) (awardedBy : string)
    : M (option (StudentBadge * BadgeDefinition)) :=
  emit (Mutation TStudentBadge) ;;;
  definition <- peek (λ s, badgeDefinitions s !! in_badgeDefinitionId data) ;;
  match definition with
  | None => ret None
  | Some d =>
      id <- newId env ;;
      awardedAt <- newDate env ;;
      let badge :=
        {| award_id := id;
           award_studentId := in_userId data;
           award_badgeId := in_badgeDefinitionId data;
           award_awardedBy := awardedBy;
           award_awardedByName := in_awardedByName data;
           award_reason := in_reason data;
           award_projectId := in_projectId data;
           award_eventId := in_eventId data;
           award_awardedAt := awardedAt |} in
      poke (set_studentBadges (λ l, (l ++ [badge])%list)) ;;;
      ret (Some (badge, d))
  end.

Section Award.
Context `{JsString}.

Definition badgeAwardPost (badge : StudentBadge * BadgeDefinition) (awardedBy : RequestUser)
    (studentInfo : option UserInfo) : PostData :=
  let studentName :=
    Js.or_empty (Js.or (Js.or (opt_field user_displayName studentInfo)
                              (opt_field user_name studentInfo))
                       (Some "Student")) in
  {| post_type := "BADGE_AWARD";
     post_content :=
       party_popper +:+ " Congratulations to " +:+ studentName
       +:+ " for earning the " +:+ dquote +:+ badge_name badge.2 +:+ dquote
       +:+ " badge!" +:+ newline +:+ newline +:+ award_reason badge.1;
     post_visibility := "COLLEGE";
     post_badgeData :=
       {| data_badgeId := award_badgeId badge.1;
          data_badgeName := badge_name badge.2;
          data_description := badge_description badge.2;
          data_criteria :=
            Js.or_empty (Js.or (badge_criteria badge.2) (Some (award_reason badge.1)));
          data_rarity :=
            Js.or_empty (Js.or (Some (toLowerCase (rarityName (badge_rarity badge.2))))
                               (Some "common"));
          data_awardedTo := studentName;
          data_awardedToId := award_studentId badge.1;
          data_awardedAt := award_awardedAt badge.1;
          data_awardedByName :=
            Js.or (Js.or (award_awardedByName badge.1) (ru_displayName awardedBy)) None |};
     post_tags :=
       "badge" :: "achievement" ::
       List.filter Js.truthy_string
         (option_list (toLowerCase <$> badge_category badge.2)) |}.

(** The post to the network service. It is skipped when the flag is the
    string [false]; otherwise every failure of the request is thrown to
    the caller. *)
Definition createBadgeAwardPost (env : Env) (badge : StudentBadge * BadgeDefinition)
    (awardedBy : RequestUser) (studentInfo : option UserInfo) : M Completion :=
  let autoPostEnabled := negb (bool_decide (BADGE_AUTO_POST_ENABLED env = Some "false")) in
  if negb autoPostEnabled then ret Returned
  else
    let postData := badgeAwardPost badge awardedBy studentInfo in
    emit (HttpPostSpecialized postData) ;;;
    match postSpecialized env postData with
    | FetchResponse status json =>
        if negb (fetch_ok status) then ret Threw
        else if json then ret Returned
        else ret Threw
    | FetchError => ret Threw
    end.

Definition userNotFound (userId : string) : Response :=
  code_send 404
    (ErrorBody "User not found" ("User with ID " +:+ userId +:+ " does not exist")).

Definition post_badges_award (env : Env) (data : AwardInput) (awardedBy : RequestUser)
    : M Response :=
  userResponse <- axios_getUser env (in_userId data) ;;
  match userResponse with
  | Resolved None => ret (userNotFound (in_userId data))
  | Rejected errorStatus =>
      if bool_decide (errorStatus = Some 404) then ret (userNotFound (in_userId data))
      else ret (code_send 500
                  (ErrorBody "Failed to verify user" "Could not verify user existence"))
  | Resolved (Some userData) =>
      let studentInfo := response_user userData in
      profile_upsert env (in_userId data) (λ p, p) (λ p, p) ;;;
      created <- studentBadge_create env data (ru_sub awardedBy) ;;
      match created with
      | None => ret (code_send 500 InternalServerError)
      | Some badge =>
          (* the post is tried inside a try block whose catch only logs *)
          createBadgeAwardPost env badge awardedBy studentInfo ;;;
          ret (code_send 201 (BadgeBody badge.1 badge.2))
      end
  end.

End Award.

(** ** Badge eligibility: GET /v1/badges/eligibility/:userId *)

(** The fresh computation, after the cache gave nothing to return. *)
Definition computeEligibility (env : Env) (userId collegeId : string) : M Response :=
  policy <- query TBadgePolicy (λ s, badgePolicies s !! collegeId) ;;
  let requiredBadges := Js.or_default (policy_eventCreationRequired <$> policy) 8 in
  let requiredCategories := Js.or_default (policy_categoryDiversityMin <$> policy) 4 in
  userBadges <- query TStudentBadge (λ s, awardsOf s userId) ;;
  let activeBadges := List.filter (λ award, badge_isActive award.2) userBadges in
  let categories :=
    Js.set_spread
      (omap (λ cat, if Js.truthy cat then cat else None)
            (map (λ award, badge_category award.2) activeBadges)) in
  let badgeCount := Z.of_nat (List.length activeBadges) in
  let canCreate :=
    (requiredBadges <=? badgeCount)
    && (requiredCategories <=? Z.of_nat (List.length categories)) in
  present <- newDate env ;;
  let expiresAt := present + 30 * 60 * 1000 in
  lastChecked <- newDate env ;;
  emit (Mutation TBadgeEligibilityCache) ;;;
  existing <- peek (λ s, badgeEligibilityCache s !! userId) ;;
  match existing with
  | Some _ =>
      poke (set_badgeEligibilityCache
              (<[userId := mkBadgeEligibilityCache canCreate badgeCount categories
                             lastChecked expiresAt]>))
  | None =>
      createdAt <- newDate env ;;
      poke (set_badgeEligibilityCache
              (<[userId := mkBadgeEligibilityCache canCreate badgeCount categories
                             createdAt expiresAt]>))
  end ;;;
  replied <- newDate env ;;
  ret (send (EligibilityBody
               {| elig_canCreate := canCreate;
                  elig_badgeCount := badgeCount;
                  elig_requiredBadges := Some requiredBadges;
                  elig_categories := categories;
                  elig_requiredCategories := Some requiredCategories;
                  elig_lastChecked := replied |})).

Definition get_eligibility (env : Env) (userId : string) : M Response :=
  userResponse <- axios_getUser env userId ;;
  match userResponse with
  | Rejected _ =>
      ret (code_send 500
             (EligibilityFailure "Failed to check badge eligibility" false None))
  | Resolved userData =>
      let user := userData ≫= response_user in
      if negb (Js.truthy (opt_field user_collegeId user)) then
        ret (code_send 400
               (EligibilityFailure "User college information not found" false (Some [])))
      else
        let collegeId := Js.or_empty (opt_field user_collegeId user) in
        cached <- query TBadgeEligibilityCache (λ s, badgeEligibilityCache s !! userId) ;;
        match cached with
        | Some c =>
            present <- newDate env ;;
            if present <? cache_expiresAt c then
              ret (send (EligibilityBody
                           {| elig_canCreate := cache_canCreate c;
                              elig_badgeCount := cache_badgeCount c;
                              elig_requiredBadges := None;
                              elig_categories := cache_categories c;
                              elig_requiredCategories := None;
                              elig_lastChecked := cache_lastChecked c |}))
            else computeEligibility env userId collegeId
        | None => computeEligibility env userId collegeId
        end
  end.

(** ** The schemas of the routes *)

(** The string formats of zod that the schemas ask for, kept abstract:
    [z.string().cuid()] and [z.string().url()]. *)
Class ZodString := {
  string_cuid : string → bool;
  string_url : string → bool
}.

(** The params and the body of a request are given with the types that
    the schema of the route names (a request without them fails the
    validation as well); the definitions below are the checks of the
    schemas on their values. *)

(** [z.string().min(1)] *)
Definition string_min1 (s : string) : bool := (1 <=? String.length s)%nat.

(** [z.object({ skill: z.string().min(1).max(100) })] *)
Definition skillSchema (skill : string) : bool :=
  string_min1 skill && (String.length skill <=? 100)%nat.

Section Schemas.
Context `{ZodString}.

(** [z.string().url().optional().or(z.literal(""))] *)
Definition optionalUrl (link : option string) : bool :=
  match link with
  | Some s => string_url s || String.eqb s ""
  | None => true
  end.

(** [z.string().cuid().optional()] *)
Definition optionalCuid (id : option string) : bool :=
  match id with
  | Some s => string_cuid s
  | None => true
  end.

Definition personalProjectSchema (data : PersonalProjectInput) : bool :=
  string_min1 (in_title data)
  && string_min1 (in_description data)
  && optionalUrl (in_github data)
  && optionalUrl (in_demoLink data)
  && optionalUrl (in_image data).

Definition experienceSchema (data : ExperienceInput) : bool :=
  string_min1 (in_area data)
  && match in_yearsExp data with
     | Some years => (0 <=? years) && (years <=? 50)
     | None => true
     end.

(** [new Date().getFullYear()], read once when the routes are loaded. *)
Variable currentYear : Z.

Definition publicationSchema (data : PublicationInput) : bool :=
  string_min1 (in_pub_title data)
  && (1900 <=? in_pub_year data) && (in_pub_year data <=? currentYear)
  && optionalUrl (in_pub_link data).

Definition awardBadgeSchema (data : AwardInput) : bool :=
  string_cuid (in_badgeDefinitionId data)
  && string_cuid (in_userId data)
  && string_min1 (in_reason data)
  && optionalCuid (in_projectId data)
  && optionalCuid (in_eventId data).

End Schemas.

(** ** The routes with their schemas and preHandlers *)

Section Routes.
Context `{JsString} `{ZodString}.
Variable verifyAccessToken : string → option JwtPayload.
Variable currentYear : Z.
Variable env : Env.

Definition auth : list Hook := [requireAuth verifyAccessToken].

Definition authAndRole (roles : list string) : list Hook :=
  [requireAuth verifyAccessToken; requireRole verifyAccessToken roles].

Definition route_get_profile_me : FastifyRequest → M Response :=
  route true auth (with_user (get_enhanced_profile env)).

Definition route_get_profile_user (userId : string) : FastifyRequest → M Response :=
  route (string_cuid userId) auth (λ _, get_enhanced_profile env userId).

Definition route_get_skills : FastifyRequest → M Response :=
  route true auth (with_user get_skills).

Definition route_put_skills (skills : list string) : FastifyRequest → M Response :=
  route true auth (with_user (put_skills env skills)).

Definition route_post_skill (skill : string) : FastifyRequest → M Response :=
  route (skillSchema skill) auth (with_user (post_skill env skill)).

Definition route_delete_skill (skill : string) : FastifyRequest → M Response :=
  route true auth (with_user (delete_skill env skill)).

Definition route_put_project (projectId : string) (data : PersonalProjectInput)
    : FastifyRequest → M Response :=
  route (string_cuid projectId && personalProjectSchema data)
        auth (with_user (put_project projectId data)).

Definition route_delete_project (projectId : string) : FastifyRequest → M Response :=
  route (string_cuid projectId) auth (with_user (delete_project projectId)).

Definition route_put_publication (publicationId : string) (data : PublicationInput)
    : FastifyRequest → M Response :=
  route (string_cuid publicationId && publicationSchema currentYear data)
        (authAndRole ["FACULTY"; "HEAD_ADMIN"])
        (with_user (put_publication publicationId data)).

Definition route_delete_publication (publicationId : string) : FastifyRequest → M Response :=
  route (string_cuid publicationId)
        (authAndRole ["FACULTY"; "HEAD_ADMIN"])
        (with_user (delete_publication publicationId)).

Definition route_put_experience (id : string) (data : ExperienceInput)
    : FastifyRequest → M Response :=
  route (string_cuid id && experienceSchema data) auth (with_user (put_experience id data)).

Definition route_delete_experience (id : string) : FastifyRequest → M Response :=
  route (string_cuid id) auth (with_user (delete_experience id)).

Definition route_post_badges_award (data : AwardInput) : FastifyRequest → M Response :=
  route (awardBadgeSchema data)
        (authAndRole ["FACULTY"; "DEPT_ADMIN"; "HEAD_ADMIN"])
        (with_request_user (post_badges_award env data)).

Definition route_get_eligibility (userId : string) : FastifyRequest → M Response :=
  route (string_cuid userId) auth (λ _, get_eligibility env userId).

End Routes.

(** ** The other routes of [routes/profile.routes] *)

Definition set_badgeDefinitions
    (f : gmap string BadgeDefinition → gmap string BadgeDefinition) (s : Store) : Store :=
  mkStore (profiles s) (personalProjects s) (publications s) (experiences s)
          (f (badgeDefinitions s)) (studentBadges s) (badgePolicies s) (badgeEligibilityCache s).

Definition set_badgePolicies
    (f : gmap string BadgePolicy → gmap string BadgePolicy) (s : Store) : Store :=
  mkStore (profiles s) (personalProjects s) (publications s) (experiences s)
          (badgeDefinitions s) (studentBadges s) (f (badgePolicies s)) (badgeEligibilityCache s).

(** A line of the badge export. *)
Record ExportRow := mkExportRow {
  x_badgeName : string;
  x_studentName : string;
  x_collegeMemberId : string;
  x_department : string;
  x_awardedAt : Date;
  x_awardedByName : string;
  x_reason : string;
  x_badgeCategory : string;
  x_badgeRarity : Rarity;
  x_projectName : string;
  x_eventName : string
}.

(** An award of the recent awards: the award with its badge definition
    and the name and the member id of the student, where the auth
    service gave them. *)
Record RecentAward := mkRecentAward {
  recent_award : StudentBadge;
  recent_badge : BadgeDefinition;
  recent_studentName : option string;
  recent_collegeMemberId : option string
}.

(** The bodies these routes send: one of the bodies above, or a stored
    profile with its relations, a listing, a badge definition, the award
    counts, the export, the recent awards, an error alone, a policy. *)
Inductive Payload :=
| Plain (b : Body)
| StoredBody (profile : option ProfileIncluded)
| ProjectsBody (projects : list (string * PersonalProject))
| PublicationsBody (publications : list (string * Publication))
| ExperiencesBody (experiences : list (string * Experience))
| BadgeDefinitionBody (id : string) (badgeDefinition : BadgeDefinition)
| BadgesBody (badges : list (StudentBadge * BadgeDefinition))
| CountsBody (counts : gmap string Z)
| ExportBody (rows : list ExportRow)
| AwardsBody (awards : list RecentAward)
| FailureBody (error : string)
| PolicyBody (collegeId : string) (policy : BadgePolicy).

Record Answer := mkAnswer { answer_status : Z; answer_body : Payload }.

(** [reply.send(b)] and [reply.code(c).send(b)] with these bodies. *)
Definition sendData (b : Payload) : Answer := mkAnswer 200 b.
Definition code_sendData (c : Z) (b : Payload) : Answer := mkAnswer c b.

(** [orderBy: { field: 'desc' }] on a date or a year: the later row
    first. The database leaves the order of rows with equal keys open;
    here they are merged in the order the store holds them. *)
Definition laterFirst {A} (key : A → Z) : relation A := λ x y, key y ≤ key x.

#[global] Instance laterFirst_dec {A} (key : A → Z) : RelDecision (laterFirst key) :=
  λ x y, decide (key y ≤ key x).

Definition orderByDesc {A} (key : A → Z) (rows : list A) : list A :=
  merge_sort (laterFirst key) rows.

(** *** Stored profiles: GET /v1/profile/:userId, GET /v1/profiles/:userId
    and PUT /v1/profile/me *)

(** GET /v1/profile/:userId: the profile, or [null], under status 200. *)
Definition get_profile_userId (userId : string) : M Answer :=
  profile <- profile_findUnique_include userId ;;
  ret (sendData (StoredBody profile)).

(** GET /v1/profiles/:userId: the profile, or the 404. *)
Definition get_profiles_userId (userId : string) : M Answer :=
  profile <- profile_findUnique_include userId ;;
  match profile with
  | None => ret (code_sendData 404 (Plain (MessageBody "Profile not found")))
  | Some p => ret (sendData (StoredBody (Some p)))
  end.

(** The body of PUT /v1/profile/me, every field optional. *)
Record ProfileUpdate := mkProfileUpdate {
  up_displayName : option string;
  up_avatarUrl : option string;
  up_year : option Z;
  up_department : option string;
  up_name : option string;
  up_bio : option string;
  up_skills : option (list string);
  up_expertise : option (list string);
  up_linkedIn : option string;
  up_github : option string;
  up_twitter : option string;
  up_resumeUrl : option string;
  up_contactInfo : option string;
  up_phoneNumber : option string;
  up_alternateEmail : option string
}.

(** The object the handler sends to the auth service. *)
Record UserUpdate := mkUserUpdate {
  uu_displayName : option string;
  uu_avatarUrl : option string;
  uu_year : option Z;
  uu_department : option string
}.

(** [updateData]: a string field is copied when it is truthy, the year
    when it is defined. *)
Definition updateData (data : ProfileUpdate) : UserUpdate :=
  {| uu_displayName := Js.or_null (up_displayName data);
     uu_avatarUrl := Js.or_null (up_avatarUrl data);
     uu_year := up_year data;
     uu_department := Js.or_null (up_department data) |}.

(** [profileData], the rest of the body, written over a profile row: a
    field that is absent keeps the stored value. *)
Definition profileData (data : ProfileUpdate) (p : Profile) : Profile :=
  {| profile_id := profile_id p;
     profile_name := updated (up_name data) (profile_name p);
     profile_bio := updated (up_bio data) (profile_bio p);
     profile_skills := default (profile_skills p) (up_skills data);
     profile_expertise := default (profile_expertise p) (up_expertise data);
     profile_linkedIn := updated (up_linkedIn data) (profile_linkedIn p);
     profile_github := updated (up_github data) (profile_github p);
     profile_twitter := updated (up_twitter data) (profile_twitter p);
     profile_resumeUrl := updated (up_resumeUrl data) (profile_resumeUrl p);
     profile_contactInfo := updated (up_contactInfo data) (profile_contactInfo p);
     profile_phoneNumber := updated (up_phoneNumber data) (profile_phoneNumber p);
     profile_alternateEmail := updated (up_alternateEmail data) (profile_alternateEmail p);
     profile_department := profile_department p;
     profile_year := profile_year p;
     profile_createdAt := profile_createdAt p |}.

(** Whether the body holds a field of the user model. *)
Definition hasUserFields (data : ProfileUpdate) : bool :=
  Js.truthy (up_displayName data) || Js.truthy (up_avatarUrl data)
  || bool_decide (up_year data ≠ None) || Js.truthy (up_department data).

Section ProfileUpdates.

(** [axios.put(`${authServiceUrl}/v1/users/${userId}`, updateData)], as
    the auth service answers it. *)
Variable putUser : string → UserUpdate → AxiosResult unit.

(** PUT /v1/profile/me *)
Definition put_profile_me (env : Env) (data : ProfileUpdate) (userId : string) : M Answer :=
  let upsert :=
    profile <- profile_upsert_include env userId (profileData data) (profileData data) ;;
    ret (sendData (StoredBody (Some profile))) in
  if hasUserFields data then
    match putUser userId (updateData data) with
    | Resolved _ => upsert
    | Rejected _ => ret (code_sendData 500 (Plain (MessageBody "Failed to update user data")))
    end
  else upsert.

End ProfileUpdates.

(** *** Listings: GET /v1/profile/me/projects, /publications, /experiences *)

Definition get_projects (userId : string) : M Answer :=
  projects <-
    query TPersonalProject
      (λ s, orderByDesc (λ row, project_createdAt row.2)
              (related project_userId userId (personalProjects s))) ;;
  ret (sendData (ProjectsBody projects)).

Definition get_publications (userId : string) : M Answer :=
  publications <-
    query TPublication
      (λ s, orderByDesc (λ row, publication_year row.2)
              (related publication_userId userId (publications s))) ;;
  ret (sendData (PublicationsBody publications)).

(** The experiences are read through the profile: [profile?.experiences || []]. *)
Definition get_experiences (userId : string) : M Answer :=
  profile <-
    query TProfile
      (λ s, (λ _, related experience_userId userId (experiences s)) <$> profiles s !! userId) ;;
  ret (sendData (ExperiencesBody (Js.or_nil profile))).

(** *** Creation: POST /v1/profiles/me/projects, /v1/profiles/me/publications and
    /v1/profile/experiences *)

(** [create({ data: { ...data, profile: { connect: { userId } } } })]:
    the store draws the id and the creation date of the row. The create
    throws ([None]) when no profile has this [userId], and when the id
    is taken. *)
Definition create_row {A} (env : Env) (t : Table) (get : Store → gmap string A)
    (set : (gmap string A → gmap string A) → Store → Store)
    (userId : string) (row : Date → A) : M (option (string * A)) :=
  emit (Mutation t) ;;;
  owner <- peek (λ s, profiles s !! userId) ;;
  match owner with
  | None => ret None
  | Some _ =>
      id <- newId env ;;
      createdAt <- newDate env ;;
      taken <- peek (λ s, get s !! id) ;;
      match taken with
      | Some _ => ret None
      | None => poke (set (<[id := row createdAt]>)) ;;; ret (Some (id, row createdAt))
      end
  end.

Definition post_project (env : Env) (data : PersonalProjectInput) (userId : string)
    : M Response :=
  profile_upsert env userId (λ p, p) (λ p, p) ;;;
  project <-
    create_row env TPersonalProject personalProjects set_personalProjects userId
      (λ createdAt,
         {| project_userId := userId;
            project_title := in_title data;
            project_description := in_description data;
            project_github := in_github data;
            project_demoLink := in_demoLink data;
            project_image := in_image data;
            project_createdAt := createdAt |}) ;;
  match project with
  | Some (id, p) => ret (code_send 201 (ProjectBody id p))
  | None => ret (code_send 500 InternalServerError)
  end.

Definition post_publication (env : Env) (data : PublicationInput) (userId : string)
    : M Response :=
  profile_upsert env userId (λ p, p) (λ p, p) ;;;
  publication <-
    create_row env TPublication publications set_publications userId
      (λ createdAt,
         {| publication_userId := userId;
            publication_title := in_pub_title data;
            publication_year := in_pub_year data;
            publication_link := in_pub_link data;
            publication_createdAt := createdAt |}) ;;
  match publication with
  | Some (id, p) => ret (code_send 201 (PublicationBody id p))
  | None => ret (code_send 500 InternalServerError)
  end.

Definition post_experience (env : Env) (data : ExperienceInput) (userId : string)
    : M Response :=
  profile_upsert env userId (λ p, p) (λ p, p) ;;;
  experience <-
    create_row env TExperience experiences set_experiences userId
      (λ _,
         {| experience_userId := userId;
            experience_area := in_area data;
            experience_level := in_level data;
            experience_yearsExp := in_yearsExp data;
            experience_description := in_exp_description data |}) ;;
  match experience with
  | Some (id, e) => ret (send (ExperienceBody id e))
  | None => ret (code_send 500 InternalServerError)
  end.

(** *** Badge definitions and policies: POST /v1/badge-definitions,
    POST /v1/badges/policies and GET /v1/badges/policies/:collegeId *)

Record BadgeDefinitionInput := mkBadgeDefinitionInput {
  in_name : string;
  in_def_description : string;
  in_icon : option string;
  in_color : option string;
  in_category : option string;
  in_criteria : option string;
  in_rarity : Rarity
}.

Record PolicyInput := mkPolicyInput {
  in_collegeId : string;
  in_departmentId : option string;
  in_eventCreationRequired : Z;
  in_categoryDiversityMin : Z
}.

(** The body schema of the policy route asks for thresholds of at least 1. *)
Definition policySchema (data : PolicyInput) : bool :=
  (1 <=? in_eventCreationRequired data) && (1 <=? in_categoryDiversityMin data).

(** The values that the database schema gives to [isActive] in a new
    row; the schema is not part of the sources. *)
Record SchemaDefaults := mkSchemaDefaults {
  default_badge_isActive : bool;
  default_policy_isActive : bool
}.

Section Definitions.
Context `{JsString}.
Variable defaults : SchemaDefaults.

(** [if (data.field && data.field.trim()) createData.field = data.field] *)
Definition keptField (field : option string) : option string :=
  match field with
  | Some s => if Js.truthy_string s && Js.truthy_string (trim s) then Some s else None
  | None => None
  end.

Definition createData (data : BadgeDefinitionInput) (createdBy : string) : BadgeDefinition :=
  {| badge_name := in_name data;
     badge_description := in_def_description data;
     badge_icon := keptField (in_icon data);
     badge_color := keptField (in_color data);
     badge_category := keptField (in_category data);
     badge_criteria := keptField (in_criteria data);
     badge_rarity := in_rarity data;
     badge_createdBy := createdBy;
     badge_isActive := default_badge_isActive defaults |}.

(** POST /v1/badge-definitions. The store draws the id of the row; the
    create throws when the id is taken. *)
Definition post_badge_definition (env : Env) (data : BadgeDefinitionInput)
    (createdBy : string) : M Answer :=
  emit (Mutation TBadgeDefinition) ;;;
  id <- newId env ;;
  taken <- peek (λ s, badgeDefinitions s !! id) ;;
  match taken with
  | Some _ => ret (code_sendData 500 (Plain InternalServerError))
  | None =>
      poke (set_badgeDefinitions (<[id := createData data createdBy]>)) ;;;
      ret (code_sendData 201 (BadgeDefinitionBody id (createData data createdBy)))
  end.

(** POST /v1/badges/policies. A college has at most one policy
    ([collegeId] is the key of [findUnique]): the create throws when the
    college has one. *)
Definition post_policy (data : PolicyInput) : M Answer :=
  emit (Mutation TBadgePolicy) ;;;
  existing <- peek (λ s, badgePolicies s !! in_collegeId data) ;;
  match existing with
  | Some _ => ret (code_sendData 500 (Plain InternalServerError))
  | None =>
      let policy :=
        {| policy_departmentId := in_departmentId data;
           policy_eventCreationRequired := in_eventCreationRequired data;
           policy_categoryDiversityMin := in_categoryDiversityMin data;
           policy_isActive := default_policy_isActive defaults |} in
      poke (set_badgePolicies (<[in_collegeId data := policy]>)) ;;;
      ret (code_sendData 201 (PolicyBody (in_collegeId data) policy))
  end.

End Definitions.

(** GET /v1/badges/policies/:collegeId: the stored policy, or the
    default one. *)
Definition get_policy (collegeId : string) : M Answer :=
  policy <- query TBadgePolicy (λ s, badgePolicies s !! collegeId) ;;
  match policy with
  | None =>
      ret (sendData (PolicyBody collegeId
                       {| policy_departmentId := None;
                          policy_eventCreationRequired := 8;
                          policy_categoryDiversityMin := 4;
                          policy_isActive := true |}))
  | Some p => ret (sendData (PolicyBody collegeId p))
  end.

(** *** Awards read back: GET /v1/profile/badges/:userId,
    GET /v1/badges/counts and GET /v1/badges/export *)

Definition get_user_badges (userId : string) : M Answer :=
  badges <-
    query TStudentBadge
      (λ s, orderByDesc (λ award, award_awardedAt award.1) (awardsOf s userId)) ;;
  ret (code_sendData 200 (BadgesBody badges)).

(** The loop over the badge definitions: one count query for each. *)
Fixpoint countAwards (ids : list string) (counts : gmap string Z) : M (gmap string Z) :=
  match ids with
  | [] => ret counts
  | id :: rest =>
      count <-
        query TStudentBadge
          (λ s, Z.of_nat (List.length
                            (filter (λ award, award_badgeId award = id) (studentBadges s)))) ;;
      countAwards rest (<[id := count]> counts)
  end.

Definition get_counts : M Answer :=
  badgeDefinitions <- query TBadgeDefinition (λ s, (map_to_list (badgeDefinitions s)).*1) ;;
  counts <- countAwards badgeDefinitions ∅ ;;
  ret (code_sendData 200 (CountsBody counts)).

(** The loop over the students of the export: a failed request is
    logged and skipped. *)
Fixpoint fetchStudentDetails (env : Env) (studentIds : list string)
    (studentDetails : gmap string UserInfo) : M (gmap string UserInfo) :=
  match studentIds with
  | [] => ret studentDetails
  | studentId :: rest =>
      userResponse <- axios_getUser env studentId ;;
      match userResponse with
      | Resolved (Some data) =>
          match response_user data with
          | Some user => fetchStudentDetails env rest (<[studentId := user]> studentDetails)
          | None => fetchStudentDetails env rest studentDetails
          end
      | Resolved None => fetchStudentDetails env rest studentDetails
      | Rejected _ => fetchStudentDetails env rest studentDetails
      end
  end.

Definition exportRow (studentDetails : gmap string UserInfo)
    (award : StudentBadge * BadgeDefinition) : ExportRow :=
  let studentInfo := studentDetails !! award_studentId award.1 in
  {| x_badgeName := badge_name award.2;
     x_studentName :=
       Js.or_empty (Js.or (Js.or (opt_field user_displayName studentInfo)
                                 (opt_field user_name studentInfo))
                          (Some "Unknown"));
     x_collegeMemberId :=
       Js.or_empty (Js.or (opt_field user_collegeMemberId studentInfo) (Some "N/A"));
     x_department :=
       Js.or_empty (Js.or (opt_field user_department studentInfo) (Some "N/A"));
     x_awardedAt := award_awardedAt award.1;
     x_awardedByName := Js.or_empty (Js.or (award_awardedByName award.1) (Some "Unknown"));
     x_reason := award_reason award.1;
     x_badgeCategory := Js.or_empty (Js.or (badge_category award.2) (Some "N/A"));
     x_badgeRarity := badge_rarity award.2;
     x_projectName :=
       if Js.truthy (award_projectId award.1)
       then "Project-" +:+ Js.or_empty (award_projectId award.1) else "N/A";
     x_eventName :=
       if Js.truthy (award_eventId award.1)
       then "Event-" +:+ Js.or_empty (award_eventId award.1) else "N/A" |}.

(** Every award with its badge definition, the latest first. *)
Definition allAwards (s : Store) : list (StudentBadge * BadgeDefinition) :=
  orderByDesc (λ award, award_awardedAt award.1) (omap (joinBadge s) (studentBadges s)).

Definition get_export (env : Env) : M Answer :=
  awards <- query TStudentBadge allAwards ;;
  let studentIds := Js.set_spread (map (λ award, award_studentId award.1) awards) in
  studentDetails <- fetchStudentDetails env studentIds ∅ ;;
  ret (sendData (ExportBody (map (exportRow studentDetails) awards))).

(** *** The awards a caller made: GET /v1/badges/recent *)

Definition enhancedAward (studentDetails : gmap string UserInfo)
    (award : StudentBadge * BadgeDefinition) : RecentAward :=
  let studentInfo := studentDetails !! award_studentId award.1 in
  {| recent_award := award.1;
     recent_badge := award.2;
     recent_studentName :=
       Js.or (opt_field user_displayName studentInfo) (opt_field user_name studentInfo);
     recent_collegeMemberId := opt_field user_collegeMemberId studentInfo |}.

Section Recent.

(** [parseInt(limit, 10)]: an integer, or [NaN] ([None]). *)
Variable parseInt : string → option Z.

(** [findMany({ take })] on the rows in their order: the rows that the
    client returns, or [None] when it throws. *)
Variable findMany_take :
  option Z → list (StudentBadge * BadgeDefinition) → option (list (StudentBadge * BadgeDefinition)).

Definition get_recent (env : Env) (limit : option string) (caller : RequestUser) : M Answer :=
  let limitNum := if Js.truthy limit then parseInt (Js.or_empty limit) else Some 10 in
  if negb (Js.truthy_string (ru_id caller)) then
    ret (code_sendData 401 (FailureBody "User not authenticated"))
  else
    let userId := ru_id caller in
    awards <-
      query TStudentBadge
        (λ s, findMany_take limitNum
                (orderByDesc (λ award, award_awardedAt award.1)
                   (omap (joinBadge s)
                      (filter (λ award, award_awardedBy award = userId) (studentBadges s))))) ;;
    match awards with
    | None => ret (code_sendData 500 (Plain InternalServerError))
    | Some awards =>
        let studentIds := Js.set_spread (map (λ award, award_studentId award.1) awards) in
        studentDetails <- fetchStudentDetails env studentIds ∅ ;;
        ret (sendData (AwardsBody (map (enhancedAward studentDetails) awards)))
    end.

End Recent.

(** ** The string built-ins on ASCII text *)

(** An instance of the built-ins for ASCII text: case mapping of the
    letters A to Z, trimming of ASCII white space, and decoding of the
    percent escapes below 128 (any other percent sign throws). *)

Definition ascii_toLower (c : ascii) : ascii :=
  let n := nat_of_ascii c in
  if ((65 <=? n) && (n <=? 90))%nat then ascii_of_nat (n + 32) else c.

Fixpoint string_map (f : ascii → ascii) (s : string) : string :=
  match s with
  | EmptyString => EmptyString
  | String c s' => String (f c) (string_map f s')
  end.

Definition ascii_isSpace (c : ascii) : bool :=
  let n := nat_of_ascii c in
  ((9 <=? n) && (n <=? 13) || (n =? 32))%nat.

Fixpoint trimStart (s : string) : string :=
  match s with
  | EmptyString => EmptyString
  | String c s' => if ascii_isSpace c then trimStart s' else s
  end.

Definition hexDigit (c : ascii) : option nat :=
  let n := nat_of_ascii c in
  if ((48 <=? n) && (n <=? 57))%nat then Some (n - 48)%nat
  else if ((65 <=? n) && (n <=? 70))%nat then Some (n - 55)%nat
  else if ((97 <=? n) && (n <=? 102))%nat then Some (n - 87)%nat
  else None.

Fixpoint percentDecode (s : string) : option string :=
  match s with
  | EmptyString => Some EmptyString
  | String c s' =>
      if (nat_of_ascii c =? 37)%nat then
        match s' with
        | String h (String l rest) =>
            match hexDigit h, hexDigit l with
            | Some a, Some b =>
                if (a <? 8)%nat then
                  String (ascii_of_nat (16 * a + b)) <$> percentDecode rest
                else None
            | _, _ => None
            end
        | _ => None
        end
      else String c <$> percentDecode s'
  end.

#[local] Instance asciiString : JsString := {|
  toLowerCase := string_map ascii_toLower;
  trim := λ s, String.rev (trimStart (String.rev (trimStart s)));
  decodeURIComponent := percentDecode
|}.

(** The string formats for ASCII text. A cuid is the letter c, in either
    case, followed by eight or more characters, none of them white space
    or a hyphen. Of the links, the instance accepts those under
    https://example.com/, which the URL parser takes whatever follows;
    no sample carries another link. *)

Fixpoint string_forallb (f : ascii → bool) (s : string) : bool :=
  match s with
  | EmptyString => true
  | String c s' => f c && string_forallb f s'
  end.

Definition ascii_cuid (s : string) : bool :=
  match s with
  | EmptyString => false
  | String c rest =>
      ((nat_of_ascii c =? 99) || (nat_of_ascii c =? 67))%nat
      && (8 <=? String.length rest)%nat
      && string_forallb (λ d, negb (ascii_isSpace d || (nat_of_ascii d =? 45)%nat)) rest
  end.

#[local] Instance asciiZod : ZodString := {|
  string_cuid := ascii_cuid;
  string_url := String.prefix "https://example.com/"
|}.

(** ** Notions the properties are stated with *)

(** A world extended by the calls a handler logged. *)
Definition logged (es : list Effect) (w : World) : World :=
  mkWorld (store w) (log w ++ es)%list (clockReads w) (idsDrawn w).

(** The skills of a user as a read of the profile gives them. *)
Definition skillsOf (s : Store) (userId : string) : list string :=
  Js.or_nil (profile_skills <$> profiles s !! userId).

(** The request carries a bearer token that [verifyAccessToken] accepts
    with this payload. *)
Definition authenticated (verifyAccessToken : string → option JwtPayload)
    (request : FastifyRequest) (payload : JwtPayload) : Prop :=
  ∃ token, authorization request = Some ("Bearer " +:+ token)
           ∧ verifyAccessToken token = Some payload.

(** The request carries no credential, or one that is not accepted. *)
Definition badCredential (verifyAccessToken : string → option JwtPayload)
    (request : FastifyRequest) : Prop :=
  authorization request = None
  ∨ (∃ auth, authorization request = Some auth ∧ String.prefix "Bearer " auth = false)
  ∨ (∃ token, authorization request = Some ("Bearer " +:+ token)
              ∧ verifyAccessToken token = None).

(** The payload holds one of the roles. *)
Definition holdsRole (roles : list string) (payload : JwtPayload) : Prop :=
  ∃ role, role ∈ roles ∧ role ∈ Js.or_nil (payload_roles payload).

(** No row with this id belongs to [userId]: there is no such row, or its
    owner is someone else. *)
Definition notOwned {A} (owner : A → string) (m : gmap string A) (id userId : string) : Prop :=
  ∀ r, m !! id = Some r → owner r ≠ userId.

(** An award of [userId] whose badge definition is active. *)
Definition activeAward (s : Store) (userId : string) (award : StudentBadge) : bool :=
  bool_decide (award_studentId award = userId)
  && match badgeDefinitions s !! award_badgeId award with
     | Some definition => badge_isActive definition
     | None => false
     end.

Definition activeAwardCount (s : Store) (userId : string) : Z :=
  Z.of_nat (List.length (List.filter (activeAward s userId) (studentBadges s))).

(** The category values that are not null among the active awards. *)
Definition activeCategories (s : Store) (userId : string) : gset string :=
  list_to_set
    (omap (λ award, badgeDefinitions s !! award_badgeId award ≫= badge_category)
          (List.filter (activeAward s userId) (studentBadges s))).

(** The thresholds as the specification words them: the policy's values, and 8
    and 4 when the college has no policy row. *)
Definition statedRequiredBadges (s : Store) (collegeId : string) : Z :=
  match badgePolicies s !! collegeId with
  | Some policy => policy_eventCreationRequired policy
  | None => 8
  end.

Definition statedRequiredCategories (s : Store) (collegeId : string) : Z :=
  match badgePolicies s !! collegeId with
  | Some policy => policy_categoryDiversityMin policy
  | None => 4
  end.

(** The thresholds in force: a stored value of 0 counts as absent too. *)
Definition requiredBadgesOf (s : Store) (collegeId : string) : Z :=
  match badgePolicies s !! collegeId with
  | Some policy =>
      if policy_eventCreationRequired policy =? 0 then 8
      else policy_eventCreationRequired policy
  | None => 8
  end.

Definition requiredCategoriesOf (s : Store) (collegeId : string) : Z :=
  match badgePolicies s !! collegeId with
  | Some policy =>
      if policy_categoryDiversityMin policy =? 0 then 4
      else policy_categoryDiversityMin policy
  | None => 4
  end.

(** The auth service gives the user with this college. *)
Definition resolvesCollege (env : Env) (userId collegeId : string) : Prop :=
  ∃ userData userInfo,
    getUser env userId = Resolved (Some userData)
    ∧ response_user userData = Some userInfo
    ∧ user_collegeId userInfo = Some collegeId
    ∧ collegeId ≠ "".

(** The cache has nothing to return for the user: no row, or a row that
    has expired at the next reading of the clock. *)
Definition cacheStale (env : Env) (userId : string) (w : World) : Prop :=
  ∀ c, badgeEligibilityCache (store w) !! userId = Some c →
       cache_expiresAt c ≤ clock env (clockReads w).

(** The rows that the policy route and the badge-definition route write:
    thresholds that are not 0, and categories that are not empty. *)
Definition writtenByRoutes (s : Store) : Prop :=
  (∀ collegeId policy,
     badgePolicies s !! collegeId = Some policy →
     policy_eventCreationRequired policy ≠ 0 ∧ policy_categoryDiversityMin policy ≠ 0)
  ∧ (∀ id definition,
       badgeDefinitions s !! id = Some definition → badge_category definition ≠ Some "").

(** The eligibility view of a response, when it has one. *)
Definition eligibilityOf (r : Response) : option EligibilityView :=
  match body r with
  | EligibilityBody view => Some view
  | _ => None
  end.

(** The profile view of a response, when it has one. *)
Definition profileOf (r : Response) : option EnhancedProfile :=
  match body r with
  | ProfileBody view => Some view
  | _ => None
  end.

(** The enrichment read repeated, once per environment. *)
Fixpoint reads (envs : list Env) (userId : string) (w : World) : list Response * World :=
  match envs with
  | [] => ([], w)
  | env :: rest =>
      let (r, w1) := get_enhanced_profile env userId w in
      let (rs, w2) := reads rest userId w1 in
      (r :: rs, w2)
  end.

(** The auth service says that it has no such user: a 404, or a
    response with no body. *)
Definition reportsNoSuchUser (r : AxiosResult UserResponse) : Prop :=
  r = Rejected (Some 404) ∨ r = Resolved None.

(** The award row that a request creates in [w]: the store draws one id
    and one date for it, after those of the profile row when the student
    has none yet. *)
Definition awardedBadge (env : Env) (data : AwardInput) (awardedBy : string) (w : World)
    : StudentBadge :=
  let created := bool_decide (profiles (store w) !! in_userId data = None) in
  {| award_id := cuid env (if created then S (idsDrawn w) else idsDrawn w);
     award_studentId := in_userId data;
     award_badgeId := in_badgeDefinitionId data;
     award_awardedBy := awardedBy;
     award_awardedByName := in_awardedByName data;
     award_reason := in_reason data;
     award_projectId := in_projectId data;
     award_eventId := in_eventId data;
     award_awardedAt := clock env (if created then S (clockReads w) else clockReads w) |}.

(** A call to the network service. *)
Definition isPost (e : Effect) : Prop :=
  match e with
  | HttpPostSpecialized _ => True
  | _ => False
  end.

(** A write to the store. *)
Definition isMutation (e : Effect) : Prop :=
  match e with
  | Mutation _ => True
  | _ => False
  end.

(** The profile of a user as the enrichment reads it. *)
Definition storedProfile (s : Store) (userId : string) : option ProfileIncluded :=
  included s userId <$> profiles s !! userId.

(** The response has this status and the store is as it was in [w]. *)
Definition answers (result : Response * World) (code : Z) (w : World) : Prop :=
  status result.1 = code ∧ store result.2 = store w.

(** The answer on a cache hit: the cached values, and no thresholds. *)
Definition cachedView (c : BadgeEligibilityCache) : EligibilityView :=
  {| elig_canCreate := cache_canCreate c;
     elig_badgeCount := cache_badgeCount c;
     elig_requiredBadges := None;
     elig_categories := cache_categories c;
     elig_requiredCategories := None;
     elig_lastChecked := cache_lastChecked c |}.

(** The rule of a fresh computation as the specification words it: the
    thresholds are the policy's own whenever a row exists, and every
    category value that is not null counts. *)
Definition freshRuleAsStated (env : Env) (userId collegeId : string) (w : World) : Prop :=
  resolvesCollege env userId collegeId →
  cacheStale env userId w →
  ∃ view,
    eligibilityOf (get_eligibility env userId w).1 = Some view
    ∧ (elig_canCreate view = true
       ↔ statedRequiredBadges (store w) collegeId ≤ activeAwardCount (store w) userId
         ∧ statedRequiredCategories (store w) collegeId
           ≤ Z.of_nat (size (activeCategories (store w) userId))).

(** The cache hit as the specification words it: an unexpired row is answered
    verbatim, whatever the auth service does. *)
Definition cacheHitAsStated (env : Env) (userId : string) (w : World) : Prop :=
  ∀ c,
    badgeEligibilityCache (store w) !! userId = Some c →
    clock env (clockReads w) < cache_expiresAt c →
    (get_eligibility env userId w).1 = send (EligibilityBody (cachedView c)).

(** The ownership guard as the specification words it for the update of a
    publication: a caller who does not own the row is answered 404. *)
Definition publicationGuardAsStated `{ZodString}
    (verifyAccessToken : string → option JwtPayload) (currentYear : Z)
    (request : FastifyRequest) (payload : JwtPayload) (publicationId : string)
    (data : PublicationInput) (w : World) : Prop :=
  authenticated verifyAccessToken request payload →
  notOwned publication_userId (publications (store w)) publicationId (payload_sub payload) →
  status (route_put_publication verifyAccessToken currentYear publicationId data request w).1
  = 404.

(** The role gate as the specification words it for the delete of a
    publication: a request with a bad credential is answered 401. *)
Definition roleGateAsStated `{ZodString} (verifyAccessToken : string → option JwtPayload)
    (request : FastifyRequest) (publicationId : string) (w : World) : Prop :=
  badCredential verifyAccessToken request →
  status (route_delete_publication verifyAccessToken publicationId request w).1 = 401.


(** The requests of the skills routes. *)
Inductive SkillsRequest :=
| GetSkills
| PutSkills (skills : list string)
| PostSkill (skill : string)
| DeleteSkill (skill : string).

Section SkillsRequests.
Context `{JsString}.

Definition skillsRequest (env : Env) (request : SkillsRequest) (userId : string) : M Response :=
  match request with
  | GetSkills => get_skills userId
  | PutSkills skills => put_skills env skills userId
  | PostSkill skill => post_skill env skill userId
  | DeleteSkill skill => delete_skill env skill userId
  end.

(** The world after a sequence of skills requests, each by some caller. *)
Fixpoint served (env : Env) (requests : list (string * SkillsRequest)) (w : World) : World :=
  match requests with
  | [] => w
  | (userId, request) :: rest => served env rest (skillsRequest env request userId w).2
  end.

End SkillsRequests.

(** No profile holds more than fifty skills. *)
Definition skillsBounded (s : Store) : Prop :=
  ∀ userId, (List.length (skillsOf s userId) ≤ 50)%nat.

(** The row with this id belongs to [userId]. *)
Definition ownedBy {A} (owner : A → string) (m : gmap string A) (id userId : string) : Prop :=
  ∃ r, m !! id = Some r ∧ owner r = userId.

(** The owner of each row of a relation. *)
Definition ownersOf {A} (owner : A → string) (m : gmap string A) : gmap string string :=
  owner <$> m.

(** The store generates ids that no row of the relation has. *)
Definition freshIds {A} (env : Env) (m : gmap string A) : Prop :=
  ∀ n, m !! cuid env n = None.

(** The row that an upsert of the caller's profile starts from: the
    stored row, or a new one. *)
Definition rowBefore (env : Env) (userId : string) (w : World) : Profile :=
  default (newProfile (cuid env (idsDrawn w)) (clock env (clockReads w)))
          (profiles (store w) !! userId).

Section Blank.
Context `{JsString}.

(** An optional field of a body that is absent, empty, or white space
    only. *)
Definition blank (field : option string) : Prop :=
  match field with
  | Some s => s = "" ∨ trim s = ""
  | None => True
  end.

End Blank.

(** The number of awards of a badge. *)
Definition awardCount (s : Store) (badgeId : string) : Z :=
  Z.of_nat (List.length (filter (λ award, award_badgeId award = badgeId) (studentBadges s))).

(** What the auth service tells about a user: the [user] object of a
    2xx answer with a body, nothing otherwise. *)
Definition knownUser (env : Env) (userId : string) : option UserInfo :=
  match getUser env userId with
  | Resolved (Some data) => response_user data
  | Resolved None => None
  | Rejected _ => None
  end.

(** The second store holds the awards of the first and more, under the
    same badge definitions and policies. *)
Definition moreAwards (s s' : Store) : Prop :=
  (∃ extra, studentBadges s' = (studentBadges s ++ extra)%list)
  ∧ badgeDefinitions s' = badgeDefinitions s
  ∧ badgePolicies s' = badgePolicies s.

(** *** The routes as a transition system *)

(** A request as its handler receives it, once the guards of the route
    and the validation of the body have let it pass. *)
Inductive Request :=
| GET_profile_me
| GET_profile_user (userId : string)
| GET_profile_userId (userId : string)
| GET_profiles_userId (userId : string)
| PUT_profile_me (data : ProfileUpdate)
| GET_projects
| POST_project (data : PersonalProjectInput)
| PUT_project (id : string) (data : PersonalProjectInput)
| DELETE_project (id : string)
| GET_publications
| POST_publication (data : PublicationInput)
| PUT_publication (id : string) (data : PublicationInput)
| DELETE_publication (id : string)
| GET_experiences
| POST_experience (data : ExperienceInput)
| PUT_experience (id : string) (data : ExperienceInput)
| DELETE_experience (id : string)
| Skills (request : SkillsRequest)
| POST_badge_definition (data : BadgeDefinitionInput)
| POST_badges_award (data : AwardInput)
| GET_export
| GET_user_badges (userId : string)
| GET_counts
| GET_eligibility (userId : string)
| POST_policy (data : PolicyInput)
| GET_policy (collegeId : string).

(** The world that a handler leaves. *)
Definition after {A} (m : M A) (w : World) : World := (m w).2.

Section Service.
Context `{JsString}.
Variable defaults : SchemaDefaults.

(** The world after a request by [caller]. A policy whose body fails
    the schema of the route is turned down before the handler runs. *)
Definition handle (putUser : string → UserUpdate → AxiosResult unit) (env : Env)
    (caller : RequestUser) (request : Request) : World → World :=
  let userId := ru_sub caller in
  match request with
  | GET_profile_me => after (get_enhanced_profile env userId)
  | GET_profile_user target => after (get_enhanced_profile env target)
  | GET_profile_userId target => after (get_profile_userId target)
  | GET_profiles_userId target => after (get_profiles_userId target)
  | PUT_profile_me data => after (put_profile_me putUser env data userId)
  | GET_projects => after (get_projects userId)
  | POST_project data => after (post_project env data userId)
  | PUT_project id data => after (put_project id data userId)
  | DELETE_project id => after (delete_project id userId)
  | GET_publications => after (get_publications userId)
  | POST_publication data => after (post_publication env data userId)
  | PUT_publication id data => after (put_publication id data userId)
  | DELETE_publication id => after (delete_publication id userId)
  | GET_experiences => after (get_experiences userId)
  | POST_experience data => after (post_experience env data userId)
  | PUT_experience id data => after (put_experience id data userId)
  | DELETE_experience id => after (delete_experience id userId)
  | Skills request => after (skillsRequest env request userId)
  | POST_badge_definition data => after (post_badge_definition defaults env data userId)
  | POST_badges_award data => after (post_badges_award env data caller)
  | GET_export => after (get_export env)
  | GET_user_badges target => after (get_user_badges target)
  | GET_counts => after get_counts
  | GET_eligibility target => after (get_eligibility env target)
  | POST_policy data => if policySchema data then after (post_policy defaults data) else λ w, w
  | GET_policy collegeId => after (get_policy collegeId)
  end.

(** The worlds that the routes lead to from an empty store, whatever the
    callers ask and whatever the auth service and the network service
    answer. *)
Inductive reachable : World → Prop :=
| reachable_empty w : store w = emptyStore → reachable w
| reachable_handle putUser env caller request w :
    reachable w → reachable (handle putUser env caller request w).

End Service.

(** A handler step that leaves the badge definitions, the policies and
    the eligibility cache as they are. *)
Definition keepsRules {A} (m : M A) : Prop :=
  ∀ w, badgeDefinitions (store (m w).2) = badgeDefinitions (store w)
       ∧ badgePolicies (store (m w).2) = badgePolicies (store w)
       ∧ badgeEligibilityCache (store (m w).2) = badgeEligibilityCache (store w).

(** What the routes keep true of a store: every policy threshold is at
    least 1, no badge definition has an empty category, and a cache row
    that says [canCreate] counts at least one badge in at least one
    category. *)
Definition soundRules (s : Store) : Prop :=
  (∀ collegeId policy,
     badgePolicies s !! collegeId = Some policy →
     1 ≤ policy_eventCreationRequired policy ∧ 1 ≤ policy_categoryDiversityMin policy)
  ∧ (∀ id definition,
       badgeDefinitions s !! id = Some definition → badge_category definition ≠ Some "")
  ∧ (∀ userId c,
       badgeEligibilityCache s !! userId = Some c →
       cache_canCreate c = true →
       1 ≤ cache_badgeCount c ∧ cache_categories c ≠ []).

(** The awards that a user made, each with its badge definition. *)
Definition awardsBy (s : Store) (userId : string) : list (StudentBadge * BadgeDefinition) :=
  omap (joinBadge s) (filter (λ award, award_awardedBy award = userId) (studentBadges s)).

(** ** Sample inputs *)

Definition sampleVerify (token : string) : option JwtPayload :=
  if String.eqb token "alice-token" then
    Some (mkJwtPayload "alice" (Some "alice@example.edu") (Some ["STUDENT"]) (Some "Alice"))
  else if String.eqb token "carol-token" then
    Some (mkJwtPayload "carol" (Some "carol@example.edu") (Some ["FACULTY"]) (Some "Carol"))
  else None.

Definition aliceRequest : FastifyRequest := mkRequest (Some "Bearer alice-token") None.
Definition carolRequest : FastifyRequest := mkRequest (Some "Bearer carol-token") None.
Definition forgedRequest : FastifyRequest := mkRequest (Some "Bearer forged") None.

Definition alicePayload : JwtPayload :=
  mkJwtPayload "alice" (Some "alice@example.edu") (Some ["STUDENT"]) (Some "Alice").
Definition carolPayload : JwtPayload :=
  mkJwtPayload "carol" (Some "carol@example.edu") (Some ["FACULTY"]) (Some "Carol").

Definition worldOf (s : Store) : World := mkWorld s [] 0 0.

(** A store with one publication, owned by bob. *)
Definition bobsPublication : Publication :=
  mkPublication "bob" "On finite maps" 2021 None 1000.

Definition publicationStore : Store :=
  set_publications (<["pub1" := bobsPublication]>) emptyStore.

Definition publicationInput : PublicationInput :=
  mkPublicationInput "On finite maps, revised" 2022 None.

(** The same publication under an id as the store draws them, and ids
    that no row has. *)
Definition paperId : string := "cjld2cjxh0000qzrmn831i7rn".
Definition otherId : string := "cjld2cyuq0000t3rmniod1foy".

Definition paperStore : Store :=
  set_publications (<[paperId := bobsPublication]>) emptyStore.

(** The year in which the routes of the samples were loaded. *)
Definition sampleYear : Z := 2025.

(** An environment whose auth service and network service are down. *)
Definition offlineEnv : Env :=
  {| getUser := λ _, Rejected None;
     getCollege := λ _, Rejected None;
     postSpecialized := λ _, FetchError;
     BADGE_AUTO_POST_ENABLED := None;
     clock := λ n, 1000 + Z.of_nat n;
     cuid := λ n, "c" +:+ pretty n |}.

(** The auth service knows alice, a student of college1. *)
Definition aliceInfo : UserInfo :=
  {| user_displayName := Some "Alice"; user_name := None;
     user_email := Some "alice@example.edu"; user_avatarUrl := None;
     user_collegeId := Some "college1"; user_collegeMemberId := None;
     user_department := None; user_year := None;
     user_roles := Some ["STUDENT"]; user_createdAt := None |}.

Definition onlineEnv : Env :=
  {| getUser := λ userId,
       if String.eqb userId "alice" then Resolved (Some (mkUserResponse (Some aliceInfo)))
       else Rejected (Some 404);
     getCollege := λ _, Resolved (Some (mkCollegeResponse (Some "College One")));
     postSpecialized := λ _, FetchError;
     BADGE_AUTO_POST_ENABLED := None;
     clock := λ n, 1000 + Z.of_nat n;
     cuid := λ n, "c" +:+ pretty n |}.

Definition definitionIn (category : option string) : BadgeDefinition :=
  {| badge_name := "Badge"; badge_description := "A badge";
     badge_icon := None; badge_color := None; badge_category := category;
     badge_criteria := None; badge_rarity := COMMON; badge_createdBy := "carol";
     badge_isActive := true |}.

Definition awardOf (id badgeId : string) : StudentBadge :=
  {| award_id := id; award_studentId := "alice"; award_badgeId := badgeId;
     award_awardedBy := "carol"; award_awardedByName := None;
     award_reason := "Well done"; award_projectId := None; award_eventId := None;
     award_awardedAt := 500 |}.

Definition withDefinitions (defs : list (string * BadgeDefinition)) (s : Store) : Store :=
  mkStore (profiles s) (personalProjects s) (publications s) (experiences s)
          (list_to_map defs) (studentBadges s) (badgePolicies s) (badgeEligibilityCache s).

Definition withPolicy (collegeId : string) (required diversity : Z) (s : Store) : Store :=
  mkStore (profiles s) (personalProjects s) (publications s) (experiences s)
          (badgeDefinitions s) (studentBadges s)
          (<[collegeId := mkBadgePolicy None required diversity true]> (badgePolicies s))
          (badgeEligibilityCache s).

(** Eight awards of alice over four categories, and over three. *)
Definition eightAwards : list StudentBadge :=
  [awardOf "a1" "bA"; awardOf "a2" "bA"; awardOf "a3" "bB"; awardOf "a4" "bB";
   awardOf "a5" "bC"; awardOf "a6" "bC"; awardOf "a7" "bD"; awardOf "a8" "bD"].

Definition fourCategories : Store :=
  set_studentBadges (λ _, eightAwards)
    (withDefinitions [("bA", definitionIn (Some "A")); ("bB", definitionIn (Some "B"));
                      ("bC", definitionIn (Some "C")); ("bD", definitionIn (Some "D"))]
       emptyStore).

Definition threeCategories : Store :=
  set_studentBadges (λ _, eightAwards)
    (withDefinitions [("bA", definitionIn (Some "A")); ("bB", definitionIn (Some "B"));
                      ("bC", definitionIn (Some "C")); ("bD", definitionIn (Some "C"))]
       emptyStore).

(** An unexpired cache row for alice. *)
Definition aliceCache : BadgeEligibilityCache :=
  mkBadgeEligibilityCache true 9 ["A"; "B"; "C"; "D"] 900 5000.

Definition cachedStore : Store :=
  set_badgeEligibilityCache (<["alice" := aliceCache]>) emptyStore.

(** The auth service is up and the college lookup is down. *)
Definition collegeDownEnv : Env :=
  {| getUser := getUser onlineEnv;
     getCollege := λ _, Rejected (Some 503);
     postSpecialized := λ _, FetchError;
     BADGE_AUTO_POST_ENABLED := None;
     clock := clock onlineEnv;
     cuid := cuid onlineEnv |}.

(** The flag switches the post off. *)
Definition quietEnv : Env :=
  {| getUser := getUser onlineEnv;
     getCollege := getCollege onlineEnv;
     postSpecialized := λ _, FetchResponse 201 true;
     BADGE_AUTO_POST_ENABLED := Some "false";
     clock := clock onlineEnv;
     cuid := cuid onlineEnv |}.

(** Alice has two skills; dave has fifty. *)
Definition skilledStore : Store :=
  set_profiles
    (λ m, <["alice" := with_skills ["Rocq"; "Lean"] (newProfile "p1" 100)]>
            (<["dave" := with_skills (replicate 50 "skill") (newProfile "p2" 200)]> m))
    emptyStore.

(** An award for a user the auth service does not know, and one for alice. *)
Definition ghostAward : AwardInput :=
  mkAwardInput "bA" "ghost" "Well done" None None None.

Definition aliceAward : AwardInput :=
  mkAwardInput "bA" "alice" "Well done" None None None.

(** The auth service takes, or turns down, an update of the user. *)
Definition acceptingAuth : string → UserUpdate → AxiosResult unit :=
  λ _ _, Resolved (Some tt).

Definition rejectingAuth : string → UserUpdate → AxiosResult unit :=
  λ _ _, Rejected (Some 503).

(** Both [isActive] columns default to true. *)
Definition activeDefaults : SchemaDefaults := mkSchemaDefaults true true.

(** A profile update without a field of the user model, one with a
    display name, and one with fifty-one skills. *)
Definition bioUpdate : ProfileUpdate :=
  {| up_displayName := None; up_avatarUrl := Some ""; up_year := None;
     up_department := None; up_name := None; up_bio := Some "Proof engineer";
     up_skills := None; up_expertise := None; up_linkedIn := None; up_github := None;
     up_twitter := None; up_resumeUrl := None; up_contactInfo := None;
     up_phoneNumber := None; up_alternateEmail := None |}.

Definition renameUpdate : ProfileUpdate :=
  {| up_displayName := Some "Alice L."; up_avatarUrl := None; up_year := None;
     up_department := None; up_name := None; up_bio := Some "Proof engineer";
     up_skills := None; up_expertise := None; up_linkedIn := None; up_github := None;
     up_twitter := None; up_resumeUrl := None; up_contactInfo := None;
     up_phoneNumber := None; up_alternateEmail := None |}.

Definition longUpdate : ProfileUpdate :=
  {| up_displayName := None; up_avatarUrl := None; up_year := None;
     up_department := None; up_name := None; up_bio := None;
     up_skills := Some (replicate 51 " skill "); up_expertise := None;
     up_linkedIn := None; up_github := None;
     up_twitter := None; up_resumeUrl := None; up_contactInfo := None;
     up_phoneNumber := None; up_alternateEmail := None |}.

Definition projectInput : PersonalProjectInput :=
  mkPersonalProjectInput "Verified parser" "A parser with proofs" None None None.

Definition experienceInput : ExperienceInput :=
  mkExperienceInput "Formal methods" Advanced (Some 5) None.

(** A definition whose color is empty and whose category is blank. *)
Definition helperBadge : BadgeDefinitionInput :=
  mkBadgeDefinitionInput "Helper" "Helps other students" (Some "star") (Some "")
                         (Some "   ") None RARE.

Definition collegePolicy : PolicyInput := mkPolicyInput "college1" None 2 1.
Definition stricterPolicy : PolicyInput := mkPolicyInput "college1" None 5 3.

(** The eight awards of alice and one more, to bob. *)
Definition nineAwards : Store :=
  set_studentBadges
    (λ l, (l ++ [mkStudentBadge "a9" "bob" "bA" "carol" None "Well done" None None 600])%list)
    fourCategories.

(** A few requests to the skills routes. *)
Definition skillsTraffic : list (string * SkillsRequest) :=
  [("alice", PutSkills (replicate 60 " skill "));
   ("alice", PostSkill "One more");
   ("bob", PostSkill "Rocq");
   ("alice", DeleteSkill "skill");
   ("alice", PostSkill "One more")].

(** A store built through the routes alone: a policy of two badges in
    one category for college1, a badge definition, and two awards of it
    to alice. *)
Definition teamworkBadge : BadgeDefinitionInput :=
  mkBadgeDefinitionInput "Team player" "Works well with others" None None
                         (Some "Teamwork") None COMMON.

Definition teamworkAward : AwardInput :=
  mkAwardInput "c0" "alice" "Great teamwork" None None None.

Definition served_by_carol (request : Request) (w : World) : World :=
  handle activeDefaults acceptingAuth onlineEnv (requestUser carolPayload) request w.

Definition busyWorld : World :=
  served_by_carol (POST_badges_award teamworkAward)
    (served_by_carol (POST_badges_award teamworkAward)
       (served_by_carol (POST_badge_definition teamworkBadge)
          (served_by_carol (POST_policy collegePolicy) (worldOf emptyStore)))).

(** A reading of decimal limits that knows the limit 1, and a client
    that takes the first rows for a limit that is not negative and
    throws otherwise. *)
Definition parseOne (limit : string) : option Z :=
  if String.eqb limit "1" then Some 1 else None.

Definition takeFirst (limit : option Z) (rows : list (StudentBadge * BadgeDefinition))
    : option (list (StudentBadge * BadgeDefinition)) :=
  match limit with
  | Some n => if 0 <=? n then Some (take (Z.to_nat n) rows) else None
  | None => None
  end.

(** ** Tactics *)

(** Unfold the steps of a handler down to the world it runs in. *)
Ltac run :=
  unfold bind, query, emit, peek, poke, ret, newDate, newId,
         axios_getUser, axios_getCollege;
  simpl.

(** Run a handler whose lookup is settled by the equation [E]. *)
Ltac run_with E := run; rewrite E; reflexivity.

(** * Properties *)

(** ** Strings *)

Lemma prefix_append (p t : string) : String.prefix p (p +:+ t) = true.
Proof.
  induction p as [|c p IH]; simpl.
  - by destruct t.
  - destruct (ascii_dec c c); [exact IH | congruence].
Qed.

Lemma substring_skip (p t : string) (m : nat) :
  String.substring (String.length p) m (p +:+ t) = String.substring 0 m t.
Proof. induction p as [|c p IH]; simpl; [done | exact IH]. Qed.

Lemma substring_all (t : string) : String.substring 0 (String.length t) t = t.
Proof. induction t as [|c t IH]; simpl; [done | by rewrite IH]. Qed.

Lemma length_append (p t : string) :
  String.length (p +:+ t) = (String.length p + String.length t)%nat.
Proof. induction p as [|c p IH]; simpl; [done | by rewrite IH]. Qed.

Lemma slice_from_append (p t : string) : Js.slice_from (String.length p) (p +:+ t) = t.
Proof.
  unfold Js.slice_from. rewrite substring_skip, length_append.
  replace (String.length p + String.length t - String.length p)%nat
    with (String.length t) by lia.
  apply substring_all.
Qed.

(** ** The guards *)

Section Guards.
Variable verifyAccessToken : string → option JwtPayload.

Lemma requireAuth_rejects request reply :
  badCredential verifyAccessToken request →
  ∃ message,
    requireAuth verifyAccessToken request reply
    = (Returned, request, reply_code_send 401 (MessageBody message) reply).
Proof.
  intros [Hauth | [(auth & Hauth & Hprefix) | (token & Hauth & Hverify)]];
    unfold requireAuth; rewrite Hauth.
  - by eexists.
  - rewrite Hprefix. by eexists.
  - rewrite prefix_append, slice_from_append, Hverify. by eexists.
Qed.

Lemma requireAuth_accepts request reply payload :
  authenticated verifyAccessToken request payload →
  requireAuth verifyAccessToken request reply
  = (Returned, mkRequest (authorization request) (Some (requestUser payload)), reply).
Proof.
  intros (token & Hauth & Hverify). unfold requireAuth.
  by rewrite Hauth, prefix_append, slice_from_append, Hverify.
Qed.

Lemma hasRole_holds roles payload :
  existsb (λ role, bool_decide (role ∈ ru_roles (requestUser payload))) roles = true
  ↔ holdsRole roles payload.
Proof.
  rewrite existsb_exists. unfold holdsRole. simpl. split.
  - intros (role & Hin & Hdec). exists role. split.
    + by apply list_elem_of_In.
    + by apply bool_decide_eq_true in Hdec.
  - intros (role & Hin & Hrole). exists role. split.
    + by apply list_elem_of_In.
    + by apply bool_decide_eq_true.
Qed.

(** The chain of a role-gated route answers 401 to a bad credential, and
    so does [requireRole] on its own: the 401 of its inner [requireAuth]
    is the response, whatever happens after it. *)
Lemma role_gate_rejects roles request :
  badCredential verifyAccessToken request →
  ∃ message,
    runHooks (authAndRole verifyAccessToken roles) request freshReply
    = (request, mkReply (Some (code_send 401 (MessageBody message))))
    ∧ sent (runHooks [requireRole verifyAccessToken roles] request freshReply).2
      = Some (code_send 401 (MessageBody message)).
Proof.
  intros Hbad. destruct (requireAuth_rejects request freshReply Hbad) as [message Hauth].
  exists message. split.
  - unfold authAndRole. simpl. by rewrite Hauth.
  - simpl. unfold requireRole. rewrite Hauth.
    destruct (user request) as [u|].
    + by destruct (existsb _ roles).
    + by destruct roles.
Qed.

(** With an accepted credential the chain sets the caller and lets the
    request through exactly when the caller holds one of the roles. *)
Lemma authAndRole_accepts roles request payload :
  authenticated verifyAccessToken request payload →
  runHooks (authAndRole verifyAccessToken roles) request freshReply
  = (mkRequest (authorization request) (Some (requestUser payload)),
     if existsb (λ role, bool_decide (role ∈ ru_roles (requestUser payload))) roles
     then freshReply
     else mkReply (Some (code_send 403 (MessageBody "Insufficient permissions")))).
Proof.
  intros Hok. unfold authAndRole. simpl.
  rewrite (requireAuth_accepts request freshReply payload Hok). simpl.
  unfold requireRole.
  assert (authenticated verifyAccessToken
            (mkRequest (authorization request) (Some (requestUser payload))) payload) as Hok'.
  { destruct Hok as (token & ? & ?). by exists token. }
  rewrite (requireAuth_accepts _ freshReply payload Hok'). simpl.
  by destruct (existsb _ roles).
Qed.

Lemma auth_accepts request payload :
  authenticated verifyAccessToken request payload →
  runHooks (auth verifyAccessToken) request freshReply
  = (mkRequest (authorization request) (Some (requestUser payload)), freshReply).
Proof.
  intros Hok. unfold auth. simpl.
  by rewrite (requireAuth_accepts request freshReply payload Hok).
Qed.

(** C7, as amended. A request to a role-gated route that passes the
    schema of the route and carries a missing or invalid bearer
    credential is answered 401 and the handler does not run; this is
    also what [requireRole] alone leaves on the reply. The 403 of the
    role check is sent only for a credential that was accepted and holds
    none of the roles; an accepted credential with a role reaches the
    handler. A request that fails the schema is answered 400 before any
    guard runs, whatever credential it carries. *)
Theorem role_gate_answers_401 (valid : bool) (roles : list string)
    (handler : FastifyRequest → M Response) (request : FastifyRequest) (w : World) :
  (valid = false →
   route valid (authAndRole verifyAccessToken roles) handler request w
   = (code_send 400 ValidationError, w))
  ∧ (valid = true →
     (badCredential verifyAccessToken request →
      ∃ message,
        route valid (authAndRole verifyAccessToken roles) handler request w
        = (code_send 401 (MessageBody message), w)
        ∧ sent (runHooks [requireRole verifyAccessToken roles] request freshReply).2
          = Some (code_send 401 (MessageBody message)))
     ∧ (∀ payload,
          authenticated verifyAccessToken request payload →
          (¬ holdsRole roles payload →
           route valid (authAndRole verifyAccessToken roles) handler request w
           = (code_send 403 (MessageBody "Insufficient permissions"), w))
          ∧ (holdsRole roles payload →
             route valid (authAndRole verifyAccessToken roles) handler request w
             = handler (mkRequest (authorization request) (Some (requestUser payload))) w))).
Proof.
  split; [by intros -> | intros ->]. split.
  - intros Hbad.
    destruct (role_gate_rejects roles request Hbad) as (message & Hchain & Halone).
    exists message. split; [|done]. unfold route. by rewrite Hchain.
  - intros payload Hok. unfold route.
    rewrite (authAndRole_accepts roles request payload Hok).
    split; intros Hrole.
    + destruct (existsb _ roles) eqn:Hexists; [|done].
      by apply hasRole_holds in Hexists.
    + apply hasRole_holds in Hrole. by rewrite Hrole.
Qed.

End Guards.

(** ** Store operations *)

Lemma set_profiles_id (s : Store) (userId : string) (p : Profile) :
  profiles s !! userId = Some p → set_profiles (<[userId := p]>) s = s.
Proof.
  intros Hp. destruct s. unfold set_profiles. simpl in *. f_equal. by apply insert_id.
Qed.

Lemma profile_findUnique_run (userId : string) (w : World) :
  profile_findUnique userId w = (profiles (store w) !! userId, logged [Query TProfile] w).
Proof. reflexivity. Qed.

Lemma profile_upsert_existing env userId update create w p :
  profiles (store w) !! userId = Some p →
  profile_upsert env userId update create w
  = (update p,
     mkWorld (set_profiles (<[userId := update p]>) (store w))
             (log w ++ [Mutation TProfile])%list (clockReads w) (idsDrawn w)).
Proof.
  intros Hp. unfold profile_upsert. run. by rewrite Hp.
Qed.

Lemma profile_upsert_missing env userId update create w :
  profiles (store w) !! userId = None →
  profile_upsert env userId update create w
  = (create (newProfile (cuid env (idsDrawn w)) (clock env (clockReads w))),
     mkWorld (set_profiles
                (<[userId := create (newProfile (cuid env (idsDrawn w))
                                                (clock env (clockReads w)))]>)
                (store w))
             (log w ++ [Mutation TProfile])%list (S (clockReads w)) (S (idsDrawn w))).
Proof.
  intros Hp. unfold profile_upsert. run.
  by rewrite Hp.
Qed.

Lemma with_skills_same (p : Profile) : with_skills (profile_skills p) p = p.
Proof. by destruct p. Qed.

Lemma skillsOf_insert (s : Store) (userId : string) (p : Profile) :
  skillsOf (set_profiles (<[userId := p]>) s) userId = profile_skills p.
Proof. unfold skillsOf. simpl. by rewrite lookup_insert_eq. Qed.

(** ** Skills *)

Section SkillFacts.
Context `{JsString}.

Lemma filter_absent (skill : string) (l : list string) :
  skill ∉ l → List.filter (λ s, negb (String.eqb s skill)) l = l.
Proof.
  induction l as [|x l IH]; intros Hnot; simpl; [done|].
  apply not_elem_of_cons in Hnot as [Hne Hnot].
  destruct (String.eqb_spec x skill) as [->|_]; [done|]. simpl. by rewrite IH.
Qed.

Lemma filter_nonempty (l : list string) :
  List.filter (λ s, (0 <? String.length s)%nat) l = filter (λ s, s ≠ "") l.
Proof.
  induction l as [|x l IH]; simpl; [done|].
  rewrite filter_cons, IH. by destruct x.
Qed.

Lemma cleanSkills_words (skills : list string) :
  cleanSkills skills = take 50 (filter (λ s, s ≠ "") (trim <$> skills)).
Proof. unfold cleanSkills. by rewrite filter_nonempty. Qed.

Lemma put_skills_run env skills userId w :
  ∃ w', put_skills env skills userId w = (send (SkillsBody (cleanSkills skills)), w')
        ∧ skillsOf (store w') userId = cleanSkills skills.
Proof.
  unfold put_skills, bind.
  destruct (profiles (store w) !! userId) as [p|] eqn:Hp.
  - rewrite (profile_upsert_existing _ _ _ _ _ p Hp). eexists. split; [done|].
    simpl. by rewrite skillsOf_insert.
  - rewrite (profile_upsert_missing _ _ _ _ _ Hp). eexists. split; [done|].
    simpl. by rewrite skillsOf_insert.
Qed.

Lemma post_skill_duplicate env skill userId w :
  (∃ s, s ∈ skillsOf (store w) userId ∧ toLowerCase s = toLowerCase (trim skill)) →
  ∃ message w',
    post_skill env skill userId w = (code_send 400 (MessageBody message), w')
    ∧ store w' = store w.
Proof.
  intros (s & Hin & Hlower). unfold post_skill.
  destruct (Js.truthy_string (trim skill)); cbn [negb]; [|by eexists _, _].
  unfold bind. rewrite profile_findUnique_run. fold (skillsOf (store w) userId).
  assert (existsb (λ s0, String.eqb (toLowerCase s0) (toLowerCase (trim skill)))
                  (skillsOf (store w) userId) = true) as ->.
  { apply existsb_exists. exists s. split; [by apply list_elem_of_In|].
    by apply String.eqb_eq. }
  by eexists _, _.
Qed.

Lemma post_skill_full env skill userId w :
  (50 ≤ List.length (skillsOf (store w) userId))%nat →
  ∃ message w',
    post_skill env skill userId w = (code_send 400 (MessageBody message), w')
    ∧ store w' = store w.
Proof.
  intros Hfull. unfold post_skill.
  destruct (Js.truthy_string (trim skill)); cbn [negb]; [|by eexists _, _].
  unfold bind. rewrite profile_findUnique_run. fold (skillsOf (store w) userId).
  destruct (existsb _ (skillsOf (store w) userId)); [by eexists _, _|].
  assert ((50 <=? List.length (skillsOf (store w) userId))%nat = true) as ->
    by by apply Nat.leb_le.
  by eexists _, _.
Qed.

Lemma delete_skill_absent env skill decoded userId w :
  decodeURIComponent skill = Some decoded →
  decoded ∉ skillsOf (store w) userId →
  ∃ w',
    delete_skill env skill userId w = (send (SkillsBody (skillsOf (store w) userId)), w')
    ∧ skillsOf (store w') userId = skillsOf (store w) userId.
Proof.
  intros Hdecode Habsent. unfold delete_skill. rewrite Hdecode.
  unfold bind. rewrite profile_findUnique_run. fold (skillsOf (store w) userId).
  rewrite (filter_absent _ _ Habsent).
  destruct (profiles (store w) !! userId) as [p|] eqn:Hp.
  - rewrite (profile_upsert_existing _ _ _ _ (logged [Query TProfile] w) p Hp).
    assert (skillsOf (store w) userId = profile_skills p) as Hskills.
    { unfold skillsOf. by rewrite Hp. }
    rewrite Hskills, with_skills_same. eexists. split; [done|]. simpl.
    rewrite (set_profiles_id _ _ _ Hp). by rewrite Hskills.
  - rewrite (profile_upsert_missing _ _ _ _ (logged [Query TProfile] w) Hp).
    eexists. split; [done|]. simpl. by rewrite skillsOf_insert.
Qed.

Lemma profile_upsert_skills env userId skills w :
  ∃ p w',
    profile_upsert env userId (with_skills skills) (with_skills skills) w = (p, w')
    ∧ profile_skills p = skills
    ∧ store w' = set_profiles (<[userId := p]>) (store w).
Proof.
  destruct (profiles (store w) !! userId) as [p|] eqn:Hp.
  - rewrite (profile_upsert_existing env userId _ _ w p Hp). by eexists _, _.
  - rewrite (profile_upsert_missing env userId _ _ w Hp). by eexists _, _.
Qed.

Lemma filter_negb_eqb (skill : string) (l : list string) :
  List.filter (λ s, negb (String.eqb s skill)) l = filter (λ s, s ≠ skill) l.
Proof.
  induction l as [|x l IH]; simpl; [done|].
  rewrite filter_cons, IH.
  destruct (String.eqb_spec x skill) as [->|Hne]; simpl.
  - by rewrite decide_False by (intros Hx; by apply Hx).
  - by rewrite decide_True.
Qed.

(** The removal of a skill runs: the entries equal to the decoded name
    leave the list. *)
Lemma delete_skill_run env skill decoded userId w :
  decodeURIComponent skill = Some decoded →
  ∃ p w',
    delete_skill env skill userId w
    = (send (SkillsBody (filter (λ s, s ≠ decoded) (skillsOf (store w) userId))), w')
    ∧ profile_skills p = filter (λ s, s ≠ decoded) (skillsOf (store w) userId)
    ∧ store w' = set_profiles (<[userId := p]>) (store w).
Proof.
  intros Hdecode. unfold delete_skill. rewrite Hdecode.
  unfold bind. rewrite profile_findUnique_run. fold (skillsOf (store w) userId).
  rewrite filter_negb_eqb.
  destruct (profile_upsert_skills env userId
              (filter (λ s, s ≠ decoded) (skillsOf (store w) userId))
              (logged [Query TProfile] w)) as (p & w' & Hrun & Hskills & Hstore).
  rewrite Hrun. exists p, w'. by rewrite Hskills.
Qed.



(** C10. The bulk update stores the submitted list with every entry
    trimmed, the empty entries removed, and cut to its first 50 entries
    in the order submitted, and answers that list. It compares no two
    entries: a skill submitted twice is stored twice, although adding it
    once more through the single-skill endpoint is then rejected. *)
Theorem bulk_skills_update (env : Env) (userId : string) (w : World) :
  (∀ skills,
     ∃ w',
       put_skills env skills userId w
       = (send (SkillsBody (take 50 (filter (λ s, s ≠ "") (trim <$> skills)))), w')
       ∧ skillsOf (store w') userId
         = take 50 (filter (λ s, s ≠ "") (trim <$> skills)))
  ∧ (∀ skill,
       trim skill = skill → skill ≠ "" →
       ∃ w1 message w2,
         put_skills env [skill; skill] userId w = (send (SkillsBody [skill; skill]), w1)
         ∧ skillsOf (store w1) userId = [skill; skill]
         ∧ post_skill env skill userId w1 = (code_send 400 (MessageBody message), w2)
         ∧ store w2 = store w1).
Proof.
  split.
  - intros skills. rewrite <- cleanSkills_words. apply put_skills_run.
  - intros skill Htrim Hne.
    destruct (put_skills_run env [skill; skill] userId w) as (w1 & Hput & Hstored).
    assert (cleanSkills [skill; skill] = [skill; skill]) as Hclean.
    { rewrite cleanSkills_words. simpl. rewrite Htrim.
      rewrite !filter_cons. by destruct (decide (skill ≠ "")). }
    rewrite Hclean in Hput, Hstored.
    destruct (post_skill_duplicate env skill userId w1) as (message & w2 & Hpost & Hsame).
    { exists skill. rewrite Hstored, Htrim. split; [apply list_elem_of_here | done]. }
    by exists w1, message, w2.
Qed.

End SkillFacts.

(** ** Ownership of projects, publications and experiences *)

Lemma findFirst_owned_none {A} (owner : A → string) (m : gmap string A) (id userId : string) :
  notOwned owner m id userId → findFirst_owned owner m id userId = None.
Proof.
  intros Hnot. unfold findFirst_owned. destruct (m !! id) as [r|] eqn:Hr; [|done].
  rewrite bool_decide_eq_false_2; [done|]. by apply Hnot.
Qed.

Lemma put_project_not_owned projectId data userId w :
  notOwned project_userId (personalProjects (store w)) projectId userId →
  put_project projectId data userId w
  = (code_send 404 (MessageBody "Project not found"), logged [Query TPersonalProject] w).
Proof.
  intros Hnot. unfold put_project. run_with (findFirst_owned_none _ _ _ _ Hnot).
Qed.

Lemma delete_project_not_owned projectId userId w :
  notOwned project_userId (personalProjects (store w)) projectId userId →
  delete_project projectId userId w
  = (code_send 404 (MessageBody "Project not found"), logged [Query TPersonalProject] w).
Proof.
  intros Hnot. unfold delete_project. run_with (findFirst_owned_none _ _ _ _ Hnot).
Qed.

Lemma put_publication_not_owned publicationId data userId w :
  notOwned publication_userId (publications (store w)) publicationId userId →
  put_publication publicationId data userId w
  = (code_send 404 (MessageBody "Publication not found"), logged [Query TPublication] w).
Proof.
  intros Hnot. unfold put_publication. run_with (findFirst_owned_none _ _ _ _ Hnot).
Qed.

Lemma delete_publication_not_owned publicationId userId w :
  notOwned publication_userId (publications (store w)) publicationId userId →
  delete_publication publicationId userId w
  = (code_send 404 (MessageBody "Publication not found"), logged [Query TPublication] w).
Proof.
  intros Hnot. unfold delete_publication. run_with (findFirst_owned_none _ _ _ _ Hnot).
Qed.

Lemma put_experience_not_owned id data userId w :
  notOwned experience_userId (experiences (store w)) id userId →
  put_experience id data userId w
  = (code_send 404 (MessageBody "Experience not found or access denied"),
     logged [Query TExperience] w).
Proof.
  intros Hnot. unfold put_experience. run_with (findFirst_owned_none _ _ _ _ Hnot).
Qed.

Lemma delete_experience_not_owned id userId w :
  notOwned experience_userId (experiences (store w)) id userId →
  delete_experience id userId w
  = (code_send 404 (MessageBody "Experience not found"), logged [Query TExperience] w).
Proof.
  intros Hnot. unfold delete_experience. run.
  destruct (experiences (store w) !! id) as [e|] eqn:He; [|done].
  destruct (String.eqb_spec (experience_userId e) userId) as [Heq|Hne]; [|done].
  by destruct (Hnot e He).
Qed.

Section Ownership.
Context `{ZodString}.
Variable verifyAccessToken : string → option JwtPayload.
Variable currentYear : Z.

Lemma route_auth_with_user handler request payload w :
  authenticated verifyAccessToken request payload →
  route true (auth verifyAccessToken) (with_user handler) request w
  = handler (payload_sub payload) w.
Proof. intros Hok. unfold route. by rewrite (auth_accepts _ _ _ Hok). Qed.

Lemma route_role_with_user roles handler request payload w :
  authenticated verifyAccessToken request payload →
  route true (authAndRole verifyAccessToken roles) (with_user handler) request w
  = if existsb (λ role, bool_decide (role ∈ ru_roles (requestUser payload))) roles
    then handler (payload_sub payload) w
    else (code_send 403 (MessageBody "Insufficient permissions"), w).
Proof.
  intros Hok. unfold route. rewrite (authAndRole_accepts _ _ _ _ Hok).
  by destruct (existsb _ roles).
Qed.

Lemma route_role_with_request_user roles handler request payload w :
  authenticated verifyAccessToken request payload →
  holdsRole roles payload →
  route true (authAndRole verifyAccessToken roles) (with_request_user handler) request w
  = handler (requestUser payload) w.
Proof.
  intros Hok Hrole. unfold route. rewrite (authAndRole_accepts _ _ _ _ Hok).
  apply hasRole_holds in Hrole. by rewrite Hrole.
Qed.

(** A route behind [requireAuth] answers 401 to a bad credential on a
    request that passes its schema, and its handler does not run. *)
Lemma route_auth_rejects handler request w :
  badCredential verifyAccessToken request →
  ∃ message,
    route true (auth verifyAccessToken) handler request w
    = (code_send 401 (MessageBody message), w).
Proof.
  intros Hbad. destruct (requireAuth_rejects _ request freshReply Hbad) as [message Hauth].
  exists message. unfold route, auth. simpl. by rewrite Hauth.
Qed.

(** What a route behind [requireAuth] answers to an authenticated caller
    whose row is not there for the handler: the 400 of the validation
    when the request fails the schema, and the 404 of the handler
    otherwise. *)
Lemma route_auth_not_found (valid : bool) handler request payload w message t :
  authenticated verifyAccessToken request payload →
  handler (payload_sub payload) w = (code_send 404 (MessageBody message), logged [Query t] w) →
  answers (route valid (auth verifyAccessToken) (with_user handler) request w)
          (if valid then 404 else 400) w.
Proof.
  intros Hok Hrun. destruct valid; [|done].
  by rewrite (route_auth_with_user _ _ _ _ Hok), Hrun.
Qed.

(** The same behind the role gate: the 403 of the gate comes between
    the validation and the handler. *)
Lemma route_role_not_found (valid : bool) roles handler request payload w message t :
  authenticated verifyAccessToken request payload →
  handler (payload_sub payload) w = (code_send 404 (MessageBody message), logged [Query t] w) →
  (holdsRole roles payload →
   answers (route valid (authAndRole verifyAccessToken roles) (with_user handler) request w)
           (if valid then 404 else 400) w)
  ∧ (¬ holdsRole roles payload →
     answers (route valid (authAndRole verifyAccessToken roles) (with_user handler) request w)
             (if valid then 403 else 400) w).
Proof.
  intros Hok Hrun. destruct valid; [|done].
  rewrite (route_role_with_user _ _ _ _ _ Hok), Hrun.
  destruct (existsb _ roles) eqn:Hexists.
  - apply hasRole_holds in Hexists. split; [done | by intros Hno].
  - split; [|done]. intros Hrole. apply hasRole_holds in Hrole. congruence.
Qed.

(** C6, as amended. An authenticated caller who sends an update or a
    delete for a project, a publication or an experience that is not the
    caller's own (it belongs to someone else, or no row has this id)
    never changes the store and never gets a success. A request that
    fails the schema of the route (an id that is not a cuid, a body that
    the schema turns down) is answered 400 before the guards run. For a
    request that passes it, the answer is 404 on the project and
    experience routes, and on the publication routes when the caller
    holds FACULTY or HEAD_ADMIN; a caller without these roles is answered
    403 by the role gate of the publication routes. *)
Theorem ownership_guard (request : FastifyRequest) (payload : JwtPayload) (w : World) :
  authenticated verifyAccessToken request payload →
  (∀ projectId data,
     notOwned project_userId (personalProjects (store w)) projectId (payload_sub payload) →
     answers (route_put_project verifyAccessToken projectId data request w)
             (if string_cuid projectId && personalProjectSchema data then 404 else 400) w
     ∧ answers (route_delete_project verifyAccessToken projectId request w)
               (if string_cuid projectId then 404 else 400) w)
  ∧ (∀ id data,
       notOwned experience_userId (experiences (store w)) id (payload_sub payload) →
       answers (route_put_experience verifyAccessToken id data request w)
               (if string_cuid id && experienceSchema data then 404 else 400) w
       ∧ answers (route_delete_experience verifyAccessToken id request w)
                 (if string_cuid id then 404 else 400) w)
  ∧ (∀ publicationId data,
       notOwned publication_userId (publications (store w)) publicationId
                (payload_sub payload) →
       (holdsRole ["FACULTY"; "HEAD_ADMIN"] payload →
        answers (route_put_publication verifyAccessToken currentYear publicationId data
                   request w)
                (if string_cuid publicationId && publicationSchema currentYear data
                 then 404 else 400) w
        ∧ answers (route_delete_publication verifyAccessToken publicationId request w)
                  (if string_cuid publicationId then 404 else 400) w)
       ∧ (¬ holdsRole ["FACULTY"; "HEAD_ADMIN"] payload →
          answers (route_put_publication verifyAccessToken currentYear publicationId data
                     request w)
                  (if string_cuid publicationId && publicationSchema currentYear data
                   then 403 else 400) w
          ∧ answers (route_delete_publication verifyAccessToken publicationId request w)
                    (if string_cuid publicationId then 403 else 400) w)).
Proof.
  intros Hok. split; [|split].
  - intros projectId data Hnot.
    unfold route_put_project, route_delete_project. split.
    + exact (route_auth_not_found _ _ _ _ _ _ _ Hok (put_project_not_owned _ data _ _ Hnot)).
    + exact (route_auth_not_found _ _ _ _ _ _ _ Hok (delete_project_not_owned _ _ _ Hnot)).
  - intros id data Hnot.
    unfold route_put_experience, route_delete_experience. split.
    + exact (route_auth_not_found _ _ _ _ _ _ _ Hok (put_experience_not_owned _ data _ _ Hnot)).
    + exact (route_auth_not_found _ _ _ _ _ _ _ Hok (delete_experience_not_owned _ _ _ Hnot)).
  - intros publicationId data Hnot.
    unfold route_put_publication, route_delete_publication.
    pose proof (route_role_not_found
                  (string_cuid publicationId && publicationSchema currentYear data)
                  ["FACULTY"; "HEAD_ADMIN"] _ _ _ _ _ _ Hok
                  (put_publication_not_owned _ data _ _ Hnot)) as [Hput Hput'].
    pose proof (route_role_not_found (string_cuid publicationId)
                  ["FACULTY"; "HEAD_ADMIN"] _ _ _ _ _ _ Hok
                  (delete_publication_not_owned _ _ _ Hnot)) as [Hdelete Hdelete'].
    split; intros Hrole; split; auto.
Qed.

(** For an authenticated caller whose request passes the schema, the
    routes behind [requireAuth] run their handlers, with the caller's id
    where the handler reads it; the award route does so for a caller who
    holds an awarding role. *)
Lemma routes_reach_handlers `{JsString} (env : Env) request payload w :
  authenticated verifyAccessToken request payload →
  route_get_profile_me verifyAccessToken env request w
  = get_enhanced_profile env (payload_sub payload) w
  ∧ (∀ userId,
       string_cuid userId = true →
       route_get_profile_user verifyAccessToken env userId request w
       = get_enhanced_profile env userId w)
  ∧ route_get_skills verifyAccessToken request w = get_skills (payload_sub payload) w
  ∧ (∀ skills,
       route_put_skills verifyAccessToken env skills request w
       = put_skills env skills (payload_sub payload) w)
  ∧ (∀ skill,
       skillSchema skill = true →
       route_post_skill verifyAccessToken env skill request w
       = post_skill env skill (payload_sub payload) w)
  ∧ (∀ skill,
       route_delete_skill verifyAccessToken env skill request w
       = delete_skill env skill (payload_sub payload) w)
  ∧ (∀ userId,
       string_cuid userId = true →
       route_get_eligibility verifyAccessToken env userId request w
       = get_eligibility env userId w)
  ∧ (holdsRole ["FACULTY"; "DEPT_ADMIN"; "HEAD_ADMIN"] payload →
     ∀ data,
       awardBadgeSchema data = true →
       route_post_badges_award verifyAccessToken env data request w
       = post_badges_award env data (requestUser payload) w).
Proof.
  intros Hok.
  unfold route_get_profile_me, route_get_profile_user, route_get_skills, route_put_skills,
    route_post_skill, route_delete_skill, route_get_eligibility, route_post_badges_award.
  split; [apply (route_auth_with_user _ _ _ _ Hok)|].
  split; [intros userId ->; unfold route; by rewrite (auth_accepts _ _ _ Hok)|].
  split; [apply (route_auth_with_user _ _ _ _ Hok)|].
  split; [intros skills; apply (route_auth_with_user _ _ _ _ Hok)|].
  split; [intros skill ->; apply (route_auth_with_user _ _ _ _ Hok)|].
  split; [intros skill; apply (route_auth_with_user _ _ _ _ Hok)|].
  split; [intros userId ->; unfold route; by rewrite (auth_accepts _ _ _ Hok)|].
  intros Hrole data ->. by apply route_role_with_request_user.
Qed.

End Ownership.

(** ** Badge awards *)

Section AwardFacts.
Context `{JsString}.

Lemma createBadgeAwardPost_store env badge awardedBy studentInfo w :
  store (createBadgeAwardPost env badge awardedBy studentInfo w).2 = store w.
Proof.
  unfold createBadgeAwardPost.
  destruct (negb (negb _)); [done|].
  run.
  destruct (postSpecialized env _) as [st json|]; [|done].
  destruct (fetch_ok st); simpl; [|done]. by destruct json.
Qed.

Lemma createBadgeAwardPost_log env badge awardedBy studentInfo w :
  log (createBadgeAwardPost env badge awardedBy studentInfo w).2
  = (log w ++ if bool_decide (BADGE_AUTO_POST_ENABLED env = Some "false") then []
              else [HttpPostSpecialized (badgeAwardPost badge awardedBy studentInfo)])%list.
Proof.
  unfold createBadgeAwardPost.
  destruct (bool_decide _); simpl; [by rewrite app_nil_r|].
  run.
  destruct (postSpecialized env _) as [st json|]; [|done].
  destruct (fetch_ok st); simpl; [|done]. by destruct json.
Qed.

(** C3. An award request whose target the auth service does not know (a
    404 from the service, or a response with no body) is answered 404
    and writes nothing: the world differs only by the logged call to the
    auth service, so no award row and no profile row is created. When
    the call fails in any other way the answer is the 500 of a failed
    verification, again with nothing written. *)
Theorem award_unknown_user (env : Env) (data : AwardInput) (awardedBy : RequestUser)
    (w : World) :
  (reportsNoSuchUser (getUser env (in_userId data)) →
   post_badges_award env data awardedBy w
   = (userNotFound (in_userId data), logged [HttpGetUser (in_userId data)] w)
   ∧ answers (post_badges_award env data awardedBy w) 404 w)
  ∧ (∀ errorStatus,
       getUser env (in_userId data) = Rejected errorStatus →
       errorStatus ≠ Some 404 →
       post_badges_award env data awardedBy w
       = (code_send 500 (ErrorBody "Failed to verify user" "Could not verify user existence"),
          logged [HttpGetUser (in_userId data)] w)
       ∧ answers (post_badges_award env data awardedBy w) 500 w).
Proof.
  split.
  - intros [Hgone | Hempty]; unfold post_badges_award; run.
    + by rewrite Hgone.
    + by rewrite Hempty.
  - intros errorStatus Hrejected Hother.
    unfold post_badges_award. run.
    rewrite Hrejected. by rewrite bool_decide_eq_false_2.
Qed.

Lemma studentBadge_create_run env data awardedBy w definition :
  badgeDefinitions (store w) !! in_badgeDefinitionId data = Some definition →
  studentBadge_create env data awardedBy w
  = (Some ({| award_id := cuid env (idsDrawn w);
              award_studentId := in_userId data;
              award_badgeId := in_badgeDefinitionId data;
              award_awardedBy := awardedBy;
              award_awardedByName := in_awardedByName data;
              award_reason := in_reason data;
              award_projectId := in_projectId data;
              award_eventId := in_eventId data;
              award_awardedAt := clock env (clockReads w) |}, definition),
     mkWorld
       (set_studentBadges
          (λ l, l ++ [{| award_id := cuid env (idsDrawn w);
                         award_studentId := in_userId data;
                         award_badgeId := in_badgeDefinitionId data;
                         award_awardedBy := awardedBy;
                         award_awardedByName := in_awardedByName data;
                         award_reason := in_reason data;
                         award_projectId := in_projectId data;
                         award_eventId := in_eventId data;
                         award_awardedAt := clock env (clockReads w) |}])%list
          (store w))
       (log w ++ [Mutation TStudentBadge])%list (S (clockReads w)) (S (idsDrawn w))).
Proof.
  intros Hdef. unfold studentBadge_create, bind, emit, peek, poke, ret, newId, newDate.
  simpl. by rewrite Hdef.
Qed.

(** C8. Once the auth service has confirmed the student and the badge
    definition exists, the award is persisted and the answer is the 201
    with the created award, whatever the network service does and
    whatever the flag says: the response and the store do not depend on
    them. The post is sent only when the flag is not [false]. *)
Theorem award_survives_notification (env : Env) (data : AwardInput)
    (awardedBy : RequestUser) (w : World) (userData : UserResponse)
    (definition : BadgeDefinition) :
  getUser env (in_userId data) = Resolved (Some userData) →
  badgeDefinitions (store w) !! in_badgeDefinitionId data = Some definition →
  let badge := awardedBadge env data (ru_sub awardedBy) w in
  ∃ w',
    post_badges_award env data awardedBy w = (code_send 201 (BadgeBody badge definition), w')
    ∧ studentBadges (store w') = (studentBadges (store w) ++ [badge])%list
    ∧ is_Some (profiles (store w') !! in_userId data)
    ∧ log w'
      = (log w ++ [HttpGetUser (in_userId data); Mutation TProfile; Mutation TStudentBadge]
           ++ if bool_decide (BADGE_AUTO_POST_ENABLED env = Some "false") then []
              else [HttpPostSpecialized
                      (badgeAwardPost (badge, definition) awardedBy (response_user userData))])%list
    ∧ (BADGE_AUTO_POST_ENABLED env = Some "false" →
       ∀ e, e ∈ drop (List.length (log w)) (log w') → ¬ isPost e).
Proof.
  intros Huser Hdef badge.
  unfold post_badges_award. run. rewrite Huser.
  set (w0 := mkWorld (store w) (log w ++ [HttpGetUser (in_userId data)])%list
                     (clockReads w) (idsDrawn w)).
  assert (∃ w1,
            profile_upsert env (in_userId data) (λ p, p) (λ p, p) w0 = ((profile_upsert env (in_userId data) (λ p, p) (λ p, p) w0).1, w1)
            ∧ badgeDefinitions (store w1) = badgeDefinitions (store w)
            ∧ studentBadges (store w1) = studentBadges (store w)
            ∧ is_Some (profiles (store w1) !! in_userId data)
            ∧ log w1 = (log w ++ [HttpGetUser (in_userId data); Mutation TProfile])%list
            ∧ cuid env (idsDrawn w1) = award_id badge
            ∧ clock env (clockReads w1) = award_awardedAt badge)
    as (w1 & Hupsert & Hdefs & Hawards & Hprofile & Hlog & Hid & Hat).
  { subst badge. unfold awardedBadge.
    destruct (profiles (store w) !! in_userId data) as [p|] eqn:Hp.
    - rewrite (profile_upsert_existing env _ _ _ w0 p Hp). eexists. split; [done|].
      simpl. rewrite lookup_insert_eq, <- app_assoc. by repeat split.
    - rewrite (profile_upsert_missing env _ _ _ w0 Hp). eexists. split; [done|].
      simpl. rewrite lookup_insert_eq, <- app_assoc. by repeat split. }
  rewrite Hupsert. rewrite <- Hdefs in Hdef.
  rewrite (studentBadge_create_run env data (ru_sub awardedBy) w1 definition Hdef).
  rewrite Hid, Hat.
  change {| award_id := award_id badge; award_studentId := in_userId data;
            award_badgeId := in_badgeDefinitionId data;
            award_awardedBy := ru_sub awardedBy;
            award_awardedByName := in_awardedByName data;
            award_reason := in_reason data; award_projectId := in_projectId data;
            award_eventId := in_eventId data;
            award_awardedAt := award_awardedAt badge |} with badge.
  match goal with
  | |- context [createBadgeAwardPost env ?b awardedBy ?si ?w2] =>
      pose proof (createBadgeAwardPost_store env b awardedBy si w2) as Hstore;
      pose proof (createBadgeAwardPost_log env b awardedBy si w2) as Hposted;
      destruct (createBadgeAwardPost env b awardedBy si w2) as [completion w3]
  end.
  simpl in Hstore, Hposted. exists w3. split; [done|].
  rewrite Hstore. simpl. rewrite Hawards. split; [done|]. split; [done|].
  assert (log w3
          = (log w ++ [HttpGetUser (in_userId data); Mutation TProfile; Mutation TStudentBadge]
               ++ if bool_decide (BADGE_AUTO_POST_ENABLED env = Some "false") then []
                  else [HttpPostSpecialized
                          (badgeAwardPost (badge, definition) awardedBy
                                          (response_user userData))])%list) as Hlog3.
  { rewrite Hposted, Hlog. by rewrite <- !app_assoc. }
  split; [done|].
  intros Hflag e. rewrite Hlog3, drop_app_length.
  rewrite bool_decide_eq_true_2 by done. simpl.
  rewrite !elem_of_cons, elem_of_nil. intros [-> | [-> | [-> | []]]]; simpl; tauto.
Qed.

End AwardFacts.

(** ** Profile enrichment *)

Lemma truthy_Some (d : string) : d ≠ "" → Js.truthy (Some d) = true.
Proof.
  intros Hne. simpl. unfold Js.truthy_string.
  by destruct (String.eqb_spec d "").
Qed.

Lemma or_empty_or_truthy (d : string) (other : option string) :
  d ≠ "" → Js.or_empty (Js.or (Some d) other) = d.
Proof. intros Hne. unfold Js.or. by rewrite (truthy_Some d Hne). Qed.

(** Asking the auth service writes nothing and logs no write. *)
Lemma fetchUserInfo_frame env userId w :
  ∃ es, (fetchUserInfo env userId w).2 = logged es w ∧ Forall (λ e, ¬ isMutation e) es.
Proof.
  unfold fetchUserInfo. run.
  destruct (getUser env userId) as [[userData|]|errorStatus]; simpl.
  - destruct (Js.truthy _); simpl.
    + destruct (getCollege env _) as [collegeData|collegeError]; simpl;
        (exists [HttpGetUser userId;
                 HttpGetCollege
                   (Js.or_empty (opt_field user_collegeId (response_user userData)))];
         split; [unfold logged; simpl; by rewrite <- app_assoc |
                 repeat constructor; simpl; tauto]).
    + exists [HttpGetUser userId]. split; [done | repeat constructor; simpl; tauto].
  - exists [HttpGetUser userId]. split; [done | repeat constructor; simpl; tauto].
  - exists [HttpGetUser userId]. split; [done | repeat constructor; simpl; tauto].
Qed.

Lemma fetchUserInfo_down env userId w :
  (∃ errorStatus, getUser env userId = Rejected errorStatus)
  ∨ getUser env userId = Resolved None →
  fetchUserInfo env userId w = ((None, None), logged [HttpGetUser userId] w).
Proof.
  unfold fetchUserInfo. run.
  by intros [[errorStatus ->] | ->].
Qed.

Lemma get_enhanced_profile_down env userId w :
  (∃ errorStatus, getUser env userId = Rejected errorStatus)
  ∨ getUser env userId = Resolved None →
  get_enhanced_profile env userId w
  = (send (ProfileBody (enhancedProfile userId (storedProfile (store w) userId) None None)),
     logged [Query TProfile; HttpGetUser userId] w).
Proof.
  intros Hdown. unfold get_enhanced_profile, bind.
  unfold profile_findUnique_include. run.
  rewrite (fetchUserInfo_down env userId _ Hdown). simpl.
  unfold logged. run. by rewrite <- app_assoc.
Qed.

(** The read of a profile whose stored name is not empty: nothing is
    written, and the stored name is the name of the view. *)
Lemma get_enhanced_profile_named env userId w p d :
  profiles (store w) !! userId = Some p →
  profile_name p = Some d → d ≠ "" →
  ∃ view es,
    get_enhanced_profile env userId w = (send (ProfileBody view), logged es w)
    ∧ view_name view = d
    ∧ Forall (λ e, ¬ isMutation e) es.
Proof.
  intros Hp Hname Hne. unfold get_enhanced_profile, bind.
  unfold profile_findUnique_include. run. rewrite Hp. simpl.
  match goal with
  | |- context [fetchUserInfo env userId ?w0] =>
      destruct (fetchUserInfo_frame env userId w0) as (es & Hw & Hes);
      destruct (fetchUserInfo env userId w0) as [[userInfo collegeName] w1]
  end.
  simpl in Hw. subst w1.
  rewrite Hname, (truthy_Some d Hne). simpl. rewrite andb_false_r.
  unfold ret. eexists _, (Query TProfile :: es). split.
  - unfold logged. simpl. by rewrite <- app_assoc.
  - split.
    + simpl. rewrite Hname. by apply or_empty_or_truthy.
    + constructor; [simpl; tauto | done].
Qed.

(** The first read of a user who has no profile, when the auth service
    gives a display name: the profile is created with this name. *)
Lemma get_enhanced_profile_backfill env userId w userData userInfo d :
  profiles (store w) !! userId = None →
  getUser env userId = Resolved (Some userData) →
  response_user userData = Some userInfo →
  user_displayName userInfo = Some d → d ≠ "" →
  ∃ view w1 p,
    get_enhanced_profile env userId w = (send (ProfileBody view), w1)
    ∧ view_name view = d
    ∧ profiles (store w1) !! userId = Some p
    ∧ profile_name p = Some d.
Proof.
  intros Hp Huser Hinfo Hdisplay Hne. unfold get_enhanced_profile, bind.
  unfold profile_findUnique_include. run. rewrite Hp. simpl.
  match goal with
  | |- context [fetchUserInfo env userId ?w0] =>
      destruct (fetchUserInfo_frame env userId w0) as (es & Hw & _);
      assert ((fetchUserInfo env userId w0).1.1 = Some userInfo) as Hfetched
  end.
  { unfold fetchUserInfo. run.
    rewrite Huser, Hinfo. destruct (Js.truthy _); [|done].
    by destruct (getCollege env _). }
  match goal with
  | |- context [fetchUserInfo env userId ?w0] =>
      destruct (fetchUserInfo env userId w0) as [[fetched collegeName] w1]
  end.
  simpl in Hw, Hfetched. subst w1 fetched. simpl.
  rewrite Hdisplay, (truthy_Some d Hne). simpl.
  unfold profile_upsert_include, bind.
  match goal with
  | |- context [profile_upsert env userId ?u ?c ?w0] =>
      rewrite (profile_upsert_missing env userId u c w0 Hp)
  end.
  run. eexists _, _, _. split; [done|]. split.
  - simpl. by apply or_empty_or_truthy.
  - simpl. rewrite lookup_insert_eq. by split.
Qed.

(** Repeated reads of a profile that has a name all answer this name and
    never write. *)
Lemma reads_named envs userId w p d :
  profiles (store w) !! userId = Some p →
  profile_name p = Some d → d ≠ "" →
  Forall (λ r, status r = 200 ∧ view_name <$> profileOf r = Some d) (reads envs userId w).1
  ∧ store (reads envs userId w).2 = store w.
Proof.
  intros Hp Hname Hne. revert w Hp.
  induction envs as [|env envs IH]; intros w Hp; simpl; [done|].
  destruct (get_enhanced_profile_named env userId w p d Hp Hname Hne)
    as (view & es & Hread & Hview & _).
  rewrite Hread.
  destruct (IH (logged es w) Hp) as [Hall Hstore].
  destruct (reads envs userId (logged es w)) as [rs w2]. simpl in *.
  split; [|done]. constructor; [|done]. simpl. by rewrite Hview.
Qed.

(** C4. The enrichment read always answers 200 with a profile view,
    whatever the auth service does. When the request for the user fails
    (a timeout or a network error, a status that is not 2xx, an empty
    body) the view is the stored profile alone, with the fields that
    come from the auth service empty, and nothing is written. When only
    the request for the college fails, the college name is null. *)
Theorem enrichment_survives_gateway (env : Env) (userId : string) (w : World) :
  (∃ view w', get_enhanced_profile env userId w = (send (ProfileBody view), w'))
  ∧ ((∃ errorStatus, getUser env userId = Rejected errorStatus)
     ∨ getUser env userId = Resolved None →
     ∃ view,
       get_enhanced_profile env userId w
       = (send (ProfileBody view), logged [Query TProfile; HttpGetUser userId] w)
       ∧ view = enhancedProfile userId (storedProfile (store w) userId) None None
       ∧ view_displayName view = "" ∧ view_email view = "" ∧ view_avatarUrl view = ""
       ∧ view_collegeName view = None ∧ view_collegeId view = ""
       ∧ view_collegeMemberId view = "" ∧ view_roles view = []
       ∧ view_name view
         = Js.or_empty (profiles (store w) !! userId ≫= profile_name)
       ∧ view_skills view = skillsOf (store w) userId)
  ∧ (∀ userData userInfo collegeId errorStatus,
       getUser env userId = Resolved (Some userData) →
       response_user userData = Some userInfo →
       user_collegeId userInfo = Some collegeId →
       getCollege env collegeId = Rejected errorStatus →
       ∃ view w',
         get_enhanced_profile env userId w = (send (ProfileBody view), w')
         ∧ view_collegeName view = None
         ∧ view_displayName view = Js.or_empty (user_displayName userInfo)).
Proof.
  split; [|split].
  - unfold get_enhanced_profile, bind.
    destruct (profile_findUnique_include userId w) as [initialProfile w0].
    destruct (fetchUserInfo env userId w0) as [[userInfo collegeName] w1].
    destruct (_ && _).
    + unfold bind. destruct (profile_upsert_include _ _ _ _ w1). by eexists _, _.
    + by eexists _, _.
  - intros Hdown. rewrite (get_enhanced_profile_down env userId w Hdown).
    eexists. split; [done|]. split; [done|]. simpl.
    unfold storedProfile, skillsOf.
    destruct (profiles (store w) !! userId) as [p|]; simpl; [|done].
    repeat split; try done. unfold Js.or.
    destruct (profile_name p) as [name|]; simpl; [|done].
    unfold Js.truthy_string. by destruct (String.eqb_spec name "") as [->|].
  - intros userData userInfo collegeId errorStatus Huser Hinfo Hcollege Hdown.
    unfold get_enhanced_profile, bind.
    destruct (profile_findUnique_include userId w) as [initialProfile w0].
    assert (∃ w1, fetchUserInfo env userId w0 = ((Some userInfo, None), w1)) as [w1 ->].
    { unfold fetchUserInfo. run.
      rewrite Huser, Hinfo. simpl. rewrite Hcollege. simpl.
      destruct (Js.truthy_string collegeId); [|by eexists].
      rewrite Hdown. by eexists. }
    destruct (_ && _).
    + unfold bind. destruct (profile_upsert_include _ _ _ _ w1). by eexists _, _.
    + by eexists _, _.
Qed.

(** C5. For a user with no profile whose display name the auth service
    gives, the first enrichment read creates the profile with this name
    and answers it. Every later enrichment read, whatever the auth
    service answers then, answers the stored name and writes nothing:
    the name is written only while no name is stored, and the view
    prefers the stored name. *)
Theorem backfill_is_idempotent (env : Env) (userId : string) (w : World)
    (userData : UserResponse) (userInfo : UserInfo) (d : string) :
  profiles (store w) !! userId = None →
  getUser env userId = Resolved (Some userData) →
  response_user userData = Some userInfo →
  user_displayName userInfo = Some d → d ≠ "" →
  ∃ view w1,
    get_enhanced_profile env userId w = (send (ProfileBody view), w1)
    ∧ view_name view = d
    ∧ (profiles (store w1) !! userId ≫= profile_name) = Some d
    ∧ (∀ envs,
         Forall (λ r, status r = 200 ∧ view_name <$> profileOf r = Some d)
                (reads envs userId w1).1
         ∧ store (reads envs userId w1).2 = store w1)
    ∧ (∀ env', ∃ view' es,
         get_enhanced_profile env' userId w1 = (send (ProfileBody view'), logged es w1)
         ∧ view_name view' = d
         ∧ Forall (λ e, ¬ isMutation e) es).
Proof.
  intros Hp Huser Hinfo Hdisplay Hne.
  destruct (get_enhanced_profile_backfill env userId w userData userInfo d
              Hp Huser Hinfo Hdisplay Hne) as (view & w1 & p & Hread & Hview & Hp1 & Hname).
  exists view, w1. split; [done|]. split; [done|]. split; [by rewrite Hp1|]. split.
  - intros envs. apply (reads_named envs userId w1 p d Hp1 Hname Hne).
  - intros env'. apply (get_enhanced_profile_named env' userId w1 p d Hp1 Hname Hne).
Qed.

(** ** Badge eligibility *)

Lemma set_spread_elem (l : list string) (x : string) : x ∈ Js.set_spread l ↔ x ∈ l.
Proof.
  induction l as [|y l IH]; simpl; [done|].
  rewrite !elem_of_cons, list_elem_of_filter, IH.
  destruct (decide (x = y)); tauto.
Qed.

Lemma set_spread_NoDup (l : list string) : NoDup (Js.set_spread l).
Proof.
  induction l as [|y l IH]; simpl; constructor.
  - rewrite list_elem_of_filter. by intros [Hne _].
  - by apply NoDup_filter.
Qed.

(** The length of [[...new Set(l)]] is the number of distinct values. *)
Lemma set_spread_length (l : list string) :
  List.length (Js.set_spread l) = size (list_to_set l : gset string).
Proof.
  rewrite <- (size_list_to_set (C := gset string) _ (set_spread_NoDup l)).
  f_equal. apply set_eq. intros x.
  by rewrite !elem_of_list_to_set, set_spread_elem.
Qed.

(** The active awards that the handler finds through the join are the
    awards that [activeAward] selects, with the same categories. *)
Lemma active_categories (s : Store) (userId : string) (l : list StudentBadge) :
  map (λ award : StudentBadge * BadgeDefinition, badge_category award.2)
      (List.filter (λ award : StudentBadge * BadgeDefinition, badge_isActive award.2)
         (omap (joinBadge s) (filter (λ award, award_studentId award = userId) l)))
  = map (λ award, badgeDefinitions s !! award_badgeId award ≫= badge_category)
        (List.filter (activeAward s userId) l).
Proof.
  induction l as [|a l IH]; simpl; [done|].
  rewrite filter_cons. unfold activeAward at 1.
  destruct (decide (award_studentId a = userId)) as [Heq|Hne].
  - rewrite bool_decide_eq_true_2 by done. simpl. unfold joinBadge at 1.
    destruct (badgeDefinitions s !! award_badgeId a) as [d|] eqn:Hd; simpl; [|done].
    destruct (badge_isActive d); simpl; [|exact IH]. rewrite Hd. simpl.
    f_equal. exact IH.
  - rewrite bool_decide_eq_false_2 by done. exact IH.
Qed.

Lemma active_count (s : Store) (userId : string) :
  Z.of_nat (List.length
              (List.filter (λ award : StudentBadge * BadgeDefinition, badge_isActive award.2)
                           (awardsOf s userId)))
  = activeAwardCount s userId.
Proof.
  unfold activeAwardCount, awardsOf. f_equal.
  rewrite <- (length_map (λ award : StudentBadge * BadgeDefinition, badge_category award.2)).
  by rewrite active_categories, length_map.
Qed.

Lemma truthy_categories (cats : list (option string)) :
  (list_to_set (omap (λ cat, if Js.truthy cat then cat else None) cats) : gset string)
  = list_to_set (omap (λ cat, cat) cats) ∖ {[""]}.
Proof.
  apply set_eq. intros x.
  rewrite elem_of_difference, !elem_of_list_to_set, !list_elem_of_omap, elem_of_singleton.
  split.
  - intros ([c|] & Hin & Hkeep); simpl in Hkeep; [|done].
    unfold Js.truthy_string in Hkeep.
    destruct (String.eqb_spec c "") as [->|Hne]; simpl in Hkeep; [done|].
    injection Hkeep as ->. split; [by exists (Some x) | done].
  - intros [(c & Hin & ->) Hne]. exists (Some x). split; [done|]. simpl.
    unfold Js.truthy_string. by destruct (String.eqb_spec x "").
Qed.

Lemma omap_of_map {A} (f : A → option string) (l : list A) :
  omap (λ cat, cat) (map f l) = omap f l.
Proof.
  induction l as [|a l IH]; [done|]. simpl.
  destruct (f a); simpl; [f_equal|]; exact IH.
Qed.

Lemma active_category_count (s : Store) (userId : string) :
  Z.of_nat (List.length
              (Js.set_spread
                 (omap (λ cat, if Js.truthy cat then cat else None)
                       (map (λ award : StudentBadge * BadgeDefinition, badge_category award.2)
                            (List.filter
                               (λ award : StudentBadge * BadgeDefinition, badge_isActive award.2)
                               (awardsOf s userId))))))
  = Z.of_nat (size (activeCategories s userId ∖ {[""]})).
Proof.
  f_equal. rewrite set_spread_length. f_equal. unfold awardsOf, activeCategories.
  by rewrite active_categories, truthy_categories, omap_of_map.
Qed.

Lemma or_default_required (s : Store) (collegeId : string) :
  Js.or_default (policy_eventCreationRequired <$> badgePolicies s !! collegeId) 8
  = requiredBadgesOf s collegeId
  ∧ Js.or_default (policy_categoryDiversityMin <$> badgePolicies s !! collegeId) 4
    = requiredCategoriesOf s collegeId.
Proof.
  unfold requiredBadgesOf, requiredCategoriesOf.
  by destruct (badgePolicies s !! collegeId).
Qed.

(** The fresh computation in any world: its answer is decided by the
    store alone. *)
Lemma computeEligibility_run env userId collegeId w :
  ∃ view w',
    computeEligibility env userId collegeId w = (send (EligibilityBody view), w')
    ∧ elig_canCreate view
      = (requiredBadgesOf (store w) collegeId <=? activeAwardCount (store w) userId)
        && (requiredCategoriesOf (store w) collegeId
            <=? Z.of_nat (size (activeCategories (store w) userId ∖ {[""]})))
    ∧ elig_badgeCount view = activeAwardCount (store w) userId
    ∧ elig_requiredBadges view = Some (requiredBadgesOf (store w) collegeId)
    ∧ elig_requiredCategories view = Some (requiredCategoriesOf (store w) collegeId)
    ∧ (cache_canCreate <$> badgeEligibilityCache (store w') !! userId)
      = Some (elig_canCreate view).
Proof.
  unfold computeEligibility. run.
  destruct (or_default_required (store w) collegeId) as [-> ->].
  rewrite active_count, active_category_count.
  destruct (badgeEligibilityCache (store w) !! userId); simpl;
    (eexists _, _; split; [done|]; simpl; rewrite lookup_insert_eq; by repeat split).
Qed.

(** With a resolved college and nothing to return from the cache, the
    handler runs the fresh computation on the store it started from. *)
Lemma get_eligibility_fresh env userId collegeId w :
  resolvesCollege env userId collegeId →
  cacheStale env userId w →
  ∃ w0, store w0 = store w
        ∧ get_eligibility env userId w = computeEligibility env userId collegeId w0.
Proof.
  intros (userData & userInfo & Huser & Hinfo & Hcollege & Hne) Hstale.
  unfold get_eligibility. run.
  rewrite Huser. simpl. rewrite Hinfo. simpl. rewrite Hcollege.
  rewrite (truthy_Some collegeId Hne). simpl.
  destruct (badgeEligibilityCache (store w) !! userId) as [c|] eqn:Hc.
  - unfold bind, newDate. simpl.
    assert ((clock env (clockReads w) <? cache_expiresAt c) = false) as ->.
    { apply Z.ltb_ge. by apply Hstale. }
    eexists. split; [|reflexivity]. done.
  - eexists. split; [|reflexivity]. done.
Qed.

(** The fresh computation in terms of the store: the thresholds in
    force are the policy's values, and the default (8 badges, 4
    categories) when the college has no policy row or the stored value
    is 0; the categories counted are those that are neither null nor
    empty. *)
Lemma fresh_rule_in_force (env : Env) (userId collegeId : string) (w : World) :
  resolvesCollege env userId collegeId →
  cacheStale env userId w →
  ∃ view w',
    get_eligibility env userId w = (send (EligibilityBody view), w')
    ∧ (elig_canCreate view = true
       ↔ requiredBadgesOf (store w) collegeId ≤ activeAwardCount (store w) userId
         ∧ requiredCategoriesOf (store w) collegeId
           ≤ Z.of_nat (size (activeCategories (store w) userId ∖ {[""]})))
    ∧ elig_badgeCount view = activeAwardCount (store w) userId
    ∧ elig_requiredBadges view = Some (requiredBadgesOf (store w) collegeId)
    ∧ elig_requiredCategories view = Some (requiredCategoriesOf (store w) collegeId).
Proof.
  intros Hresolves Hstale.
  destruct (get_eligibility_fresh env userId collegeId w Hresolves Hstale)
    as (w0 & Hstore & ->).
  destruct (computeEligibility_run env userId collegeId w0)
    as (view & w' & Hrun & Hcan & Hcount & Hbadges & Hcats & _).
  rewrite Hstore in *. exists view, w'. split; [done|]. split; [|done].
  by rewrite Hcan, andb_true_iff, !Z.leb_le.
Qed.

(** On the rows that the routes of the service write, the thresholds in
    force are the policy's own and no category is empty. *)
Lemma written_thresholds (s : Store) (collegeId : string) :
  writtenByRoutes s →
  requiredBadgesOf s collegeId = statedRequiredBadges s collegeId
  ∧ requiredCategoriesOf s collegeId = statedRequiredCategories s collegeId.
Proof.
  intros [Hpolicies _].
  unfold requiredBadgesOf, requiredCategoriesOf, statedRequiredBadges,
    statedRequiredCategories.
  destruct (badgePolicies s !! collegeId) as [policy|] eqn:Hpolicy; [|done].
  destruct (Hpolicies collegeId policy Hpolicy) as [Hbadges Hcategories].
  apply Z.eqb_neq in Hbadges, Hcategories. by rewrite Hbadges, Hcategories.
Qed.

Lemma written_categories (s : Store) (userId : string) :
  writtenByRoutes s →
  activeCategories s userId ∖ {[""]} = activeCategories s userId.
Proof.
  intros [_ Hdefinitions].
  apply set_eq. intros x. rewrite elem_of_difference, elem_of_singleton.
  split; [by intros [? _]|]. intros Hin. split; [done|]. intros ->.
  unfold activeCategories in Hin.
  apply elem_of_list_to_set, list_elem_of_omap in Hin as (award & _ & Hcategory).
  destruct (badgeDefinitions s !! award_badgeId award) as [definition|] eqn:Hd; [|done].
  by apply (Hdefinitions _ _ Hd).
Qed.

(** So the rule holds there as the specification words it. *)
Lemma fresh_rule_on_written_rows (env : Env) (userId collegeId : string) (w : World) :
  writtenByRoutes (store w) → freshRuleAsStated env userId collegeId w.
Proof.
  intros Hwritten Hresolves Hstale.
  destruct (fresh_rule_in_force env userId collegeId w Hresolves Hstale)
    as (view & w' & Hrun & Hcan & _).
  exists view. rewrite Hrun. split; [done|].
  destruct (written_thresholds (store w) collegeId Hwritten) as [<- <-].
  by rewrite <- (written_categories (store w) userId Hwritten).
Qed.

(** C1. On a store whose policies and badge definitions are as the
    routes of the service write them (no threshold of 0, no empty
    category), a fresh computation for a user whose college the auth
    service resolves answers [canCreate] true exactly when the number of
    the user's awards with an active badge definition reaches the
    policy's [eventCreationRequired] and the number of distinct
    categories that are not null among these awards reaches the policy's
    [categoryDiversityMin], with 8 and 4 in their place when the college
    has no policy row. The answer carries this number of awards as
    [badgeCount], and the two thresholds. *)
Theorem fresh_eligibility_rule (env : Env) (userId collegeId : string) (w : World) :
  writtenByRoutes (store w) →
  resolvesCollege env userId collegeId →
  cacheStale env userId w →
  ∃ view w',
    get_eligibility env userId w = (send (EligibilityBody view), w')
    ∧ (elig_canCreate view = true
       ↔ statedRequiredBadges (store w) collegeId ≤ activeAwardCount (store w) userId
         ∧ statedRequiredCategories (store w) collegeId
           ≤ Z.of_nat (size (activeCategories (store w) userId)))
    ∧ elig_badgeCount view = activeAwardCount (store w) userId
    ∧ elig_requiredBadges view = Some (statedRequiredBadges (store w) collegeId)
    ∧ elig_requiredCategories view = Some (statedRequiredCategories (store w) collegeId).
Proof.
  intros Hwritten Hresolves Hstale.
  destruct (fresh_rule_in_force env userId collegeId w Hresolves Hstale)
    as (view & w' & Hrun & Hcan & Hcount & Hbadges & Hcategories).
  exists view, w'.
  destruct (written_thresholds (store w) collegeId Hwritten) as [<- <-].
  by rewrite <- (written_categories (store w) userId Hwritten).
Qed.

(** C2, as amended. When the auth service resolves the user's college
    and the cache holds a row for the user that has not expired, the
    cached values are answered verbatim: the handler calls the auth
    service and reads the cache row, and nothing else (no read of the
    award table, no write). The auth service is asked first: when its
    call fails the answer is the 500 failure, and when it gives no
    college the answer is the 400 failure, both with [canCreate] false
    and without a look at the cache. *)
Theorem cache_hit_is_verbatim (env : Env) (userId : string) (w : World)
    (c : BadgeEligibilityCache) :
  badgeEligibilityCache (store w) !! userId = Some c →
  clock env (clockReads w) < cache_expiresAt c →
  (∀ collegeId,
     resolvesCollege env userId collegeId →
     get_eligibility env userId w
     = (send (EligibilityBody (cachedView c)),
        mkWorld (store w) (log w ++ [HttpGetUser userId; Query TBadgeEligibilityCache])%list
                (S (clockReads w)) (idsDrawn w)))
  ∧ (∀ errorStatus,
       getUser env userId = Rejected errorStatus →
       get_eligibility env userId w
       = (code_send 500 (EligibilityFailure "Failed to check badge eligibility" false None),
          logged [HttpGetUser userId] w))
  ∧ (∀ userData,
       getUser env userId = Resolved userData →
       Js.truthy (opt_field user_collegeId (userData ≫= response_user)) = false →
       get_eligibility env userId w
       = (code_send 400
            (EligibilityFailure "User college information not found" false (Some [])),
          logged [HttpGetUser userId] w)).
Proof.
  intros Hc Hfresh. split; [|split].
  - intros collegeId (userData & userInfo & Huser & Hinfo & Hcollege & Hne).
    unfold get_eligibility. run.
    rewrite Huser. simpl. rewrite Hinfo. simpl. rewrite Hcollege.
    rewrite (truthy_Some collegeId Hne). simpl. rewrite Hc. simpl.
    assert ((clock env (clockReads w) <? cache_expiresAt c) = true) as ->
      by by apply Z.ltb_lt.
    by rewrite <- app_assoc.
  - intros errorStatus Huser.
    unfold get_eligibility. run. by rewrite Huser.
  - intros userData Huser Hcollege.
    unfold get_eligibility. run. rewrite Huser.
    by rewrite Hcollege.
Qed.

(** ** The properties on sample inputs *)

Lemma authenticated_alice : authenticated sampleVerify aliceRequest alicePayload.
Proof. by exists "alice-token". Qed.

Lemma authenticated_carol : authenticated sampleVerify carolRequest carolPayload.
Proof. by exists "carol-token". Qed.

Lemma badCredential_forged : badCredential sampleVerify forgedRequest.
Proof. right. right. by exists "forged". Qed.

Lemma alice_is_no_faculty : ¬ holdsRole ["FACULTY"; "HEAD_ADMIN"] alicePayload.
Proof.
  intros (role & Hin & Hrole). simpl in Hrole.
  apply list_elem_of_singleton in Hrole as ->.
  apply list_elem_of_In in Hin. simpl in Hin. by destruct Hin as [|[|[]]].
Qed.

Lemma carol_is_faculty : holdsRole ["FACULTY"; "HEAD_ADMIN"] carolPayload.
Proof. exists "FACULTY". split; [apply list_elem_of_here | apply list_elem_of_here]. Qed.

Lemma paper_is_bobs (userId : string) :
  userId ≠ "bob" →
  notOwned publication_userId (publications (store (worldOf paperStore))) paperId userId.
Proof.
  intros Hne r Hr. simpl in Hr. rewrite lookup_insert_eq in Hr.
  injection Hr as <-. simpl. congruence.
Qed.

(** C7, as amended, on the delete of bob's publication with a forged
    token and with a student's token. *)
Lemma role_gate_answers_401_witness :
  (∃ message,
     route_delete_publication sampleVerify paperId forgedRequest (worldOf paperStore)
     = (code_send 401 (MessageBody message), worldOf paperStore)
     ∧ sent (runHooks [requireRole sampleVerify ["FACULTY"; "HEAD_ADMIN"]]
                      forgedRequest freshReply).2
       = Some (code_send 401 (MessageBody message)))
  ∧ route_delete_publication sampleVerify paperId aliceRequest (worldOf paperStore)
    = (code_send 403 (MessageBody "Insufficient permissions"), worldOf paperStore).
Proof.
  split.
  - exact (proj1 (proj2 (role_gate_answers_401 sampleVerify (string_cuid paperId)
                           ["FACULTY"; "HEAD_ADMIN"] (with_user (delete_publication paperId))
                           forgedRequest (worldOf paperStore))
                        eq_refl)
                 badCredential_forged).
  - exact (proj1 (proj2 (proj2 (role_gate_answers_401 sampleVerify (string_cuid paperId)
                                  ["FACULTY"; "HEAD_ADMIN"]
                                  (with_user (delete_publication paperId))
                                  aliceRequest (worldOf paperStore))
                               eq_refl)
                        alicePayload authenticated_alice)
                 alice_is_no_faculty).
Defined.

(** C7: the statement of the specification fails for a request with a
    forged token whose id is not a cuid: the validation answers 400
    before the guards look at the credential. *)
Lemma role_gate_answers_401_counterexample :
  badCredential sampleVerify forgedRequest
  ∧ route_delete_publication sampleVerify "pub1" forgedRequest (worldOf paperStore)
    = (code_send 400 ValidationError, worldOf paperStore)
  ∧ ¬ roleGateAsStated sampleVerify forgedRequest "pub1" (worldOf paperStore).
Proof.
  split; [exact badCredential_forged|]. split; [reflexivity|].
  intros Hstated. specialize (Hstated badCredential_forged). discriminate Hstated.
Qed.

(** C6: the statement of the specification fails for a student who sends
    an update for bob's publication: the answer is the 403 of the role
    gate. It fails as well for a faculty member who sends the update
    under an id that is not a cuid: the answer is the 400 of the
    validation. *)
Lemma ownership_guard_counterexample :
  (authenticated sampleVerify aliceRequest alicePayload
   ∧ notOwned publication_userId (publications (store (worldOf paperStore)))
              paperId (payload_sub alicePayload)
   ∧ status (route_put_publication sampleVerify sampleYear paperId publicationInput
               aliceRequest (worldOf paperStore)).1 = 403
   ∧ ¬ publicationGuardAsStated sampleVerify sampleYear aliceRequest alicePayload paperId
         publicationInput (worldOf paperStore))
  ∧ (authenticated sampleVerify carolRequest carolPayload
     ∧ notOwned publication_userId (publications (store (worldOf paperStore)))
                "pub1" (payload_sub carolPayload)
     ∧ status (route_put_publication sampleVerify sampleYear "pub1" publicationInput
                 carolRequest (worldOf paperStore)).1 = 400
     ∧ ¬ publicationGuardAsStated sampleVerify sampleYear carolRequest carolPayload "pub1"
           publicationInput (worldOf paperStore)).
Proof.
  assert (notOwned publication_userId (publications (store (worldOf paperStore)))
                   paperId (payload_sub alicePayload)) as Hbobs
    by by apply paper_is_bobs.
  assert (notOwned publication_userId (publications (store (worldOf paperStore)))
                   "pub1" (payload_sub carolPayload)) as Hnone.
  { intros r Hr. simpl in Hr. by rewrite lookup_insert_ne, lookup_empty in Hr. }
  split.
  - split; [exact authenticated_alice|]. split; [done|]. split; [reflexivity|].
    intros Hstated. specialize (Hstated authenticated_alice Hbobs). discriminate Hstated.
  - split; [exact authenticated_carol|]. split; [done|]. split; [reflexivity|].
    intros Hstated. specialize (Hstated authenticated_carol Hnone). discriminate Hstated.
Qed.

(** C6, as amended, for a faculty member: on bob's publication and on a
    project that no row has the answer is 404, and under an id that is
    not a cuid it is 400; the store is unchanged each time. *)
Lemma ownership_guard_witness :
  authenticated sampleVerify carolRequest carolPayload
  ∧ answers (route_put_publication sampleVerify sampleYear paperId publicationInput
               carolRequest (worldOf paperStore)) 404 (worldOf paperStore)
  ∧ answers (route_put_project sampleVerify otherId projectInput carolRequest
               (worldOf paperStore)) 404 (worldOf paperStore)
  ∧ answers (route_delete_project sampleVerify "proj1" carolRequest (worldOf paperStore))
            400 (worldOf paperStore).
Proof.
  assert (∀ id, notOwned project_userId (personalProjects (store (worldOf paperStore)))
                         id (payload_sub carolPayload)) as Hnone.
  { intros id r Hr. simpl in Hr. by rewrite lookup_empty in Hr. }
  split; [exact authenticated_carol|]. split; [|split].
  - exact (proj1 (proj1 (proj2 (proj2 (ownership_guard sampleVerify sampleYear carolRequest
                                         carolPayload (worldOf paperStore)
                                         authenticated_carol))
                               paperId publicationInput
                               (paper_is_bobs "carol" ltac:(discriminate)))
                        carol_is_faculty)).
  - exact (proj1 (proj1 (ownership_guard sampleVerify sampleYear carolRequest carolPayload
                           (worldOf paperStore) authenticated_carol)
                        otherId projectInput (Hnone otherId))).
  - exact (proj2 (proj1 (ownership_guard sampleVerify sampleYear carolRequest carolPayload
                           (worldOf paperStore) authenticated_carol)
                        "proj1" projectInput (Hnone "proj1"))).
Defined.

Lemma alice_skills : skillsOf (store (worldOf skilledStore)) "alice" = ["Rocq"; "Lean"].
Proof. reflexivity. Qed.

Lemma dave_skills : skillsOf (store (worldOf skilledStore)) "dave" = replicate 50 "skill".
Proof. reflexivity. Qed.




(** C10 on a list with blanks and repeats. *)
Lemma bulk_skills_update_witness :
  (∃ w',
     put_skills offlineEnv ["  Rocq "; ""; "rocq"; "   "; "Rocq"] "alice"
       (worldOf skilledStore)
     = (send (SkillsBody ["Rocq"; "rocq"; "Rocq"]), w')
     ∧ skillsOf (store w') "alice" = ["Rocq"; "rocq"; "Rocq"])
  ∧ (∃ w1 message w2,
       put_skills offlineEnv ["Rocq"; "Rocq"] "alice" (worldOf skilledStore)
       = (send (SkillsBody ["Rocq"; "Rocq"]), w1)
       ∧ skillsOf (store w1) "alice" = ["Rocq"; "Rocq"]
       ∧ post_skill offlineEnv "Rocq" "alice" w1 = (code_send 400 (MessageBody message), w2)
       ∧ store w2 = store w1).
Proof.
  split.
  - exact (proj1 (bulk_skills_update offlineEnv "alice" (worldOf skilledStore))
                 ["  Rocq "; ""; "rocq"; "   "; "Rocq"]).
  - refine (proj2 (bulk_skills_update offlineEnv "alice" (worldOf skilledStore))
                  "Rocq" _ _); [reflexivity | discriminate].
Defined.

(** C3 on a student the auth service does not know, and with the auth
    service down. *)
Lemma award_unknown_user_witness :
  reportsNoSuchUser (getUser onlineEnv (in_userId ghostAward))
  ∧ answers (post_badges_award onlineEnv ghostAward (requestUser carolPayload)
               (worldOf fourCategories)) 404 (worldOf fourCategories)
  ∧ answers (post_badges_award offlineEnv ghostAward (requestUser carolPayload)
               (worldOf fourCategories)) 500 (worldOf fourCategories).
Proof.
  assert (reportsNoSuchUser (getUser onlineEnv (in_userId ghostAward))) as Hgone
    by (left; reflexivity).
  split; [exact Hgone|]. split.
  - exact (proj2 (proj1 (award_unknown_user onlineEnv ghostAward (requestUser carolPayload)
                           (worldOf fourCategories)) Hgone)).
  - refine (proj2 (proj2 (award_unknown_user offlineEnv ghostAward (requestUser carolPayload)
                            (worldOf fourCategories)) None _ _)); [reflexivity | discriminate].
Defined.

Lemma definition_bA :
  badgeDefinitions (store (worldOf fourCategories)) !! in_badgeDefinitionId aliceAward
  = Some (definitionIn (Some "A")).
Proof. reflexivity. Qed.

(** C8 with the network service down, and with the flag off. *)
Lemma award_survives_notification_witness :
  (∃ w',
     post_badges_award onlineEnv aliceAward (requestUser carolPayload)
       (worldOf fourCategories)
     = (code_send 201
          (BadgeBody (awardedBadge onlineEnv aliceAward "carol" (worldOf fourCategories))
                     (definitionIn (Some "A"))), w')
     ∧ studentBadges (store w')
       = (eightAwards
            ++ [awardedBadge onlineEnv aliceAward "carol" (worldOf fourCategories)])%list)
  ∧ (∃ w',
       post_badges_award quietEnv aliceAward (requestUser carolPayload)
         (worldOf fourCategories)
       = (code_send 201
            (BadgeBody (awardedBadge quietEnv aliceAward "carol" (worldOf fourCategories))
                       (definitionIn (Some "A"))), w')
       ∧ log w' = [HttpGetUser "alice"; Mutation TProfile; Mutation TStudentBadge]).
Proof.
  split.
  - destruct (award_survives_notification onlineEnv aliceAward (requestUser carolPayload)
                (worldOf fourCategories) (mkUserResponse (Some aliceInfo))
                (definitionIn (Some "A")) eq_refl definition_bA)
      as (w' & Hrun & Hawards & _).
    exists w'. by split.
  - destruct (award_survives_notification quietEnv aliceAward (requestUser carolPayload)
                (worldOf fourCategories) (mkUserResponse (Some aliceInfo))
                (definitionIn (Some "A")) eq_refl definition_bA)
      as (w' & Hrun & _ & _ & Hlog & _).
    exists w'. by split.
Defined.

(** C4 with the auth service down, and with only the college lookup
    down. *)
Lemma enrichment_survives_gateway_witness :
  (∃ view,
     get_enhanced_profile offlineEnv "alice" (worldOf skilledStore)
     = (send (ProfileBody view),
        logged [Query TProfile; HttpGetUser "alice"] (worldOf skilledStore))
     ∧ view_displayName view = "" ∧ view_roles view = []
     ∧ view_skills view = ["Rocq"; "Lean"])
  ∧ (∃ view w',
       get_enhanced_profile collegeDownEnv "alice" (worldOf skilledStore)
       = (send (ProfileBody view), w')
       ∧ view_collegeName view = None
       ∧ view_displayName view = "Alice").
Proof.
  split.
  - destruct (proj1 (proj2 (enrichment_survives_gateway offlineEnv "alice"
                              (worldOf skilledStore)))
                    (or_introl (ex_intro _ None eq_refl)))
      as (view & Hrun & _ & Hdisplay & _ & _ & _ & _ & _ & Hroles & _ & Hskills).
    exists view. by repeat split.
  - exact (proj2 (proj2 (enrichment_survives_gateway collegeDownEnv "alice"
                           (worldOf skilledStore)))
                 (mkUserResponse (Some aliceInfo)) aliceInfo "college1" (Some 503)
                 eq_refl eq_refl eq_refl eq_refl).
Defined.

(** C5 on alice, who has no profile yet: the later reads are made with
    the auth service down and with it up. *)
Lemma backfill_is_idempotent_witness :
  ∃ view w1,
    get_enhanced_profile onlineEnv "alice" (worldOf emptyStore) = (send (ProfileBody view), w1)
    ∧ view_name view = "Alice"
    ∧ (profiles (store w1) !! "alice" ≫= profile_name) = Some "Alice"
    ∧ Forall (λ r, status r = 200 ∧ view_name <$> profileOf r = Some "Alice")
             (reads [offlineEnv; onlineEnv; collegeDownEnv] "alice" w1).1.
Proof.
  destruct (backfill_is_idempotent onlineEnv "alice" (worldOf emptyStore)
              (mkUserResponse (Some aliceInfo)) aliceInfo "Alice"
              (lookup_empty _) eq_refl eq_refl eq_refl ltac:(discriminate))
    as (view & w1 & Hrun & Hname & Hstored & Hreads & _).
  exists view, w1. repeat split; try done.
  apply (Hreads [offlineEnv; onlineEnv; collegeDownEnv]).
Defined.

Lemma alice_resolves : resolvesCollege onlineEnv "alice" "college1".
Proof. exists (mkUserResponse (Some aliceInfo)), aliceInfo. by repeat split. Qed.

Lemma no_cache_is_stale (env : Env) (userId : string) (s : Store) :
  badgeEligibilityCache s = ∅ → cacheStale env userId (worldOf s).
Proof. intros Hempty c Hc. simpl in Hc. by rewrite Hempty, lookup_empty in Hc. Qed.

(** Eight active badges over four categories under the default
    thresholds (8, 4): eligible. *)
Example eight_badges_four_categories :
  eligibilityOf (get_eligibility onlineEnv "alice" (worldOf fourCategories)).1
  = Some {| elig_canCreate := true; elig_badgeCount := 8;
            elig_requiredBadges := Some 8; elig_categories := ["A"; "B"; "C"; "D"];
            elig_requiredCategories := Some 4; elig_lastChecked := 1003 |}.
Proof. reflexivity. Qed.

(** Eight active badges over three categories: not eligible. *)
Example eight_badges_three_categories :
  eligibilityOf (get_eligibility onlineEnv "alice" (worldOf threeCategories)).1
  = Some {| elig_canCreate := false; elig_badgeCount := 8;
            elig_requiredBadges := Some 8; elig_categories := ["A"; "B"; "C"];
            elig_requiredCategories := Some 4; elig_lastChecked := 1003 |}.
Proof. reflexivity. Qed.

(** The sample stores hold no policy and no empty category. *)
Lemma samples_written (awards : list StudentBadge) (defs : list (string * BadgeDefinition)) :
  Forall (λ entry, badge_category entry.2 ≠ Some "") defs →
  writtenByRoutes (set_studentBadges (λ _, awards) (withDefinitions defs emptyStore)).
Proof.
  intros Hdefs. split.
  - intros collegeId policy Hpolicy. simpl in Hpolicy. by rewrite lookup_empty in Hpolicy.
  - intros id definition Hd. simpl in Hd.
    apply elem_of_list_to_map_2 in Hd.
    rewrite Forall_forall in Hdefs. exact (Hdefs (id, definition) Hd).
Qed.

Lemma fourCategories_written : writtenByRoutes (store (worldOf fourCategories)).
Proof. apply samples_written. repeat (constructor; [discriminate|]). constructor. Qed.

Lemma threeCategories_written : writtenByRoutes (store (worldOf threeCategories)).
Proof. apply samples_written. repeat (constructor; [discriminate|]). constructor. Qed.

(** C1 on alice's eight badges under the default thresholds: over four
    categories she may create events, over three she may not. *)
Lemma fresh_eligibility_rule_witness :
  (∃ view w',
     get_eligibility onlineEnv "alice" (worldOf fourCategories)
     = (send (EligibilityBody view), w')
     ∧ elig_canCreate view = true
     ∧ elig_badgeCount view = 8
     ∧ elig_requiredBadges view = Some 8
     ∧ elig_requiredCategories view = Some 4)
  ∧ (∃ view w',
       get_eligibility onlineEnv "alice" (worldOf threeCategories)
       = (send (EligibilityBody view), w')
       ∧ elig_canCreate view = false
       ∧ elig_badgeCount view = 8
       ∧ elig_requiredBadges view = Some 8
       ∧ elig_requiredCategories view = Some 4).
Proof.
  split.
  - destruct (fresh_eligibility_rule onlineEnv "alice" "college1" (worldOf fourCategories)
                fourCategories_written alice_resolves
                (no_cache_is_stale onlineEnv "alice" fourCategories eq_refl))
      as (view & w' & Hrun & Hcan & Hcount & Hbadges & Hcategories).
    exists view, w'. split; [exact Hrun|]. split; [|by repeat split].
    apply Hcan. by vm_compute.
  - destruct (fresh_eligibility_rule onlineEnv "alice" "college1" (worldOf threeCategories)
                threeCategories_written alice_resolves
                (no_cache_is_stale onlineEnv "alice" threeCategories eq_refl))
      as (view & w' & Hrun & Hcan & Hcount & Hbadges & Hcategories).
    exists view, w'. split; [exact Hrun|]. split; [|by repeat split].
    destruct (elig_canCreate view); [|done].
    destruct (proj1 Hcan eq_refl) as [_ Hfour]. by vm_compute in Hfour.
Defined.

Lemma alice_is_cached :
  badgeEligibilityCache (store (worldOf cachedStore)) !! "alice" = Some aliceCache.
Proof. reflexivity. Qed.

(** C2, as amended, on alice's unexpired cache row. *)
Lemma cache_hit_is_verbatim_witness :
  badgeEligibilityCache (store (worldOf cachedStore)) !! "alice" = Some aliceCache
  ∧ clock onlineEnv (clockReads (worldOf cachedStore)) < cache_expiresAt aliceCache
  ∧ get_eligibility onlineEnv "alice" (worldOf cachedStore)
    = (send (EligibilityBody (cachedView aliceCache)),
       mkWorld cachedStore [HttpGetUser "alice"; Query TBadgeEligibilityCache] 1 0).
Proof.
  assert (clock onlineEnv (clockReads (worldOf cachedStore)) < cache_expiresAt aliceCache)
    as Hfresh by reflexivity.
  split; [exact alice_is_cached|]. split; [exact Hfresh|].
  exact (proj1 (cache_hit_is_verbatim onlineEnv "alice" (worldOf cachedStore) aliceCache
                  alice_is_cached Hfresh)
               "college1" alice_resolves).
Defined.

(** C2: the statement of the specification fails when the auth service is down: the
    unexpired cache row is not looked at, and the answer is the 500
    failure. *)
Lemma cache_hit_is_verbatim_counterexample :
  badgeEligibilityCache (store (worldOf cachedStore)) !! "alice" = Some aliceCache
  ∧ clock offlineEnv (clockReads (worldOf cachedStore)) < cache_expiresAt aliceCache
  ∧ get_eligibility offlineEnv "alice" (worldOf cachedStore)
    = (code_send 500 (EligibilityFailure "Failed to check badge eligibility" false None),
       logged [HttpGetUser "alice"] (worldOf cachedStore))
  ∧ ¬ cacheHitAsStated offlineEnv "alice" (worldOf cachedStore).
Proof.
  assert (clock offlineEnv (clockReads (worldOf cachedStore)) < cache_expiresAt aliceCache)
    as Hfresh by reflexivity.
  split; [exact alice_is_cached|]. split; [exact Hfresh|]. split; [reflexivity|].
  intros Hstated. specialize (Hstated aliceCache alice_is_cached Hfresh).
  discriminate Hstated.
Qed.

(** * Further properties of the routes *)

(** ** The guards, once more *)

Section GuardFacts.
Variable verifyAccessToken : string → option JwtPayload.

(** X1. On a role-gated route the [requireAuth] hook in front of
    [requireRole] changes nothing: for every request, whether it passes
    the schema of the route or not, the chain
    [requireAuth, requireRole(roles)] gives the response and the world
    that [requireRole(roles)] alone gives, since [requireRole] runs
    [requireAuth] itself and the response that was sent first stands. *)
Theorem role_gate_subsumes_auth (valid : bool) (roles : list string)
    (handler : FastifyRequest → M Response) (request : FastifyRequest) (w : World) :
  route valid (authAndRole verifyAccessToken roles) handler request w
  = route valid [requireRole verifyAccessToken roles] handler request w.
Proof.
  destruct valid; [|done].
  unfold route, authAndRole. simpl. unfold requireRole, requireAuth. simpl.
  destruct (authorization request) as [auth|] eqn:Hauth; simpl.
  - destruct (String.prefix "Bearer " auth) eqn:Hprefix; simpl.
    + destruct (verifyAccessToken _) as [payload|] eqn:Hverify; simpl.
      * rewrite ?Hauth, ?Hprefix, ?Hverify. simpl. reflexivity.
      * destruct (user request) as [u|]; simpl.
        -- by destruct (existsb _ roles).
        -- by destruct roles.
    + destruct (user request) as [u|]; simpl.
      * by destruct (existsb _ roles).
      * by destruct roles.
  - destruct (user request) as [u|]; simpl.
    + by destruct (existsb _ roles).
    + by destruct roles.
Qed.

End GuardFacts.

(** ** The skills routes, once more *)

Lemma skillsOf_insert_ne (s : Store) (userId other : string) (p : Profile) :
  other ≠ userId →
  skillsOf (set_profiles (<[userId := p]>) s) other = skillsOf s other.
Proof. intros Hne. unfold skillsOf. simpl. by rewrite lookup_insert_ne. Qed.

Section MoreSkillFacts.
Context `{JsString}.

(** The skills routes run: the stored list of the caller after the
    request, and the lists of the other users, which stay as they are. *)
Lemma post_skill_run env skill userId w :
  trim skill ≠ "" →
  (∀ s, s ∈ skillsOf (store w) userId → toLowerCase s ≠ toLowerCase (trim skill)) →
  (List.length (skillsOf (store w) userId) < 50)%nat →
  ∃ p w',
    post_skill env skill userId w
    = (send (SkillsBody (skillsOf (store w) userId ++ [trim skill])), w')
    ∧ profile_skills p = (skillsOf (store w) userId ++ [trim skill])%list
    ∧ store w' = set_profiles (<[userId := p]>) (store w).
Proof.
  intros Hne Hnew Hroom. unfold post_skill.
  assert (Js.truthy_string (trim skill) = true) as ->.
  { unfold Js.truthy_string. by destruct (String.eqb_spec (trim skill) ""). }
  cbn [negb]. unfold bind. rewrite profile_findUnique_run.
  fold (skillsOf (store w) userId).
  assert (existsb (λ s, String.eqb (toLowerCase s) (toLowerCase (trim skill)))
                  (skillsOf (store w) userId) = false) as ->.
  { apply not_true_is_false. intros Hex. apply existsb_exists in Hex as (s & Hin & Heq).
    apply String.eqb_eq in Heq. by apply (Hnew s); [apply list_elem_of_In|]. }
  assert ((50 <=? List.length (skillsOf (store w) userId))%nat = false) as ->
    by by apply Nat.leb_gt.
  destruct (profile_upsert_skills env userId (skillsOf (store w) userId ++ [trim skill])
              (logged [Query TProfile] w)) as (p & w' & Hrun & Hskills & Hstore).
  rewrite Hrun. exists p, w'. by rewrite Hskills.
Qed.

Lemma put_skills_store env skills userId w :
  ∃ p w',
    put_skills env skills userId w = (send (SkillsBody (cleanSkills skills)), w')
    ∧ profile_skills p = cleanSkills skills
    ∧ store w' = set_profiles (<[userId := p]>) (store w).
Proof.
  unfold put_skills, bind.
  destruct (profile_upsert_skills env userId (cleanSkills skills) w)
    as (p & w' & Hrun & Hskills & Hstore).
  rewrite Hrun. exists p, w'. by rewrite Hskills.
Qed.

(** X2. Adding a skill that is not blank, that the caller's list does
    not hold up to letter case, to a list of fewer than 50 entries
    answers 200 with the list extended by the trimmed skill at its end;
    that list is stored, and the read route gives it back. The lists of
    the other users stay as they are. *)
Theorem post_skill_appends (env : Env) (skill userId : string) (w : World) :
  trim skill ≠ "" →
  (∀ s, s ∈ skillsOf (store w) userId → toLowerCase s ≠ toLowerCase (trim skill)) →
  (List.length (skillsOf (store w) userId) < 50)%nat →
  ∃ w',
    post_skill env skill userId w
    = (send (SkillsBody (skillsOf (store w) userId ++ [trim skill])), w')
    ∧ skillsOf (store w') userId = (skillsOf (store w) userId ++ [trim skill])%list
    ∧ (get_skills userId w').1 = send (SkillsBody (skillsOf (store w) userId ++ [trim skill]))
    ∧ (∀ other, other ≠ userId → skillsOf (store w') other = skillsOf (store w) other).
Proof.
  intros Hne Hnew Hroom.
  destruct (post_skill_run env skill userId w Hne Hnew Hroom) as (p & w' & Hrun & Hp & Hstore).
  exists w'. split; [done|].
  assert (skillsOf (store w') userId = (skillsOf (store w) userId ++ [trim skill])%list)
    as Hstored by by rewrite Hstore, skillsOf_insert.
  split; [done|]. split.
  - unfold get_skills, bind. rewrite profile_findUnique_run. simpl.
    fold (skillsOf (store w') userId). by rewrite Hstored.
  - intros other Hother. by rewrite Hstore, skillsOf_insert_ne.
Qed.

(** X3. Removing a skill takes every entry equal to the decoded name
    out of the caller's list and keeps the other entries in their order
    (the comparison is exact, so an entry that differs in letter case
    stays). The name is then not in the stored list, and removing it
    once more changes nothing. *)
Theorem delete_skill_removes (env : Env) (skill decoded userId : string) (w : World) :
  decodeURIComponent skill = Some decoded →
  ∃ w',
    delete_skill env skill userId w
    = (send (SkillsBody (filter (λ s, s ≠ decoded) (skillsOf (store w) userId))), w')
    ∧ skillsOf (store w') userId = filter (λ s, s ≠ decoded) (skillsOf (store w) userId)
    ∧ (decoded ∉ skillsOf (store w') userId)
    ∧ (∀ s, s ≠ decoded → s ∈ skillsOf (store w) userId → s ∈ skillsOf (store w') userId)
    ∧ ∃ w'',
        delete_skill env skill userId w' = (send (SkillsBody (skillsOf (store w') userId)), w'')
        ∧ skillsOf (store w'') userId = skillsOf (store w') userId.
Proof.
  intros Hdecode.
  destruct (delete_skill_run env skill decoded userId w Hdecode)
    as (p & w' & Hrun & Hp & Hstore).
  exists w'. split; [done|].
  assert (skillsOf (store w') userId = filter (λ s, s ≠ decoded) (skillsOf (store w) userId))
    as Hstored by by rewrite Hstore, skillsOf_insert.
  assert (decoded ∉ skillsOf (store w') userId) as Hgone.
  { rewrite Hstored, list_elem_of_filter. by intros [Hne _]. }
  split; [done|]. split; [done|]. split.
  - intros s Hs Hin. rewrite Hstored. by apply list_elem_of_filter.
  - apply (delete_skill_absent env skill decoded userId w' Hdecode Hgone).
Qed.

Lemma skillsRequest_bounded env request userId w :
  skillsBounded (store w) → skillsBounded (store (skillsRequest env request userId w).2).
Proof.
  intros Hbound other.
  assert (∀ p w', (List.length (profile_skills p) ≤ 50)%nat →
                  store w' = set_profiles (<[userId := p]>) (store w) →
                  (List.length (skillsOf (store w') other) ≤ 50)%nat) as Hset.
  { intros p w' Hp ->. destruct (decide (other = userId)) as [->|Hne].
    - by rewrite skillsOf_insert.
    - rewrite skillsOf_insert_ne by done. apply Hbound. }
  destruct request as [|skills|skill|skill]; simpl.
  - apply Hbound.
  - destruct (put_skills_store env skills userId w) as (p & w' & -> & Hp & Hstore).
    apply (Hset p w'); [|done]. rewrite Hp. unfold cleanSkills.
    rewrite length_take. lia.
  - destruct (decide (trim skill = "")) as [Hblank|Hne].
    { unfold post_skill. rewrite Hblank. simpl. apply Hbound. }
    destruct (decide (Exists (λ s, toLowerCase s = toLowerCase (trim skill))
                             (skillsOf (store w) userId))) as [Hdup|Hnew].
    { apply Exists_exists in Hdup.
      destruct (post_skill_duplicate env skill userId w Hdup) as (m & w' & -> & Hsame).
      simpl. rewrite Hsame. apply Hbound. }
    destruct (decide (50 ≤ List.length (skillsOf (store w) userId))%nat) as [Hfull|Hroom].
    { destruct (post_skill_full env skill userId w Hfull) as (m & w' & -> & Hsame).
      simpl. rewrite Hsame. apply Hbound. }
    destruct (post_skill_run env skill userId w Hne) as (p & w' & -> & Hp & Hstore).
    + intros s Hin Heq. apply Hnew, Exists_exists. by exists s.
    + lia.
    + apply (Hset p w'); [|done]. rewrite Hp, length_app. simpl. lia.
  - destruct (decodeURIComponent skill) as [decoded|] eqn:Hdecode.
    + destruct (delete_skill_run env skill decoded userId w Hdecode)
        as (p & w' & -> & Hp & Hstore).
      apply (Hset p w'); [|done]. rewrite Hp.
      etransitivity; [apply length_filter|]. apply Hbound.
    + unfold delete_skill. rewrite Hdecode. apply Hbound.
Qed.

(** X4. The four skills routes keep every stored list within fifty
    entries: from a store where no profile holds more than fifty
    skills, no sequence of reads, bulk updates, additions and removals,
    by whatever callers, leads to a store where one does. *)
Theorem skills_stay_bounded (env : Env) (requests : list (string * SkillsRequest))
    (w : World) :
  skillsBounded (store w) → skillsBounded (store (served env requests w)).
Proof.
  revert w. induction requests as [|[userId request] rest IH]; intros w Hbound; [done|].
  simpl. apply IH. by apply skillsRequest_bounded.
Qed.

End MoreSkillFacts.

(** ** Projects, publications and experiences, once more *)

Lemma findFirst_owned_some {A} (owner : A → string) (m : gmap string A) (id userId : string)
    (r : A) :
  m !! id = Some r → owner r = userId → findFirst_owned owner m id userId = Some r.
Proof.
  intros Hr Howner. unfold findFirst_owned. rewrite Hr.
  by rewrite bool_decide_eq_true_2.
Qed.

Lemma ownedBy_or_not {A} (owner : A → string) (m : gmap string A) (id userId : string) :
  ownedBy owner m id userId ∨ notOwned owner m id userId.
Proof.
  unfold ownedBy, notOwned. destruct (m !! id) as [r|] eqn:Hr.
  - destruct (decide (owner r = userId)) as [Heq|Hne].
    + left. by exists r.
    + right. intros r' Hr'. by injection Hr' as <-.
  - by right.
Qed.

Lemma ownedBy_not {A} (owner : A → string) (m : gmap string A) (id userId : string) :
  ownedBy owner m id userId → notOwned owner m id userId → False.
Proof. intros (r & Hr & Howner) Hnot. by apply (Hnot r). Qed.

Lemma ownersOf_update {A} (owner : A → string) (m : gmap string A) (id : string) (r r' : A) :
  m !! id = Some r → owner r' = owner r →
  ownersOf owner (<[id := r']> m) = ownersOf owner m.
Proof.
  intros Hr Howner. unfold ownersOf. rewrite fmap_insert, Howner.
  apply insert_id. by rewrite lookup_fmap, Hr.
Qed.

Lemma deleted_notOwned {A} (owner : A → string) (m : gmap string A) (id userId : string) :
  notOwned owner (delete id m) id userId.
Proof. intros r Hr. by rewrite lookup_delete_eq in Hr. Qed.

Lemma put_project_owned projectId data userId w p :
  personalProjects (store w) !! projectId = Some p → project_userId p = userId →
  put_project projectId data userId w
  = (send (ProjectBody projectId (updateProject data p)),
     mkWorld (set_personalProjects (<[projectId := updateProject data p]>) (store w))
             (log w ++ [Query TPersonalProject; Mutation TPersonalProject])%list
             (clockReads w) (idsDrawn w)).
Proof.
  intros Hp Howner. unfold put_project, update_row. run.
  rewrite (findFirst_owned_some _ _ _ _ p Hp Howner). simpl. rewrite Hp. simpl.
  by rewrite <- app_assoc.
Qed.

Lemma put_publication_owned publicationId data userId w p :
  publications (store w) !! publicationId = Some p → publication_userId p = userId →
  put_publication publicationId data userId w
  = (send (PublicationBody publicationId (updatePublication data p)),
     mkWorld (set_publications (<[publicationId := updatePublication data p]>) (store w))
             (log w ++ [Query TPublication; Mutation TPublication])%list
             (clockReads w) (idsDrawn w)).
Proof.
  intros Hp Howner. unfold put_publication, update_row. run.
  rewrite (findFirst_owned_some _ _ _ _ p Hp Howner). simpl. rewrite Hp. simpl.
  by rewrite <- app_assoc.
Qed.

Lemma put_experience_owned id data userId w e :
  experiences (store w) !! id = Some e → experience_userId e = userId →
  put_experience id data userId w
  = (send (ExperienceBody id (updateExperience data e)),
     mkWorld (set_experiences (<[id := updateExperience data e]>) (store w))
             (log w ++ [Query TExperience; Mutation TExperience])%list
             (clockReads w) (idsDrawn w)).
Proof.
  intros He Howner. unfold put_experience, update_row. run.
  rewrite (findFirst_owned_some _ _ _ _ e He Howner). simpl. rewrite He. simpl.
  by rewrite <- app_assoc.
Qed.

(** X5. An update of a project, a publication or an experience answers
    200 exactly when the row exists and belongs to the caller. Whoever
    calls and whatever the body holds, the update leaves every other row
    of the relation as it is and never changes the owner of a row: the
    ownership that the guard checks cannot be passed on. *)
Theorem updates_keep_owners (id userId : string) (w : World) :
  (∀ data,
     let result := put_project id data userId w in
     (status result.1 = 200 ↔ ownedBy project_userId (personalProjects (store w)) id userId)
     ∧ ownersOf project_userId (personalProjects (store result.2))
       = ownersOf project_userId (personalProjects (store w))
     ∧ ∀ other, other ≠ id →
         personalProjects (store result.2) !! other = personalProjects (store w) !! other)
  ∧ (∀ data,
       let result := put_publication id data userId w in
       (status result.1 = 200 ↔ ownedBy publication_userId (publications (store w)) id userId)
       ∧ ownersOf publication_userId (publications (store result.2))
         = ownersOf publication_userId (publications (store w))
       ∧ ∀ other, other ≠ id →
           publications (store result.2) !! other = publications (store w) !! other)
  ∧ (∀ data,
       let result := put_experience id data userId w in
       (status result.1 = 200 ↔ ownedBy experience_userId (experiences (store w)) id userId)
       ∧ ownersOf experience_userId (experiences (store result.2))
         = ownersOf experience_userId (experiences (store w))
       ∧ ∀ other, other ≠ id →
           experiences (store result.2) !! other = experiences (store w) !! other).
Proof.
  split; [|split]; intros data result; subst result.
  - destruct (ownedBy_or_not project_userId (personalProjects (store w)) id userId)
      as [(p & Hp & Howner) | Hnot].
    + rewrite (put_project_owned id data userId w p Hp Howner). simpl.
      split; [split; [by exists p | done]|]. split.
      * by apply (ownersOf_update _ _ _ p).
      * intros other Hother. by rewrite lookup_insert_ne.
    + rewrite (put_project_not_owned id data userId w Hnot). simpl.
      split; [|done]. split; [done|]. intros Howned. by destruct (ownedBy_not _ _ _ _ Howned).
  - destruct (ownedBy_or_not publication_userId (publications (store w)) id userId)
      as [(p & Hp & Howner) | Hnot].
    + rewrite (put_publication_owned id data userId w p Hp Howner). simpl.
      split; [split; [by exists p | done]|]. split.
      * by apply (ownersOf_update _ _ _ p).
      * intros other Hother. by rewrite lookup_insert_ne.
    + rewrite (put_publication_not_owned id data userId w Hnot). simpl.
      split; [|done]. split; [done|]. intros Howned. by destruct (ownedBy_not _ _ _ _ Howned).
  - destruct (ownedBy_or_not experience_userId (experiences (store w)) id userId)
      as [(e & He & Howner) | Hnot].
    + rewrite (put_experience_owned id data userId w e He Howner). simpl.
      split; [split; [by exists e | done]|]. split.
      * by apply (ownersOf_update _ _ _ e).
      * intros other Hother. by rewrite lookup_insert_ne.
    + rewrite (put_experience_not_owned id data userId w Hnot). simpl.
      split; [|done]. split; [done|]. intros Howned. by destruct (ownedBy_not _ _ _ _ Howned).
Qed.

Lemma delete_project_owned projectId userId w p :
  personalProjects (store w) !! projectId = Some p → project_userId p = userId →
  delete_project projectId userId w
  = (code_send 204 NoBody,
     mkWorld (set_personalProjects (delete projectId) (store w))
             (log w ++ [Query TPersonalProject; Mutation TPersonalProject])%list
             (clockReads w) (idsDrawn w)).
Proof.
  intros Hp Howner. unfold delete_project, delete_row. run.
  rewrite (findFirst_owned_some _ _ _ _ p Hp Howner). simpl. rewrite Hp. simpl.
  by rewrite <- app_assoc.
Qed.

Lemma delete_publication_owned publicationId userId w p :
  publications (store w) !! publicationId = Some p → publication_userId p = userId →
  delete_publication publicationId userId w
  = (code_send 204 (MessageBody "Publication deleted successfully"),
     mkWorld (set_publications (delete publicationId) (store w))
             (log w ++ [Query TPublication; Mutation TPublication])%list
             (clockReads w) (idsDrawn w)).
Proof.
  intros Hp Howner. unfold delete_publication, delete_row. run.
  rewrite (findFirst_owned_some _ _ _ _ p Hp Howner). simpl. rewrite Hp. simpl.
  by rewrite <- app_assoc.
Qed.

Lemma delete_experience_owned id userId w e :
  experiences (store w) !! id = Some e → experience_userId e = userId →
  delete_experience id userId w
  = (send (MessageBody "Experience deleted successfully"),
     mkWorld (set_experiences (delete id) (store w))
             (log w ++ [Query TExperience; Mutation TExperience])%list
             (clockReads w) (idsDrawn w)).
Proof.
  intros He Howner. unfold delete_experience, delete_row. run.
  rewrite He. simpl. rewrite Howner, String.eqb_refl. simpl. rewrite He. simpl.
  by rewrite <- app_assoc.
Qed.

(** X6. The owner's delete of a project, a publication or an
    experience removes this row and no other (204 for a project and a
    publication, 200 for an experience). From then on every update and
    every delete of this id, by any caller, is answered 404. *)
Theorem deleted_rows_are_gone (id userId : string) (w : World) :
  (ownedBy project_userId (personalProjects (store w)) id userId →
   ∃ w',
     delete_project id userId w = (code_send 204 NoBody, w')
     ∧ personalProjects (store w') = delete id (personalProjects (store w))
     ∧ ∀ caller data,
         status (put_project id data caller w').1 = 404
         ∧ status (delete_project id caller w').1 = 404)
  ∧ (ownedBy publication_userId (publications (store w)) id userId →
     ∃ w',
       delete_publication id userId w
       = (code_send 204 (MessageBody "Publication deleted successfully"), w')
       ∧ publications (store w') = delete id (publications (store w))
       ∧ ∀ caller data,
           status (put_publication id data caller w').1 = 404
           ∧ status (delete_publication id caller w').1 = 404)
  ∧ (ownedBy experience_userId (experiences (store w)) id userId →
     ∃ w',
       delete_experience id userId w
       = (send (MessageBody "Experience deleted successfully"), w')
       ∧ experiences (store w') = delete id (experiences (store w))
       ∧ ∀ caller data,
           status (put_experience id data caller w').1 = 404
           ∧ status (delete_experience id caller w').1 = 404).
Proof.
  split; [|split].
  - intros (p & Hp & Howner). rewrite (delete_project_owned id userId w p Hp Howner).
    eexists. split; [done|]. split; [done|]. intros caller data.
    rewrite put_project_not_owned, delete_project_not_owned;
      [done | apply deleted_notOwned | apply deleted_notOwned].
  - intros (p & Hp & Howner). rewrite (delete_publication_owned id userId w p Hp Howner).
    eexists. split; [done|]. split; [done|]. intros caller data.
    rewrite put_publication_not_owned, delete_publication_not_owned;
      [done | apply deleted_notOwned | apply deleted_notOwned].
  - intros (e & He & Howner). rewrite (delete_experience_owned id userId w e He Howner).
    eexists. split; [done|]. split; [done|]. intros caller data.
    rewrite put_experience_not_owned, delete_experience_not_owned;
      [done | apply deleted_notOwned | apply deleted_notOwned].
Qed.

(** The upsert that makes sure the caller has a profile: it writes the
    profile table only, and leaves a stored profile as it is. *)
Lemma profile_ensured env userId w :
  ∃ p w1,
    profile_upsert env userId (λ p, p) (λ p, p) w = (p, w1)
    ∧ profiles (store w1) !! userId = Some p
    ∧ personalProjects (store w1) = personalProjects (store w)
    ∧ publications (store w1) = publications (store w)
    ∧ experiences (store w1) = experiences (store w)
    ∧ badgeDefinitions (store w1) = badgeDefinitions (store w)
    ∧ studentBadges (store w1) = studentBadges (store w)
    ∧ (∀ other, other ≠ userId → profiles (store w1) !! other = profiles (store w) !! other)
    ∧ (∀ q, profiles (store w) !! userId = Some q → p = q).
Proof.
  destruct (profiles (store w) !! userId) as [q|] eqn:Hq.
  - rewrite (profile_upsert_existing env userId _ _ w q Hq). eexists _, _.
    split; [done|]. simpl. rewrite lookup_insert_eq. repeat split; try done.
    + intros other Hother. by rewrite lookup_insert_ne.
    + intros q' Hq'. by injection Hq'.
  - rewrite (profile_upsert_missing env userId _ _ w Hq). eexists _, _.
    split; [done|]. simpl. rewrite lookup_insert_eq. repeat split; try done.
    intros other Hother. by rewrite lookup_insert_ne.
Qed.

Lemma create_row_run {A} env t (get : Store → gmap string A)
    (set : (gmap string A → gmap string A) → Store → Store) userId (row : Date → A) w p :
  profiles (store w) !! userId = Some p →
  get (store w) !! cuid env (idsDrawn w) = None →
  create_row env t get set userId row w
  = (Some (cuid env (idsDrawn w), row (clock env (clockReads w))),
     mkWorld (set (<[cuid env (idsDrawn w) := row (clock env (clockReads w))]>) (store w))
             (log w ++ [Mutation t])%list (S (clockReads w)) (S (idsDrawn w))).
Proof.
  intros Hp Hfresh. unfold create_row. run. rewrite Hp. simpl. by rewrite Hfresh.
Qed.

(** X7. Creating a project, a publication or an experience makes sure
    that the caller has a profile and stores one new row, under an id
    that the store generates, with the fields of the body; the row
    belongs to the caller, so that the ownership guard of the update and
    delete routes lets the caller, and nobody else, through. The answer
    is 201 for a project and a publication and 200 for an experience. *)
Theorem created_rows_belong_to_caller (env : Env) (userId : string) (w : World) :
  (∀ data,
     freshIds env (personalProjects (store w)) →
     ∃ id createdAt w',
       let project :=
         mkPersonalProject userId (in_title data) (in_description data) (in_github data)
                           (in_demoLink data) (in_image data) createdAt in
       post_project env data userId w = (code_send 201 (ProjectBody id project), w')
       ∧ personalProjects (store w') = <[id := project]> (personalProjects (store w))
       ∧ personalProjects (store w) !! id = None
       ∧ is_Some (profiles (store w') !! userId)
       ∧ ownedBy project_userId (personalProjects (store w')) id userId)
  ∧ (∀ data,
       freshIds env (publications (store w)) →
       ∃ id createdAt w',
         let publication :=
           mkPublication userId (in_pub_title data) (in_pub_year data) (in_pub_link data)
                         createdAt in
         post_publication env data userId w
         = (code_send 201 (PublicationBody id publication), w')
         ∧ publications (store w') = <[id := publication]> (publications (store w))
         ∧ publications (store w) !! id = None
         ∧ is_Some (profiles (store w') !! userId)
         ∧ ownedBy publication_userId (publications (store w')) id userId)
  ∧ (∀ data,
       freshIds env (experiences (store w)) →
       ∃ id w',
         let experience :=
           mkExperience userId (in_area data) (in_level data) (in_yearsExp data)
                        (in_exp_description data) in
         post_experience env data userId w = (send (ExperienceBody id experience), w')
         ∧ experiences (store w') = <[id := experience]> (experiences (store w))
         ∧ experiences (store w) !! id = None
         ∧ is_Some (profiles (store w') !! userId)
         ∧ ownedBy experience_userId (experiences (store w')) id userId).
Proof.
  split; [|split]; intros data Hfresh.
  - unfold post_project, bind.
    destruct (profile_ensured env userId w)
      as (p & w1 & -> & Hp & Hprojects & _ & _ & _ & _ & _ & _).
    rewrite (create_row_run env _ _ _ userId _ w1 p Hp)
      by (rewrite Hprojects; apply Hfresh).
    eexists _, _, _. split; [done|]. simpl. rewrite Hprojects.
    split; [done|]. split; [apply Hfresh|]. split; [by rewrite Hp|].
    eexists. by rewrite lookup_insert_eq.
  - unfold post_publication, bind.
    destruct (profile_ensured env userId w)
      as (p & w1 & -> & Hp & _ & Hpublications & _ & _ & _ & _ & _).
    rewrite (create_row_run env _ _ _ userId _ w1 p Hp)
      by (rewrite Hpublications; apply Hfresh).
    eexists _, _, _. split; [done|]. simpl. rewrite Hpublications.
    split; [done|]. split; [apply Hfresh|]. split; [by rewrite Hp|].
    eexists. by rewrite lookup_insert_eq.
  - unfold post_experience, bind.
    destruct (profile_ensured env userId w)
      as (p & w1 & -> & Hp & _ & _ & Hexperiences & _ & _ & _ & _).
    rewrite (create_row_run env _ _ _ userId _ w1 p Hp)
      by (rewrite Hexperiences; apply Hfresh).
    eexists _, _. split; [done|]. simpl. rewrite Hexperiences.
    split; [done|]. split; [apply Hfresh|]. split; [by rewrite Hp|].
    eexists. by rewrite lookup_insert_eq.
Qed.

(** ** Listings *)

Lemma laterFirst_total {A} (key : A → Z) : Total (laterFirst key).
Proof. intros x y. unfold laterFirst. lia. Qed.

Lemma laterFirst_transitive {A} (key : A → Z) : Transitive (laterFirst key).
Proof. intros x y z. unfold laterFirst. lia. Qed.

Lemma orderByDesc_sorted {A} (key : A → Z) (rows : list A) :
  StronglySorted (laterFirst key) (orderByDesc key rows).
Proof.
  unfold orderByDesc.
  apply (@StronglySorted_merge_sort _ _ _ (laterFirst_transitive key) (laterFirst_total key)).
Qed.

Lemma orderByDesc_Permutation {A} (key : A → Z) (rows : list A) :
  orderByDesc key rows ≡ₚ rows.
Proof. apply merge_sort_Permutation. Qed.

Lemma elem_of_related {A} (owner : A → string) (userId : string) (m : gmap string A)
    (id : string) (r : A) :
  (id, r) ∈ related owner userId m ↔ m !! id = Some r ∧ owner r = userId.
Proof.
  unfold related. rewrite list_elem_of_filter, elem_of_map_to_list. simpl. tauto.
Qed.

Lemma related_NoDup {A} (owner : A → string) (userId : string) (m : gmap string A) :
  NoDup (related owner userId m).
Proof. apply NoDup_filter, NoDup_map_to_list. Qed.

(** X8. The listings of the caller's projects, publications and
    experiences answer 200 with exactly the stored rows that belong to
    the caller, each once, and write nothing. The projects come with the
    latest creation date first and the publications with the latest year
    first. The experiences are read through the profile, so a caller
    without a profile row gets the empty list. *)
Theorem listings_show_own_rows (userId : string) (w : World) :
  (∃ rows,
     get_projects userId w = (sendData (ProjectsBody rows), logged [Query TPersonalProject] w)
     ∧ (∀ id p, (id, p) ∈ rows
                ↔ personalProjects (store w) !! id = Some p ∧ project_userId p = userId)
     ∧ NoDup rows
     ∧ StronglySorted (λ x y, project_createdAt y.2 ≤ project_createdAt x.2) rows)
  ∧ (∃ rows,
       get_publications userId w
       = (sendData (PublicationsBody rows), logged [Query TPublication] w)
       ∧ (∀ id p, (id, p) ∈ rows
                  ↔ publications (store w) !! id = Some p ∧ publication_userId p = userId)
       ∧ NoDup rows
       ∧ StronglySorted (λ x y, publication_year y.2 ≤ publication_year x.2) rows)
  ∧ (∃ rows,
       get_experiences userId w
       = (sendData (ExperiencesBody rows), logged [Query TProfile] w)
       ∧ (∀ id e, (id, e) ∈ rows
                  ↔ experiences (store w) !! id = Some e ∧ experience_userId e = userId
                    ∧ is_Some (profiles (store w) !! userId))
       ∧ NoDup rows).
Proof.
  split; [|split].
  - eexists. split; [reflexivity|]. split; [|split].
    + intros id p. rewrite orderByDesc_Permutation. apply elem_of_related.
    + rewrite orderByDesc_Permutation. apply related_NoDup.
    + apply (orderByDesc_sorted (λ row : string * PersonalProject, project_createdAt row.2)).
  - eexists. split; [reflexivity|]. split; [|split].
    + intros id p. rewrite orderByDesc_Permutation. apply elem_of_related.
    + rewrite orderByDesc_Permutation. apply related_NoDup.
    + apply (orderByDesc_sorted (λ row : string * Publication, publication_year row.2)).
  - unfold get_experiences. run. eexists. split; [reflexivity|]. split.
    + intros id e. destruct (profiles (store w) !! userId) as [p|]; simpl.
      * split.
        -- intros Hin. apply elem_of_related in Hin as [? ?]. by eauto.
        -- intros (? & ? & _). by apply elem_of_related.
      * rewrite elem_of_nil. split; [done|]. by intros (_ & _ & [? ?]).
    + destruct (profiles (store w) !! userId); simpl; [apply related_NoDup | constructor].
Qed.

(** ** Stored profiles *)

Section ProfileFacts.
Variable putUser : string → UserUpdate → AxiosResult unit.

Lemma profile_upsert_include_run env userId f w :
  ∃ w',
    profile_upsert_include env userId f f w
    = (included (store w') userId (f (rowBefore env userId w)), w')
    ∧ store w' = set_profiles (<[userId := f (rowBefore env userId w)]>) (store w).
Proof.
  unfold profile_upsert_include, bind, rowBefore.
  destruct (profiles (store w) !! userId) as [p|] eqn:Hp.
  - rewrite (profile_upsert_existing env userId _ _ w p Hp). by eexists.
  - rewrite (profile_upsert_missing env userId _ _ w Hp). by eexists.
Qed.

Lemma put_profile_me_run env data userId w :
  hasUserFields data = false ∨ (∃ r, putUser userId (updateData data) = Resolved r) →
  ∃ w',
    put_profile_me putUser env data userId w
    = (sendData (StoredBody (Some (included (store w') userId
                                            (profileData data (rowBefore env userId w))))), w')
    ∧ store w' = set_profiles (<[userId := profileData data (rowBefore env userId w)]>) (store w).
Proof.
  intros Hgo. unfold put_profile_me, bind.
  destruct (profile_upsert_include_run env userId (profileData data) w) as (w' & Hrun & Hstore).
  exists w'. split; [|done].
  destruct (hasUserFields data).
  - destruct Hgo as [|[r ->]]; [done|]. by rewrite Hrun.
  - by rewrite Hrun.
Qed.

(** X9. The profile update writes the profile only after the auth
    service has taken the fields of the user model. When the body holds
    such a field and the auth service rejects the request, the answer is
    500 and nothing is written, whatever else the body holds. When the
    body holds no such field the auth service is not consulted. In every
    other case the answer is 200 with the caller's row: the stored row
    (a new one when there is none) with the fields of the body written
    over it and the fields the body leaves out kept; [department] and
    [year] of the row are never written. Both read routes then give this
    row back. *)
Theorem profile_update_all_or_nothing (env : Env) (data : ProfileUpdate) (userId : string)
    (w : World) :
  (hasUserFields data = true →
   (∃ errorStatus, putUser userId (updateData data) = Rejected errorStatus) →
   put_profile_me putUser env data userId w
   = (code_sendData 500 (Plain (MessageBody "Failed to update user data")), w))
  ∧ (hasUserFields data = false →
     ∀ putUser', put_profile_me putUser' env data userId w
                 = put_profile_me putUser env data userId w)
  ∧ (hasUserFields data = false ∨ (∃ r, putUser userId (updateData data) = Resolved r) →
     ∃ profile w',
       put_profile_me putUser env data userId w = (sendData (StoredBody (Some profile)), w')
       ∧ row profile = profileData data (rowBefore env userId w)
       ∧ profiles (store w') = <[userId := row profile]> (profiles (store w))
       ∧ profile_department (row profile) = profile_department (rowBefore env userId w)
       ∧ profile_year (row profile) = profile_year (rowBefore env userId w)
       ∧ (get_profile_userId userId w').1 = sendData (StoredBody (Some profile))
       ∧ (get_profiles_userId userId w').1 = sendData (StoredBody (Some profile))).
Proof.
  split; [|split].
  - intros Hfields [errorStatus Hrejected]. unfold put_profile_me.
    by rewrite Hfields, Hrejected.
  - intros Hfields putUser'. unfold put_profile_me. by rewrite Hfields.
  - intros Hgo. destruct (put_profile_me_run env data userId w Hgo) as (w' & Hrun & Hstore).
    eexists _, w'. split; [exact Hrun|]. simpl. rewrite Hstore. simpl.
    split; [done|]. split; [done|]. split; [done|]. split; [done|].
    unfold get_profile_userId, get_profiles_userId, profile_findUnique_include. run.
    rewrite Hstore. simpl. by rewrite lookup_insert_eq.
Qed.

(** X10. The profile update stores the [skills] of its body as they
    are: no entry is trimmed or dropped and the list is not cut, unlike
    the bulk update of the skills route. The bound of fifty skills that
    the skills routes keep does not hold after an update with a longer
    list. *)
Theorem profile_update_skips_skill_rules (env : Env) (data : ProfileUpdate)
    (userId : string) (w : World) (skills : list string) :
  up_skills data = Some skills →
  hasUserFields data = false ∨ (∃ r, putUser userId (updateData data) = Resolved r) →
  skillsOf (store (put_profile_me putUser env data userId w).2) userId = skills
  ∧ ((50 < List.length skills)%nat →
     ¬ skillsBounded (store (put_profile_me putUser env data userId w).2)).
Proof.
  intros Hskills Hgo.
  destruct (put_profile_me_run env data userId w Hgo) as (w' & -> & Hstore). simpl.
  assert (skillsOf (store w') userId = skills) as Hstored.
  { rewrite Hstore, skillsOf_insert. simpl. by rewrite Hskills. }
  split; [done|]. intros Hlong Hbound. specialize (Hbound userId).
  rewrite Hstored in Hbound. lia.
Qed.

End ProfileFacts.

(** ** Badge definitions and policies *)

Section DefinitionFacts.
Context `{JsString}.
Variable defaults : SchemaDefaults.

Lemma keptField_blank (field : option string) : blank field → keptField field = None.
Proof.
  destruct field as [s|]; simpl; [|done]. unfold Js.truthy_string.
  intros [-> | ->]; [done|]. by rewrite andb_false_r.
Qed.

Lemma keptField_given (field : option string) : ¬ blank field → keptField field = field.
Proof.
  destruct field as [s|]; simpl; [|tauto]. unfold Js.truthy_string. intros Hgiven.
  destruct (String.eqb_spec s "") as [->|_]; [tauto|].
  destruct (String.eqb_spec (trim s) "") as [Htrim|_]; [tauto | done].
Qed.

Lemma keptField_not_empty (field : option string) : keptField field ≠ Some "".
Proof.
  destruct field as [s|]; simpl; [|done]. unfold Js.truthy_string.
  destruct (String.eqb_spec s "") as [->|Hne]; simpl; [done|].
  destruct (negb _); [|done]. by intros [= ->].
Qed.

Lemma post_badge_definition_run env data createdBy w :
  badgeDefinitions (store w) !! cuid env (idsDrawn w) = None →
  post_badge_definition defaults env data createdBy w
  = (code_sendData 201 (BadgeDefinitionBody (cuid env (idsDrawn w))
                                            (createData defaults data createdBy)),
     mkWorld (set_badgeDefinitions
                (<[cuid env (idsDrawn w) := createData defaults data createdBy]>) (store w))
             (log w ++ [Mutation TBadgeDefinition])%list (clockReads w) (S (idsDrawn w))).
Proof. intros Hfresh. unfold post_badge_definition. run. by rewrite Hfresh. Qed.

(** X11. A new badge definition is stored under an id that the store
    generates, with the name, the description and the rarity of the body
    and the caller as its creator. Each of [icon], [color], [category]
    and [criteria] is stored as it was sent (it is not trimmed) when it
    holds more than white space, and is left null when it is absent,
    empty or blank: no definition is created with an empty category. The
    definitions that were stored before stay as they are. *)
Theorem definitions_keep_no_blank_field (env : Env) (data : BadgeDefinitionInput)
    (createdBy : string) (w : World) :
  freshIds env (badgeDefinitions (store w)) →
  ∃ id d w',
    post_badge_definition defaults env data createdBy w
    = (code_sendData 201 (BadgeDefinitionBody id d), w')
    ∧ badgeDefinitions (store w) !! id = None
    ∧ badgeDefinitions (store w') = <[id := d]> (badgeDefinitions (store w))
    ∧ badge_name d = in_name data ∧ badge_description d = in_def_description data
    ∧ badge_rarity d = in_rarity data ∧ badge_createdBy d = createdBy
    ∧ Forall (λ field : option string * option string,
                (blank field.1 → field.2 = None) ∧ (¬ blank field.1 → field.2 = field.1))
             [(in_icon data, badge_icon d); (in_color data, badge_color d);
              (in_category data, badge_category d); (in_criteria data, badge_criteria d)]
    ∧ badge_category d ≠ Some "".
Proof.
  intros Hfresh. rewrite (post_badge_definition_run env data createdBy w (Hfresh _)).
  eexists _, _, _. split; [done|]. split; [apply Hfresh|]. split; [done|].
  repeat (split; [done|]). split.
  - repeat constructor; simpl; (apply keptField_blank || apply keptField_given).
  - apply keptField_not_empty.
Qed.

Lemma post_policy_run data w :
  badgePolicies (store w) !! in_collegeId data = None →
  post_policy defaults data w
  = (code_sendData 201
       (PolicyBody (in_collegeId data)
          (mkBadgePolicy (in_departmentId data) (in_eventCreationRequired data)
                         (in_categoryDiversityMin data) (default_policy_isActive defaults))),
     mkWorld (set_badgePolicies
                (<[in_collegeId data :=
                     mkBadgePolicy (in_departmentId data) (in_eventCreationRequired data)
                                   (in_categoryDiversityMin data)
                                   (default_policy_isActive defaults)]>) (store w))
             (log w ++ [Mutation TBadgePolicy])%list (clockReads w) (idsDrawn w)).
Proof. intros Hnone. unfold post_policy. run. by rewrite Hnone. Qed.

Lemma post_policy_taken data w policy :
  badgePolicies (store w) !! in_collegeId data = Some policy →
  post_policy defaults data w
  = (code_sendData 500 (Plain InternalServerError), logged [Mutation TBadgePolicy] w).
Proof. intros Hsome. unfold post_policy. run. by rewrite Hsome. Qed.

(** X12. A policy is created once for a college. For a college without
    a policy the create answers 201 and stores the thresholds of the
    body; the read route then answers this policy. Every later create
    for the same college fails with 500 and leaves the stored policy as
    it is, whatever thresholds it brings. *)
Theorem policy_is_created_once (data : PolicyInput) (w : World) :
  badgePolicies (store w) !! in_collegeId data = None →
  ∃ policy w1,
    post_policy defaults data w = (code_sendData 201 (PolicyBody (in_collegeId data) policy), w1)
    ∧ policy_eventCreationRequired policy = in_eventCreationRequired data
    ∧ policy_categoryDiversityMin policy = in_categoryDiversityMin data
    ∧ badgePolicies (store w1) = <[in_collegeId data := policy]> (badgePolicies (store w))
    ∧ (get_policy (in_collegeId data) w1).1 = sendData (PolicyBody (in_collegeId data) policy)
    ∧ ∀ again,
        in_collegeId again = in_collegeId data →
        ∃ w2,
          post_policy defaults again w1 = (code_sendData 500 (Plain InternalServerError), w2)
          ∧ store w2 = store w1
          ∧ (get_policy (in_collegeId data) w2).1
            = sendData (PolicyBody (in_collegeId data) policy).
Proof.
  intros Hnone. rewrite (post_policy_run data w Hnone). eexists _, _.
  split; [done|]. split; [done|]. split; [done|]. split; [done|].
  assert (∀ w', badgePolicies (store w') !! in_collegeId data
                = Some (mkBadgePolicy (in_departmentId data) (in_eventCreationRequired data)
                          (in_categoryDiversityMin data) (default_policy_isActive defaults)) →
                (get_policy (in_collegeId data) w').1
                = sendData (PolicyBody (in_collegeId data)
                    (mkBadgePolicy (in_departmentId data) (in_eventCreationRequired data)
                       (in_categoryDiversityMin data) (default_policy_isActive defaults))))
    as Hread.
  { intros w' Hrow. unfold get_policy. run. by rewrite Hrow. }
  split.
  - apply Hread. simpl. by rewrite lookup_insert_eq.
  - intros again Hsame.
    erewrite post_policy_taken; [|simpl; rewrite Hsame; apply lookup_insert_eq].
    eexists. split; [done|]. split; [done|].
    apply Hread. simpl. by rewrite lookup_insert_eq.
Qed.

End DefinitionFacts.

(** X13. The policy that the read route shows is the policy that the
    eligibility check applies, provided no stored threshold is 0: the
    thresholds of a fresh eligibility answer are those of the policy
    answered by GET /v1/badges/policies/:collegeId, for a college with a
    policy row and, with 8 badges and 4 categories, for a college
    without one. *)
Theorem shown_policy_is_in_force (env : Env) (userId collegeId : string) (w : World) :
  resolvesCollege env userId collegeId →
  cacheStale env userId w →
  (∀ stored, badgePolicies (store w) !! collegeId = Some stored →
             policy_eventCreationRequired stored ≠ 0
             ∧ policy_categoryDiversityMin stored ≠ 0) →
  ∃ policy view,
    get_policy collegeId w = (sendData (PolicyBody collegeId policy), logged [Query TBadgePolicy] w)
    ∧ eligibilityOf (get_eligibility env userId w).1 = Some view
    ∧ elig_requiredBadges view = Some (policy_eventCreationRequired policy)
    ∧ elig_requiredCategories view = Some (policy_categoryDiversityMin policy)
    ∧ (badgePolicies (store w) !! collegeId = None →
       policy_eventCreationRequired policy = 8 ∧ policy_categoryDiversityMin policy = 4).
Proof.
  intros Hresolves Hstale Hnonzero.
  destruct (get_eligibility_fresh env userId collegeId w Hresolves Hstale)
    as (w0 & Hstore & ->).
  destruct (computeEligibility_run env userId collegeId w0)
    as (view & w' & -> & _ & _ & Hbadges & Hcategories & _).
  rewrite Hstore in *. unfold get_policy. run.
  unfold requiredBadgesOf in Hbadges. unfold requiredCategoriesOf in Hcategories.
  destruct (badgePolicies (store w) !! collegeId) as [stored|] eqn:Hstored.
  - destruct (Hnonzero stored eq_refl) as [Hb Hc].
    apply Z.eqb_neq in Hb, Hc. rewrite Hb in Hbadges. rewrite Hc in Hcategories.
    by exists stored, view.
  - eexists _, view. by repeat split.
Qed.

(** ** Awards read back *)

Lemma countAwards_run (ids : list string) (counts : gmap string Z) (w : World) :
  ∃ counts',
    countAwards ids counts w
    = (counts', logged (replicate (List.length ids) (Query TStudentBadge)) w)
    ∧ ∀ id, counts' !! id
            = if decide (id ∈ ids) then Some (awardCount (store w) id) else counts !! id.
Proof.
  revert counts w. induction ids as [|x ids IH]; intros counts w; simpl.
  - exists counts. split.
    + unfold ret, logged. simpl. rewrite app_nil_r. by destruct w.
    + by intros id.
  - run. fold (awardCount (store w) x).
    destruct (IH (<[x := awardCount (store w) x]> counts)
                 (logged [Query TStudentBadge] w)) as (counts' & Hrun & Hcounts).
    unfold logged in Hrun. simpl in Hrun. rewrite Hrun.
    exists counts'. split.
    + unfold logged. simpl. by rewrite <- app_assoc.
    + intros id. rewrite Hcounts. simpl.
      destruct (decide (id = x)) as [->|Hne].
      * rewrite lookup_insert_eq.
        repeat case_decide; try done; exfalso; rewrite elem_of_cons in *; tauto.
      * rewrite lookup_insert_ne by done.
        repeat case_decide; try done; exfalso; rewrite elem_of_cons in *; tauto.
Qed.

Lemma get_counts_run (w : World) :
  ∃ counts,
    get_counts w
    = (code_sendData 200 (CountsBody counts),
       logged (Query TBadgeDefinition
                 :: replicate (size (badgeDefinitions (store w))) (Query TStudentBadge)) w)
    ∧ ∀ id, counts !! id
            = (λ _, awardCount (store w) id) <$> badgeDefinitions (store w) !! id.
Proof.
  unfold get_counts. run.
  destruct (countAwards_run (map_to_list (badgeDefinitions (store w))).*1 ∅
              (logged [Query TBadgeDefinition] w)) as (counts & Hrun & Hcounts).
  unfold logged in Hrun. simpl in Hrun. rewrite Hrun. exists counts. split.
  - unfold logged. simpl. rewrite length_fmap, <- app_assoc. simpl.
    by rewrite length_map_to_list.
  - intros id. rewrite Hcounts. simpl.
    destruct (badgeDefinitions (store w) !! id) as [d|] eqn:Hd; simpl.
    + case_decide as Hin; [done|]. exfalso. apply Hin.
      apply list_elem_of_fmap. exists (id, d).
      split; [done|]. by apply elem_of_map_to_list.
    + case_decide as Hin; [|done]. exfalso.
      apply list_elem_of_fmap in Hin as ([id' d] & -> & Hin).
      apply elem_of_map_to_list in Hin. simpl in Hd. congruence.
Qed.

(** X14. The counts route answers one entry for each badge definition
    and no other: the number of awards of this badge, which is 0 for a
    badge that was never awarded. It asks the store once for the
    definitions and once more for each definition, and writes nothing. *)
Theorem counts_cover_every_definition (w : World) :
  ∃ counts,
    get_counts w
    = (code_sendData 200 (CountsBody counts),
       logged (Query TBadgeDefinition
                 :: replicate (size (badgeDefinitions (store w))) (Query TStudentBadge)) w)
    ∧ dom counts = dom (badgeDefinitions (store w))
    ∧ (∀ id, is_Some (badgeDefinitions (store w) !! id) →
             counts !! id = Some (awardCount (store w) id))
    ∧ (∀ id, is_Some (badgeDefinitions (store w) !! id) →
             (∀ award, award ∈ studentBadges (store w) → award_badgeId award ≠ id) →
             counts !! id = Some 0).
Proof.
  destruct (get_counts_run w) as (counts & Hrun & Hcounts).
  exists counts. split; [done|]. split; [|split].
  - apply set_eq. intros id. rewrite !elem_of_dom, Hcounts.
    by rewrite fmap_is_Some.
  - intros id [d Hd]. by rewrite Hcounts, Hd.
  - intros id [d Hd] Hnever. rewrite Hcounts, Hd. simpl. f_equal.
    unfold awardCount.
    assert (filter (λ award, award_badgeId award = id) (studentBadges (store w)) = [])
      as ->; [|done].
    induction (studentBadges (store w)) as [|a l IH]; [done|].
    rewrite filter_cons, decide_False.
    + apply IH. intros award Hin. apply Hnever. by right.
    + apply Hnever. by left.
Qed.

Lemma elem_of_awardsOf (s : Store) (userId : string) (award : StudentBadge)
    (definition : BadgeDefinition) :
  (award, definition) ∈ awardsOf s userId
  ↔ award ∈ studentBadges s ∧ award_studentId award = userId
    ∧ badgeDefinitions s !! award_badgeId award = Some definition.
Proof.
  unfold awardsOf. rewrite list_elem_of_omap. split.
  - intros (a & Hin & Hjoin). apply list_elem_of_filter in Hin as [Hstudent Hin].
    unfold joinBadge in Hjoin.
    destruct (badgeDefinitions s !! award_badgeId a) as [d|] eqn:Hd; [|done].
    simpl in Hjoin. injection Hjoin as <- <-. done.
  - intros (Hin & Hstudent & Hd). exists award. split.
    + by apply list_elem_of_filter.
    + unfold joinBadge. by rewrite Hd.
Qed.

Lemma get_user_badges_run (userId : string) (w : World) :
  get_user_badges userId w
  = (code_sendData 200
       (BadgesBody (orderByDesc (λ award, award_awardedAt award.1) (awardsOf (store w) userId))),
     logged [Query TStudentBadge] w).
Proof. reflexivity. Qed.

(** X15. The badges of a user are answered under status 200 as the
    awards whose student is this user, each joined to its badge
    definition, the latest award first; every such award is answered as
    often as it is stored, and the route writes nothing. *)
Theorem user_badges_are_the_users (userId : string) (w : World) :
  ∃ badges,
    get_user_badges userId w
    = (code_sendData 200 (BadgesBody badges), logged [Query TStudentBadge] w)
    ∧ badges ≡ₚ awardsOf (store w) userId
    ∧ (∀ award definition,
         (award, definition) ∈ badges
         ↔ award ∈ studentBadges (store w) ∧ award_studentId award = userId
           ∧ badgeDefinitions (store w) !! award_badgeId award = Some definition)
    ∧ StronglySorted (λ x y, award_awardedAt y.1 ≤ award_awardedAt x.1) badges.
Proof.
  rewrite get_user_badges_run.
  eexists. split; [reflexivity|]. split; [apply orderByDesc_Permutation|]. split.
  - intros award definition. rewrite orderByDesc_Permutation. apply elem_of_awardsOf.
  - apply (orderByDesc_sorted
             (λ award : StudentBadge * BadgeDefinition, award_awardedAt award.1)).
Qed.

Lemma fetchStudentDetails_run env (studentIds : list string)
    (studentDetails : gmap string UserInfo) (w : World) :
  ∃ details,
    fetchStudentDetails env studentIds studentDetails w
    = (details, logged (HttpGetUser <$> studentIds) w)
    ∧ ∀ id, details !! id
            = if decide (id ∈ studentIds)
              then match knownUser env id with
                   | Some u => Some u
                   | None => studentDetails !! id
                   end
              else studentDetails !! id.
Proof.
  revert studentDetails w.
  induction studentIds as [|x ids IH]; intros studentDetails w; simpl.
  - exists studentDetails. split.
    + unfold ret, logged. simpl. rewrite app_nil_r. by destruct w.
    + by intros id.
  - run.
    assert (∃ next,
              (match getUser env x with
               | Resolved (Some data) =>
                   match response_user data with
                   | Some user =>
                       fetchStudentDetails env ids (<[x := user]> studentDetails)
                   | None => fetchStudentDetails env ids studentDetails
                   end
               | Resolved None => fetchStudentDetails env ids studentDetails
               | Rejected _ => fetchStudentDetails env ids studentDetails
               end) = fetchStudentDetails env ids next
              ∧ ∀ id, next !! id
                      = if decide (id = x)
                        then match knownUser env id with
                             | Some u => Some u
                             | None => studentDetails !! id
                             end
                        else studentDetails !! id) as (next & -> & Hnext).
    { unfold knownUser.
      destruct (getUser env x) as [[data|]|errorStatus] eqn:Hx.
      - destruct (response_user data) as [u|] eqn:Hu.
        + exists (<[x := u]> studentDetails). split; [done|]. intros id.
          destruct (decide (id = x)) as [->|Hne].
          * by rewrite Hx, Hu, lookup_insert_eq.
          * by rewrite lookup_insert_ne.
        + exists studentDetails. split; [done|]. intros id.
          destruct (decide (id = x)) as [->|Hne]; [by rewrite Hx, Hu | done].
      - exists studentDetails. split; [done|]. intros id.
        destruct (decide (id = x)) as [->|Hne]; [by rewrite Hx | done].
      - exists studentDetails. split; [done|]. intros id.
        destruct (decide (id = x)) as [->|Hne]; [by rewrite Hx | done]. }
    destruct (IH next (logged [HttpGetUser x] w)) as (details & Hrun & Hdetails).
    unfold logged in Hrun. simpl in Hrun. rewrite Hrun.
    exists details. split.
    + unfold logged. simpl. by rewrite <- app_assoc.
    + intros id. rewrite Hdetails, Hnext.
      repeat case_decide; try done; try (by destruct (knownUser env id));
        exfalso; rewrite elem_of_cons in *; tauto.
Qed.

(** X16. The export never fails on the auth service. It answers 200
    with one row for each award, the latest first, built from the award,
    its badge definition, and what the auth service tells about the
    student: the rows are computed with student details that agree with
    the auth service on every student of an award, and a student it
    gives nothing for is exported as [Unknown] with [N/A] for the member
    id and the department. The auth service is asked once for each
    student, and nothing is written. *)
Theorem export_survives_gateway (env : Env) (w : World) :
  ∃ studentDetails,
    get_export env w
    = (sendData (ExportBody (map (exportRow studentDetails) (allAwards (store w)))),
       logged (Query TStudentBadge
                 :: (HttpGetUser
                       <$> Js.set_spread
                             (map (λ award, award_studentId award.1) (allAwards (store w)))))
              w)
    ∧ NoDup (Js.set_spread (map (λ award, award_studentId award.1) (allAwards (store w))))
    ∧ (∀ award, award ∈ allAwards (store w) →
         studentDetails !! award_studentId award.1 = knownUser env (award_studentId award.1))
    ∧ (∀ award, award ∈ allAwards (store w) →
         knownUser env (award_studentId award.1) = None →
         x_studentName (exportRow studentDetails award) = "Unknown"
         ∧ x_collegeMemberId (exportRow studentDetails award) = "N/A"
         ∧ x_department (exportRow studentDetails award) = "N/A").
Proof.
  unfold get_export. run.
  destruct (fetchStudentDetails_run env
              (Js.set_spread (map (λ award : StudentBadge * BadgeDefinition,
                                     award_studentId award.1) (allAwards (store w))))
              ∅ (logged [Query TStudentBadge] w)) as (details & Hrun & Hdetails).
  unfold logged in Hrun. simpl in Hrun. rewrite Hrun. exists details.
  assert (∀ award, award ∈ allAwards (store w) →
            details !! award_studentId award.1 = knownUser env (award_studentId award.1))
    as Hagree.
  { intros award Hin. rewrite Hdetails. case_decide as Hstudent.
    - rewrite lookup_empty. by destruct (knownUser env _).
    - exfalso. apply Hstudent.
      apply set_spread_elem, list_elem_of_In, in_map_iff. exists award.
      split; [done|]. by apply list_elem_of_In. }
  split; [|split; [|split]].
  - unfold logged. simpl. by rewrite <- app_assoc.
  - apply set_spread_NoDup.
  - exact Hagree.
  - intros award Hin Hnone. unfold exportRow. simpl.
    by rewrite (Hagree award Hin), Hnone.
Qed.

(** ** The awards a caller made *)

Section RecentFacts.
Variable parseInt : string → option Z.
Variable findMany_take :
  option Z → list (StudentBadge * BadgeDefinition) → option (list (StudentBadge * BadgeDefinition)).

(** A limit that is not negative takes the first rows. *)
Hypothesis take_first :
  ∀ n rows, 0 ≤ n → findMany_take (Some n) rows = Some (take (Z.to_nat n) rows).

Lemma elem_of_awardsBy (s : Store) (userId : string) (award : StudentBadge)
    (definition : BadgeDefinition) :
  (award, definition) ∈ awardsBy s userId
  ↔ award ∈ studentBadges s ∧ award_awardedBy award = userId
    ∧ badgeDefinitions s !! award_badgeId award = Some definition.
Proof.
  unfold awardsBy. rewrite list_elem_of_omap. split.
  - intros (a & Hin & Hjoin). apply list_elem_of_filter in Hin as [Hby Hin].
    unfold joinBadge in Hjoin.
    destruct (badgeDefinitions s !! award_badgeId a) as [d|] eqn:Hd; [|done].
    simpl in Hjoin. injection Hjoin as <- <-. done.
  - intros (Hin & Hby & Hd). exists award. split.
    + by apply list_elem_of_filter.
    + unfold joinBadge. by rewrite Hd.
Qed.

(** X17. The recent awards are the caller's own. With a limit that is
    absent (then 10) or parses to a number that is not negative, the
    route answers 200 with the latest awards that the caller made, the
    latest first and no more of them than the limit; an award made by
    someone else is never among them. Each comes with the student's name
    and member id as the auth service gives them, left out when it gives
    nothing, and a failure of the auth service does not fail the
    request. A caller whose id is empty is answered 401 before the store
    is read. Nothing is written. *)
Theorem recent_awards_are_the_callers (env : Env) (limit : option string)
    (caller : RequestUser) (w : World) :
  (ru_id caller = "" →
   get_recent parseInt findMany_take env limit caller w
   = (code_sendData 401 (FailureBody "User not authenticated"), w))
  ∧ (∀ n,
       ru_id caller ≠ "" →
       (if Js.truthy limit then parseInt (Js.or_empty limit) else Some 10) = Some n →
       0 ≤ n →
       ∃ awards studentDetails w',
         get_recent parseInt findMany_take env limit caller w
         = (sendData (AwardsBody (enhancedAward studentDetails <$> awards)), w')
         ∧ store w' = store w
         ∧ awards
           = take (Z.to_nat n)
               (orderByDesc (λ award, award_awardedAt award.1)
                            (awardsBy (store w) (ru_id caller)))
         ∧ (List.length awards ≤ Z.to_nat n)%nat
         ∧ (∀ award definition,
              (award, definition) ∈ awards →
              award ∈ studentBadges (store w) ∧ award_awardedBy award = ru_id caller
              ∧ badgeDefinitions (store w) !! award_badgeId award = Some definition)
         ∧ StronglySorted (λ x y, award_awardedAt y.1 ≤ award_awardedAt x.1) awards
         ∧ (∀ award, award ∈ awards →
              studentDetails !! award_studentId award.1
              = knownUser env (award_studentId award.1))).
Proof.
  split.
  - intros Hid. unfold get_recent. by rewrite Hid.
  - intros n Hid Hlimit Hn. unfold get_recent. rewrite Hlimit.
    assert (Js.truthy_string (ru_id caller) = true) as ->.
    { unfold Js.truthy_string. by destruct (String.eqb_spec (ru_id caller) ""). }
    cbn [negb]. run. fold (awardsBy (store w) (ru_id caller)).
    rewrite (take_first n _ Hn).
    set (awards := take (Z.to_nat n)
                     (orderByDesc (λ award : StudentBadge * BadgeDefinition,
                                     award_awardedAt award.1)
                                  (awardsBy (store w) (ru_id caller)))).
    destruct (fetchStudentDetails_run env
                (Js.set_spread (map (λ award : StudentBadge * BadgeDefinition,
                                       award_studentId award.1) awards))
                ∅ (logged [Query TStudentBadge] w)) as (details & Hrun & Hdetails).
    unfold logged in Hrun. simpl in Hrun. rewrite Hrun.
    exists awards, details. eexists. split; [reflexivity|]. simpl.
    split; [done|]. split; [done|]. split; [|split; [|split]].
    + subst awards. rewrite length_take. lia.
    + intros award definition Hin. apply subseteq_take in Hin.
      rewrite orderByDesc_Permutation in Hin. by apply elem_of_awardsBy.
    + subst awards.
      pose proof (orderByDesc_sorted
                    (λ award : StudentBadge * BadgeDefinition, award_awardedAt award.1)
                    (awardsBy (store w) (ru_id caller))) as Hsorted.
      rewrite <- (take_drop (Z.to_nat n)) in Hsorted.
      by apply StronglySorted_app_1_l in Hsorted.
    + intros award Hin. rewrite Hdetails. case_decide as Hstudent.
      * rewrite lookup_empty. by destruct (knownUser env _).
      * exfalso. apply Hstudent.
        apply set_spread_elem, list_elem_of_In, in_map_iff. exists award.
        split; [done|]. by apply list_elem_of_In.
Qed.

End RecentFacts.

(** ** Awards and eligibility, once more *)

Section MoreAwardFacts.
Context `{JsString}.

(** X18. An award of a badge definition that does not exist, to a
    student the auth service knows, fails with 500: no award is stored
    and no post is sent. The profile row of the student is written
    before the award is tried, so a student without a profile has one
    after the failed request. *)
Theorem award_of_unknown_badge (env : Env) (data : AwardInput) (awardedBy : RequestUser)
    (w : World) (userData : UserResponse) :
  getUser env (in_userId data) = Resolved (Some userData) →
  badgeDefinitions (store w) !! in_badgeDefinitionId data = None →
  ∃ w',
    post_badges_award env data awardedBy w = (code_send 500 InternalServerError, w')
    ∧ studentBadges (store w') = studentBadges (store w)
    ∧ log w' = (log w ++ [HttpGetUser (in_userId data); Mutation TProfile;
                          Mutation TStudentBadge])%list
    ∧ is_Some (profiles (store w') !! in_userId data)
    ∧ (profiles (store w) !! in_userId data = None → store w' ≠ store w).
Proof.
  intros Huser Hnone. unfold post_badges_award. run. rewrite Huser.
  set (w0 := mkWorld (store w) (log w ++ [HttpGetUser (in_userId data)])%list
                     (clockReads w) (idsDrawn w)).
  destruct (profiles (store w) !! in_userId data) as [p|] eqn:Hp.
  - rewrite (profile_upsert_existing env _ _ _ w0 p Hp).
    unfold studentBadge_create. run. rewrite Hnone. eexists. split; [done|]. simpl.
    rewrite lookup_insert_eq, <- !app_assoc. by repeat split.
  - rewrite (profile_upsert_missing env _ _ _ w0 Hp).
    unfold studentBadge_create. run. rewrite Hnone. eexists. split; [done|]. simpl.
    rewrite lookup_insert_eq, <- !app_assoc. repeat split; try done.
    intros _ Hsame. apply (f_equal (λ s, profiles s !! in_userId data)) in Hsame.
    simpl in Hsame. by rewrite lookup_insert_eq, Hp in Hsame.
Qed.

End MoreAwardFacts.




Lemma activeAward_more (s s' : Store) (userId : string) (award : StudentBadge) :
  badgeDefinitions s' = badgeDefinitions s →
  activeAward s' userId award = activeAward s userId award.
Proof. intros Hdefs. unfold activeAward. by rewrite Hdefs. Qed.

Lemma filter_ext_bool {A} (f g : A → bool) (l : list A) :
  (∀ x, f x = g x) → List.filter f l = List.filter g l.
Proof.
  intros Hfg. induction l as [|x l IH]; simpl; [done|]. by rewrite Hfg, IH.
Qed.

Lemma moreAwards_count (s s' : Store) (userId : string) :
  moreAwards s s' → activeAwardCount s userId ≤ activeAwardCount s' userId.
Proof.
  intros ([extra Hawards] & Hdefs & _). unfold activeAwardCount.
  rewrite Hawards, List.filter_app, length_app.
  rewrite (filter_ext_bool (activeAward s' userId) (activeAward s userId) (studentBadges s))
    by (intros a; by apply activeAward_more).
  lia.
Qed.

Lemma moreAwards_categories (s s' : Store) (userId : string) :
  moreAwards s s' → activeCategories s userId ⊆ activeCategories s' userId.
Proof.
  intros ([extra Hawards] & Hdefs & _) x. unfold activeCategories.
  rewrite !elem_of_list_to_set, !list_elem_of_omap.
  intros (award & Hin & Hcategory). exists award. rewrite Hdefs. split; [|done].
  apply list_elem_of_In, filter_In in Hin as [Hin Hactive].
  apply list_elem_of_In, filter_In. split.
  - rewrite Hawards. apply in_or_app. by left.
  - by rewrite (activeAward_more s s') by done.
Qed.

(** X20. Eligibility only grows with the awards. Between two fresh
    computations for the same user and college, over the same badge
    definitions and policies, further awards (to anyone) never lower the
    count and never turn [canCreate] from true to false. *)
Theorem eligibility_grows_with_awards (env env' : Env) (userId collegeId : string)
    (w w' : World) :
  moreAwards (store w) (store w') →
  resolvesCollege env userId collegeId → cacheStale env userId w →
  resolvesCollege env' userId collegeId → cacheStale env' userId w' →
  ∃ view view',
    eligibilityOf (get_eligibility env userId w).1 = Some view
    ∧ eligibilityOf (get_eligibility env' userId w').1 = Some view'
    ∧ elig_badgeCount view ≤ elig_badgeCount view'
    ∧ (elig_canCreate view = true → elig_canCreate view' = true).
Proof.
  intros Hmore Hresolves Hstale Hresolves' Hstale'.
  destruct (get_eligibility_fresh env userId collegeId w Hresolves Hstale)
    as (w0 & Hstore & ->).
  destruct (get_eligibility_fresh env' userId collegeId w' Hresolves' Hstale')
    as (w0' & Hstore' & ->).
  destruct (computeEligibility_run env userId collegeId w0)
    as (view & w1 & -> & Hcan & Hcount & _).
  destruct (computeEligibility_run env' userId collegeId w0')
    as (view' & w1' & -> & Hcan' & Hcount' & _).
  rewrite Hstore in *. rewrite Hstore' in *.
  exists view, view'. split; [done|]. split; [done|].
  pose proof (moreAwards_count _ _ userId Hmore) as Hmono.
  pose proof (moreAwards_categories _ _ userId Hmore) as Hsub.
  assert (size (activeCategories (store w) userId ∖ {[""]})
          ≤ size (activeCategories (store w') userId ∖ {[""]}))%nat as Hsize.
  { apply subseteq_size. intros x. rewrite !elem_of_difference.
    intros [Hin Hne]. split; [by apply Hsub | done]. }
  destruct Hmore as (_ & _ & Hpolicies).
  assert (requiredBadgesOf (store w') collegeId = requiredBadgesOf (store w) collegeId
          ∧ requiredCategoriesOf (store w') collegeId
            = requiredCategoriesOf (store w) collegeId) as [Hb Hc].
  { unfold requiredBadgesOf, requiredCategoriesOf. by rewrite Hpolicies. }
  split; [lia|].
  rewrite Hcan, Hcan', Hb, Hc, !andb_true_iff, !Z.leb_le. lia.
Qed.

(** ** Reads that write, and writes that are read *)

Lemma fetchUserInfo_user env userId w :
  ∃ collegeName es,
    fetchUserInfo env userId w = ((knownUser env userId, collegeName), logged es w).
Proof.
  unfold fetchUserInfo, knownUser. run.
  destruct (getUser env userId) as [[userData|]|errorStatus]; simpl.
  - destruct (Js.truthy _); simpl.
    + destruct (getCollege env _) as [collegeData|collegeError]; simpl;
        eexists _, [_; _]; unfold logged; simpl; by rewrite <- app_assoc.
    + by eexists _, [_].
  - by eexists _, [_].
  - by eexists _, [_].
Qed.

(** X21. An enrichment read writes at most a missing name. Whatever
    the auth service answers, the read of a user's profile either leaves
    the store as it is, or, when no name that is not empty is stored for
    this user and the auth service gives a display name, writes this
    name into the user's row (a new row when there is none). It never
    changes a stored name, another field, or a row of another user, also
    when the caller reads the profile of someone else. *)
Theorem enrichment_writes_only_a_missing_name (env : Env) (userId : string) (w : World) :
  store (get_enhanced_profile env userId w).2 = store w
  ∨ ∃ d,
      d ≠ "" ∧ opt_field user_displayName (knownUser env userId) = Some d
      ∧ Js.truthy (profiles (store w) !! userId ≫= profile_name) = false
      ∧ store (get_enhanced_profile env userId w).2
        = set_profiles (<[userId := with_name d (rowBefore env userId w)]>) (store w).
Proof.
  unfold get_enhanced_profile, bind, profile_findUnique_include. run.
  match goal with
  | |- context [fetchUserInfo env userId ?w0] =>
      destruct (fetchUserInfo_user env userId w0) as (collegeName & es & ->)
  end.
  simpl.
  destruct (Js.truthy (opt_field user_displayName (knownUser env userId))) eqn:Hdisplay;
    simpl; [|by left].
  destruct (opt_field user_displayName (knownUser env userId)) as [d|] eqn:Hd; [|done].
  assert (d ≠ "") as Hne.
  { intros ->. simpl in Hdisplay. done. }
  unfold rowBefore.
  destruct (profiles (store w) !! userId) as [p|] eqn:Hp; simpl.
  - destruct (Js.truthy (profile_name p)) eqn:Hname; simpl; [by left|].
    right. exists d. split; [done|]. split; [done|]. split; [done|].
    unfold profile_upsert_include, bind.
    match goal with
    | |- context [profile_upsert env userId ?u ?c ?w0] =>
        rewrite (profile_upsert_existing env userId u c w0 p Hp)
    end.
    done.
  - right. exists d. split; [done|]. split; [done|]. split; [done|].
    unfold profile_upsert_include, bind.
    match goal with
    | |- context [profile_upsert env userId ?u ?c ?w0] =>
        rewrite (profile_upsert_missing env userId u c w0 Hp)
    end.
    done.
Qed.

Section AwardListings.
Context `{JsString}.

Lemma post_badges_award_store env data awardedBy w userData definition :
  getUser env (in_userId data) = Resolved (Some userData) →
  badgeDefinitions (store w) !! in_badgeDefinitionId data = Some definition →
  ∃ badge w',
    post_badges_award env data awardedBy w = (code_send 201 (BadgeBody badge definition), w')
    ∧ studentBadges (store w') = (studentBadges (store w) ++ [badge])%list
    ∧ badgeDefinitions (store w') = badgeDefinitions (store w)
    ∧ award_studentId badge = in_userId data
    ∧ award_badgeId badge = in_badgeDefinitionId data
    ∧ award_awardedBy badge = ru_sub awardedBy.
Proof.
  intros Huser Hdef. unfold post_badges_award. run. rewrite Huser.
  set (w0 := mkWorld (store w) (log w ++ [HttpGetUser (in_userId data)])%list
                     (clockReads w) (idsDrawn w)).
  unfold bind.
  destruct (profile_ensured env (in_userId data) w0)
    as (p & w1 & -> & _ & _ & _ & _ & Hdefs & Hawards & _ & _).
  simpl in Hdefs, Hawards. rewrite <- Hdefs in Hdef.
  rewrite (studentBadge_create_run env data (ru_sub awardedBy) w1 definition Hdef).
  match goal with
  | |- context [createBadgeAwardPost env ?b awardedBy ?si ?w2] =>
      pose proof (createBadgeAwardPost_store env b awardedBy si w2) as Hstore;
      destruct (createBadgeAwardPost env b awardedBy si w2) as [completion w3]
  end.
  simpl in Hstore. eexists _, w3. split; [done|].
  rewrite Hstore. simpl. rewrite Hawards, Hdefs. by repeat split.
Qed.

Lemma awardCount_app (s s' : Store) (badge : StudentBadge) (badgeId : string) :
  studentBadges s' = (studentBadges s ++ [badge])%list →
  awardCount s' badgeId
  = awardCount s badgeId + (if decide (award_badgeId badge = badgeId) then 1 else 0).
Proof.
  intros Hawards. unfold awardCount. rewrite Hawards, filter_app, length_app.
  rewrite filter_cons, filter_nil. case_decide; simpl; lia.
Qed.

(** X22. An award that is stored is read back by the routes that list
    awards: after a successful award the badges of the student hold the
    new award with its definition, the count of the awarded badge is one
    more than before, and the counts of the other badges are as
    before. *)
Theorem award_shows_in_listings (env : Env) (data : AwardInput) (awardedBy : RequestUser)
    (w : World) (userData : UserResponse) (definition : BadgeDefinition) :
  getUser env (in_userId data) = Resolved (Some userData) →
  badgeDefinitions (store w) !! in_badgeDefinitionId data = Some definition →
  ∃ badge w',
    post_badges_award env data awardedBy w = (code_send 201 (BadgeBody badge definition), w')
    ∧ (∃ badges,
         (get_user_badges (in_userId data) w').1 = code_sendData 200 (BadgesBody badges)
         ∧ (badge, definition) ∈ badges)
    ∧ (∃ counts,
         (get_counts w').1 = code_sendData 200 (CountsBody counts)
         ∧ counts !! in_badgeDefinitionId data
           = Some (awardCount (store w) (in_badgeDefinitionId data) + 1)
         ∧ ∀ other, other ≠ in_badgeDefinitionId data →
             counts !! other
             = (λ _, awardCount (store w) other) <$> badgeDefinitions (store w) !! other).
Proof.
  intros Huser Hdef.
  destruct (post_badges_award_store env data awardedBy w userData definition Huser Hdef)
    as (badge & w' & Hrun & Hawards & Hdefs & Hstudent & Hbadge & _).
  exists badge, w'. split; [done|]. split.
  - rewrite get_user_badges_run. eexists. split; [reflexivity|].
    rewrite orderByDesc_Permutation. apply elem_of_awardsOf.
    rewrite Hawards, Hdefs, Hbadge. split; [|done].
    apply elem_of_app. right. apply list_elem_of_here.
  - destruct (get_counts_run w') as (counts & -> & Hcounts).
    exists counts. split; [done|]. split.
    + rewrite Hcounts, Hdefs, Hdef. simpl.
      rewrite (awardCount_app (store w) (store w') badge _ Hawards).
      by rewrite decide_True.
    + intros other Hother. rewrite Hcounts, Hdefs.
      rewrite (awardCount_app (store w) (store w') badge _ Hawards).
      rewrite decide_False by congruence. by rewrite Z.add_0_r.
Qed.

End AwardListings.

(** ** The routes as a transition system *)

Lemma keepsRules_ret {A} (a : A) : keepsRules (ret a).
Proof. by intros w. Qed.

Lemma keepsRules_bind {A B} (m : M A) (k : A → M B) :
  keepsRules m → (∀ a, keepsRules (k a)) → keepsRules (bind m k).
Proof.
  intros Hm Hk w. unfold bind. destruct (Hm w) as (Hd & Hp & Hc).
  destruct (m w) as [a w1]. destruct (Hk a w1) as (Hd1 & Hp1 & Hc1). simpl in *.
  by rewrite Hd1, Hp1, Hc1.
Qed.

Lemma keepsRules_emit (e : Effect) : keepsRules (emit e).
Proof. by intros w. Qed.

Lemma keepsRules_peek {A} (f : Store → A) : keepsRules (peek f).
Proof. by intros w. Qed.

Lemma keepsRules_query {A} (t : Table) (f : Store → A) : keepsRules (query t f).
Proof. by intros w. Qed.

Lemma keepsRules_newDate (env : Env) : keepsRules (newDate env).
Proof. by intros w. Qed.

Lemma keepsRules_newId (env : Env) : keepsRules (newId env).
Proof. by intros w. Qed.

Lemma keepsRules_getUser (env : Env) (userId : string) : keepsRules (axios_getUser env userId).
Proof. by intros w. Qed.

Lemma keepsRules_getCollege (env : Env) (collegeId : string) :
  keepsRules (axios_getCollege env collegeId).
Proof. by intros w. Qed.

Lemma keepsRules_poke (f : Store → Store) :
  (∀ s, badgeDefinitions (f s) = badgeDefinitions s
        ∧ badgePolicies (f s) = badgePolicies s
        ∧ badgeEligibilityCache (f s) = badgeEligibilityCache s) →
  keepsRules (poke f).
Proof. intros Hf w. apply Hf. Qed.

(** Take a handler apart into its steps. *)
Ltac keeps :=
  repeat first
    [ apply keepsRules_ret | apply keepsRules_emit | apply keepsRules_peek
    | apply keepsRules_query | apply keepsRules_newDate | apply keepsRules_newId
    | apply keepsRules_getUser | apply keepsRules_getCollege
    | apply keepsRules_poke; intros ?; by repeat split
    | apply keepsRules_bind; [|intros ?]
    | progress cbv zeta
    | match goal with
      | |- keepsRules (if ?b then _ else _) => destruct b
      | |- keepsRules (match ?x with _ => _ end) => destruct x
      end ].

Lemma keepsRules_get_enhanced_profile env userId :
  keepsRules (get_enhanced_profile env userId).
Proof. unfold get_enhanced_profile, profile_findUnique_include. keeps. Qed.

Lemma keepsRules_countAwards ids counts : keepsRules (countAwards ids counts).
Proof. revert counts. induction ids as [|id ids IH]; intros counts; simpl; keeps. apply IH. Qed.

Lemma keepsRules_fetchStudentDetails env ids details :
  keepsRules (fetchStudentDetails env ids details).
Proof.
  revert details. induction ids as [|id ids IH]; intros details; simpl; keeps; apply IH.
Qed.

(** The three ways an eligibility check ends: with a failure, with the
    cached row, or with a fresh computation on the store it found. *)
Lemma get_eligibility_cases env userId w :
  (eligibilityOf (get_eligibility env userId w).1 = None
   ∧ store (get_eligibility env userId w).2 = store w)
  ∨ (∃ c, badgeEligibilityCache (store w) !! userId = Some c
          ∧ (get_eligibility env userId w).1 = send (EligibilityBody (cachedView c))
          ∧ store (get_eligibility env userId w).2 = store w)
  ∨ (∃ collegeId w0,
       store w0 = store w
       ∧ get_eligibility env userId w = computeEligibility env userId collegeId w0).
Proof.
  unfold get_eligibility. run.
  destruct (getUser env userId) as [userData|errorStatus]; simpl; [|by left].
  destruct (Js.truthy _); simpl; [|by left].
  destruct (badgeEligibilityCache (store w) !! userId) as [c|] eqn:Hc.
  - unfold bind, newDate. simpl.
    destruct (clock env (clockReads w) <? cache_expiresAt c).
    + right. left. by exists c.
    + right. right. eexists _, _. split; [|reflexivity]. done.
  - right. right. eexists _, _. split; [|reflexivity]. done.
Qed.

(** What a fresh computation answers and leaves in the store. *)
Lemma computeEligibility_store env userId collegeId w :
  ∃ view w' c,
    computeEligibility env userId collegeId w = (send (EligibilityBody view), w')
    ∧ store w' = set_badgeEligibilityCache (<[userId := c]>) (store w)
    ∧ cache_canCreate c = elig_canCreate view
    ∧ cache_badgeCount c = elig_badgeCount view
    ∧ cache_categories c = elig_categories view
    ∧ elig_canCreate view
      = (requiredBadgesOf (store w) collegeId <=? elig_badgeCount view)
        && (requiredCategoriesOf (store w) collegeId
            <=? Z.of_nat (List.length (elig_categories view))).
Proof.
  unfold computeEligibility. run.
  destruct (or_default_required (store w) collegeId) as [-> ->].
  destruct (badgeEligibilityCache (store w) !! userId); simpl;
    (eexists _, _, _; split; [done|]; by repeat split).
Qed.

Lemma soundRules_thresholds (s : Store) (collegeId : string) :
  soundRules s → 1 ≤ requiredBadgesOf s collegeId ∧ 1 ≤ requiredCategoriesOf s collegeId.
Proof.
  intros (Hpolicies & _ & _). unfold requiredBadgesOf, requiredCategoriesOf.
  destruct (badgePolicies s !! collegeId) as [policy|] eqn:Hpolicy; [|lia].
  destruct (Hpolicies collegeId policy Hpolicy) as [Hb Hc].
  destruct (Z.eqb_spec (policy_eventCreationRequired policy) 0);
    destruct (Z.eqb_spec (policy_categoryDiversityMin policy) 0); lia.
Qed.

Lemma soundRules_written (s : Store) : soundRules s → writtenByRoutes s.
Proof.
  intros (Hpolicies & Hdefinitions & _). split; [|done].
  intros collegeId policy Hpolicy. destruct (Hpolicies collegeId policy Hpolicy). lia.
Qed.

(** An eligibility answer that says [canCreate], on a store that is
    sound, counts at least one badge in at least one category. *)
Lemma eligible_has_badges env userId w view :
  soundRules (store w) →
  eligibilityOf (get_eligibility env userId w).1 = Some view →
  elig_canCreate view = true →
  1 ≤ elig_badgeCount view ∧ elig_categories view ≠ [].
Proof.
  intros Hsound Hview Hcan.
  destruct (get_eligibility_cases env userId w)
    as [[Hnone _] | [(c & Hc & Hhit & _) | (collegeId & w0 & Hstore & Hfresh)]].
  - congruence.
  - rewrite Hhit in Hview. injection Hview as <-.
    destruct Hsound as (_ & _ & Hcache). by apply (Hcache userId c).
  - rewrite Hfresh in Hview.
    destruct (computeEligibility_store env userId collegeId w0)
      as (view' & w' & c & Hrun & _ & _ & _ & _ & Hrule).
    rewrite Hrun in Hview. injection Hview as <-.
    rewrite Hstore in Hrule.
    destruct (soundRules_thresholds (store w) collegeId Hsound) as [Hb Hc].
    rewrite Hcan in Hrule. symmetry in Hrule.
    apply andb_true_iff in Hrule as [Hbadges Hcategories].
    apply Z.leb_le in Hbadges, Hcategories. split; [lia|].
    intros Hnil. rewrite Hnil in Hcategories. simpl in Hcategories. lia.
Qed.

Lemma get_eligibility_sound env userId w :
  soundRules (store w) → soundRules (store (after (get_eligibility env userId) w)).
Proof.
  intros Hsound. unfold after.
  destruct (get_eligibility_cases env userId w)
    as [[_ ->] | [(c & _ & _ & ->) | (collegeId & w0 & Hstore & Hfresh)]]; [done..|].
  rewrite Hfresh.
  destruct (computeEligibility_store env userId collegeId w0)
    as (view & w' & c & -> & Hnew & Hcan & Hcount & Hcats & Hrule).
  simpl. rewrite Hnew, Hstore. rewrite Hstore in Hrule.
  destruct (soundRules_thresholds (store w) collegeId Hsound) as [Hb Hc].
  destruct Hsound as (Hpolicies & Hdefinitions & Hcache).
  split; [done|]. split; [done|]. simpl. intros other c'.
  destruct (decide (other = userId)) as [->|Hne].
  - rewrite lookup_insert_eq. intros [= <-] Hsays.
    rewrite Hcan in Hsays. rewrite Hsays in Hrule. symmetry in Hrule.
    apply andb_true_iff in Hrule as [Hbadges Hcategories].
    apply Z.leb_le in Hbadges, Hcategories.
    rewrite Hcount, Hcats. split; [lia|].
    intros Hnil. rewrite Hnil in Hcategories. simpl in Hcategories. lia.
  - rewrite lookup_insert_ne by done. apply Hcache.
Qed.

Section ServiceFacts.
Context `{JsString}.
Variable defaults : SchemaDefaults.

Lemma keepsRules_skillsRequest env request userId :
  keepsRules (skillsRequest env request userId).
Proof.
  destruct request as [|skills|skill|skill]; simpl.
  - unfold get_skills, profile_findUnique. keeps.
  - unfold put_skills. keeps.
  - unfold post_skill, profile_findUnique. keeps.
  - unfold delete_skill, profile_findUnique. keeps.
Qed.

Lemma keepsRules_post_badges_award env data awardedBy :
  keepsRules (post_badges_award env data awardedBy).
Proof. unfold post_badges_award, studentBadge_create, createBadgeAwardPost. keeps. Qed.

Lemma post_badge_definition_sound env data createdBy w :
  soundRules (store w) →
  soundRules (store (after (post_badge_definition defaults env data createdBy) w)).
Proof.
  intros (Hpolicies & Hdefinitions & Hcache). unfold after, post_badge_definition. run.
  destruct (badgeDefinitions (store w) !! cuid env (idsDrawn w)) eqn:Htaken; simpl.
  - split; [done|]. by split.
  - split; [done|]. split; [|done]. simpl. intros id definition.
    destruct (decide (id = cuid env (idsDrawn w))) as [->|Hne].
    + rewrite lookup_insert_eq. intros [= <-]. simpl. apply keptField_not_empty.
    + rewrite lookup_insert_ne by done. apply Hdefinitions.
Qed.

Lemma post_policy_sound data w :
  policySchema data = true →
  soundRules (store w) →
  soundRules (store (after (post_policy defaults data) w)).
Proof.
  intros Hschema (Hpolicies & Hdefinitions & Hcache). unfold after, post_policy. run.
  apply andb_true_iff in Hschema as [Hbadges Hcategories].
  apply Z.leb_le in Hbadges, Hcategories.
  destruct (badgePolicies (store w) !! in_collegeId data) eqn:Htaken; simpl.
  - split; [done|]. by split.
  - split; [|done]. simpl. intros collegeId policy.
    destruct (decide (collegeId = in_collegeId data)) as [->|Hne].
    + rewrite lookup_insert_eq. by intros [= <-].
    + rewrite lookup_insert_ne by done. apply Hpolicies.
Qed.

Lemma keepsRules_sound {A} (m : M A) (w : World) :
  keepsRules m → soundRules (store w) → soundRules (store (after m w)).
Proof.
  intros Hkeeps (Hpolicies & Hdefinitions & Hcache). destruct (Hkeeps w) as (Hd & Hp & Hc).
  unfold after. split; [|split].
  - intros collegeId policy. rewrite Hp. apply Hpolicies.
  - intros id definition. rewrite Hd. apply Hdefinitions.
  - intros userId c. rewrite Hc. apply Hcache.
Qed.

Lemma handle_sound putUser env caller request w :
  soundRules (store w) →
  soundRules (store (handle defaults putUser env caller request w)).
Proof.
  intros Hw.
  assert (∀ A (m : M A), keepsRules m → soundRules (store (after m w))) as Hkept.
  { intros A m Hm. by apply keepsRules_sound. }
  destruct request; cbv beta iota zeta delta [handle].
  - apply Hkept, keepsRules_get_enhanced_profile.
  - apply Hkept, keepsRules_get_enhanced_profile.
  - apply Hkept. unfold get_profile_userId, profile_findUnique_include. keeps.
  - apply Hkept. unfold get_profiles_userId, profile_findUnique_include. keeps.
  - apply Hkept. unfold put_profile_me, profile_upsert_include. keeps.
  - apply Hkept. unfold get_projects. keeps.
  - apply Hkept. unfold post_project, create_row. keeps.
  - apply Hkept. unfold put_project, update_row. keeps.
  - apply Hkept. unfold delete_project, delete_row. keeps.
  - apply Hkept. unfold get_publications. keeps.
  - apply Hkept. unfold post_publication, create_row. keeps.
  - apply Hkept. unfold put_publication, update_row. keeps.
  - apply Hkept. unfold delete_publication, delete_row. keeps.
  - apply Hkept. unfold get_experiences. keeps.
  - apply Hkept. unfold post_experience, create_row. keeps.
  - apply Hkept. unfold put_experience, update_row. keeps.
  - apply Hkept. unfold delete_experience, delete_row. keeps.
  - apply Hkept, keepsRules_skillsRequest.
  - by apply post_badge_definition_sound.
  - apply Hkept, keepsRules_post_badges_award.
  - apply Hkept. unfold get_export. keeps. apply keepsRules_fetchStudentDetails.
  - apply Hkept. unfold get_user_badges. keeps.
  - apply Hkept. unfold get_counts. keeps. apply keepsRules_countAwards.
  - by apply get_eligibility_sound.
  - destruct (policySchema data) eqn:Hschema; [|done]. by apply post_policy_sound.
  - apply Hkept. unfold get_policy. keeps.
Qed.

Lemma reachable_sound (w : World) : reachable defaults w → soundRules (store w).
Proof.
  induction 1 as [w Hempty | putUser env caller request w _ IH].
  - rewrite Hempty. split; [|split]; intros k v Hk; simpl in Hk; by rewrite lookup_empty in Hk.
  - by apply handle_sound.
Qed.

(** X23. No sequence of requests to the routes above leads from an
    empty store to a store with a policy threshold of 0 or a badge
    definition of empty category: the policy route takes thresholds of
    at least 1 only, the definition route leaves an empty category null,
    and no other route writes a policy or a definition. On every world
    that these routes reach, a fresh eligibility computation therefore
    follows the rule with the thresholds of the stored policy and with
    every category counted. *)
Theorem reachable_stores_keep_the_rule (w : World) :
  reachable defaults w →
  writtenByRoutes (store w)
  ∧ ∀ env userId collegeId, freshRuleAsStated env userId collegeId w.
Proof.
  intros Hreach. apply reachable_sound, soundRules_written in Hreach.
  split; [done|]. intros env userId collegeId. by apply fresh_rule_on_written_rows.
Qed.

(** X24. Nobody is found eligible without a badge. On every world that
    the routes above reach from an empty store, an eligibility answer
    with [canCreate] true, fresh or from the cache, counts at least one
    active badge and names at least one category, whatever policy the
    college has and whatever the auth service answers. *)
Theorem no_eligibility_without_badges (w : World) (env : Env) (userId : string)
    (view : EligibilityView) :
  reachable defaults w →
  eligibilityOf (get_eligibility env userId w).1 = Some view →
  elig_canCreate view = true →
  1 ≤ elig_badgeCount view ∧ elig_categories view ≠ [].
Proof.
  intros Hreach. apply eligible_has_badges. by apply reachable_sound.
Qed.

End ServiceFacts.

(** ** The categories of a fresh answer *)

Lemma set_spread_shorter (l : list string) :
  (List.length (Js.set_spread l) ≤ List.length l)%nat.
Proof.
  induction l as [|x l IH]; [done|].
  change (Js.set_spread (x :: l)) with (x :: filter (λ y, y ≠ x) (Js.set_spread l)).
  rewrite !length_cons.
  pose proof (length_filter (λ y, y ≠ x) (Js.set_spread l)). lia.
Qed.

Lemma omap_shorter {A B} (f : A → option B) (l : list A) :
  (List.length (omap f l) ≤ List.length l)%nat.
Proof.
  induction l as [|x l IH]; [done|].
  change (omap f (x :: l)) with (match f x with Some y => y :: omap f l | None => omap f l end).
  destruct (f x); rewrite ?length_cons; lia.
Qed.

(** The categories and the count of a fresh computation, as the handler
    builds them. *)
Lemma computeEligibility_categories env userId collegeId w :
  ∃ view w',
    computeEligibility env userId collegeId w = (send (EligibilityBody view), w')
    ∧ elig_categories view
      = Js.set_spread
          (omap (λ cat, if Js.truthy cat then cat else None)
                (map (λ award : StudentBadge * BadgeDefinition, badge_category award.2)
                     (List.filter (λ award : StudentBadge * BadgeDefinition,
                                     badge_isActive award.2)
                                  (awardsOf (store w) userId))))
    ∧ elig_badgeCount view
      = Z.of_nat (List.length
                    (List.filter (λ award : StudentBadge * BadgeDefinition,
                                    badge_isActive award.2)
                                 (awardsOf (store w) userId))).
Proof.
  unfold computeEligibility. run.
  destruct (badgeEligibilityCache (store w) !! userId); simpl; by eexists _, _.
Qed.

(** X25. The categories of a fresh eligibility answer are the category
    names, other than the empty one, of the user's awards with an active
    badge definition: each is listed once, none is empty, and they are
    no more than the badges counted. *)
Theorem fresh_categories_are_distinct (env : Env) (userId collegeId : string) (w : World) :
  resolvesCollege env userId collegeId →
  cacheStale env userId w →
  ∃ view,
    eligibilityOf (get_eligibility env userId w).1 = Some view
    ∧ NoDup (elig_categories view)
    ∧ ("" ∉ elig_categories view)
    ∧ Z.of_nat (List.length (elig_categories view)) ≤ elig_badgeCount view
    ∧ ∀ category,
        category ∈ elig_categories view
        ↔ category ≠ ""
          ∧ ∃ award definition,
              (award, definition) ∈ awardsOf (store w) userId
              ∧ badge_isActive definition = true
              ∧ badge_category definition = Some category.
Proof.
  intros Hresolves Hstale.
  destruct (get_eligibility_fresh env userId collegeId w Hresolves Hstale)
    as (w0 & Hstore & ->).
  destruct (computeEligibility_categories env userId collegeId w0)
    as (view & w' & -> & Hcategories & Hcount).
  rewrite Hstore in *. exists view. split; [done|].
  assert (∀ category,
            category ∈ elig_categories view
            ↔ category ≠ ""
              ∧ ∃ award definition,
                  (award, definition) ∈ awardsOf (store w) userId
                  ∧ badge_isActive definition = true
                  ∧ badge_category definition = Some category) as Hin.
  { intros category. rewrite Hcategories, set_spread_elem, list_elem_of_omap. split.
    - intros (cat & Hcat & Hkeep). apply list_elem_of_In, in_map_iff in Hcat.
      destruct Hcat as ([award definition] & <- & Haward). simpl in Hkeep.
      apply filter_In in Haward as [Haward Hactive]. simpl in Hactive.
      destruct (badge_category definition) as [c|] eqn:Hc; simpl in Hkeep; [|done].
      unfold Js.truthy_string in Hkeep.
      destruct (String.eqb_spec c "") as [->|Hne]; simpl in Hkeep; [done|].
      injection Hkeep as ->. split; [done|].
      exists award, definition. by split; [apply list_elem_of_In|].
    - intros (Hne & award & definition & Haward & Hactive & Hc).
      exists (Some category). split.
      + apply list_elem_of_In, in_map_iff. exists (award, definition). simpl.
        split; [done|]. apply filter_In. split; [by apply list_elem_of_In | done].
      + simpl. unfold Js.truthy_string. by destruct (String.eqb_spec category ""). }
  split; [rewrite Hcategories; apply set_spread_NoDup|]. split.
  - intros Hempty. by apply Hin in Hempty as [Hne _].
  - split; [|exact Hin]. rewrite Hcategories, Hcount. apply inj_le.
    etransitivity; [apply set_spread_shorter|].
    etransitivity; [apply omap_shorter|]. by rewrite length_map.
Qed.

(** ** The further properties on sample inputs *)

(** X2 on alice's two skills. *)
Lemma post_skill_appends_witness :
  ∃ w',
    post_skill offlineEnv " Agda " "alice" (worldOf skilledStore)
    = (send (SkillsBody ["Rocq"; "Lean"; "Agda"]), w')
    ∧ skillsOf (store w') "alice" = ["Rocq"; "Lean"; "Agda"]
    ∧ skillsOf (store w') "dave" = replicate 50 "skill".
Proof.
  destruct (post_skill_appends offlineEnv " Agda " "alice" (worldOf skilledStore))
    as (w' & Hrun & Hstored & _ & Hothers).
  - discriminate.
  - rewrite alice_skills. intros s Hin. apply list_elem_of_In in Hin. simpl in Hin.
    destruct Hin as [<- | [<- | []]]; discriminate.
  - rewrite alice_skills. simpl. lia.
  - exists w'. rewrite alice_skills in Hrun, Hstored. split; [exact Hrun|].
    split; [exact Hstored|]. rewrite (Hothers "dave") by discriminate. apply dave_skills.
Defined.

(** X3 on alice's two skills. *)
Lemma delete_skill_removes_witness :
  ∃ w',
    delete_skill offlineEnv "Le%61n" "alice" (worldOf skilledStore)
    = (send (SkillsBody ["Rocq"]), w')
    ∧ skillsOf (store w') "alice" = ["Rocq"].
Proof.
  destruct (delete_skill_removes offlineEnv "Le%61n" "Lean" "alice" (worldOf skilledStore))
    as (w' & Hrun & Hstored & _); [by vm_compute|].
  exists w'. rewrite alice_skills in Hrun, Hstored. by split.
Defined.

(** X4 on a bulk update of sixty entries followed by single requests. *)
Lemma skills_stay_bounded_witness :
  skillsBounded (store (served offlineEnv skillsTraffic (worldOf emptyStore))).
Proof.
  apply (skills_stay_bounded offlineEnv skillsTraffic (worldOf emptyStore)).
  intros userId. unfold skillsOf. simpl. rewrite lookup_empty. simpl. lia.
Defined.

Lemma pub1_owned_by_bob :
  ownedBy publication_userId (publications (store (worldOf publicationStore))) "pub1" "bob".
Proof. exists bobsPublication. by split. Qed.

(** X6 on bob's publication. *)
Lemma deleted_rows_are_gone_witness :
  ∃ w',
    delete_publication "pub1" "bob" (worldOf publicationStore)
    = (code_send 204 (MessageBody "Publication deleted successfully"), w')
    ∧ publications (store w') = delete "pub1" (publications publicationStore)
    ∧ status (put_publication "pub1" publicationInput "bob" w').1 = 404.
Proof.
  destruct (proj1 (proj2 (deleted_rows_are_gone "pub1" "bob" (worldOf publicationStore)))
                  pub1_owned_by_bob) as (w' & Hrun & Hgone & Hafter).
  exists w'. split; [exact Hrun|]. split; [exact Hgone|].
  exact (proj1 (Hafter "bob" publicationInput)).
Defined.

Lemma no_row_no_id {A} (env : Env) : freshIds env (∅ : gmap string A).
Proof. intros n. apply lookup_empty. Qed.

(** X7 on a first project and a first experience of alice. *)
Lemma created_rows_belong_to_caller_witness :
  (∃ id createdAt w',
     post_project offlineEnv projectInput "alice" (worldOf emptyStore)
     = (code_send 201
          (ProjectBody id (mkPersonalProject "alice" "Verified parser" "A parser with proofs"
                                             None None None createdAt)), w')
     ∧ is_Some (profiles (store w') !! "alice")
     ∧ ownedBy project_userId (personalProjects (store w')) id "alice")
  ∧ (∃ id w',
       post_experience offlineEnv experienceInput "alice" (worldOf emptyStore)
       = (send (ExperienceBody id (mkExperience "alice" "Formal methods" Advanced (Some 5) None)),
          w')
       ∧ ownedBy experience_userId (experiences (store w')) id "alice").
Proof.
  split.
  - destruct (proj1 (created_rows_belong_to_caller offlineEnv "alice" (worldOf emptyStore))
                    projectInput (no_row_no_id offlineEnv))
      as (id & createdAt & w' & Hrun & _ & _ & Hprofile & Howned).
    by exists id, createdAt, w'.
  - destruct (proj2 (proj2 (created_rows_belong_to_caller offlineEnv "alice"
                              (worldOf emptyStore)))
                    experienceInput (no_row_no_id offlineEnv))
      as (id & w' & Hrun & _ & _ & _ & Howned).
    by exists id, w'.
Defined.

(** X9 with the auth service turning the display name down, and with a
    body that holds no field of the user model. *)
Lemma profile_update_all_or_nothing_witness :
  put_profile_me rejectingAuth offlineEnv renameUpdate "alice" (worldOf skilledStore)
  = (code_sendData 500 (Plain (MessageBody "Failed to update user data")),
     worldOf skilledStore)
  ∧ ∃ profile w',
      put_profile_me rejectingAuth offlineEnv bioUpdate "alice" (worldOf skilledStore)
      = (sendData (StoredBody (Some profile)), w')
      ∧ profile_bio (row profile) = Some "Proof engineer"
      ∧ profile_skills (row profile) = ["Rocq"; "Lean"]
      ∧ (get_profiles_userId "alice" w').1 = sendData (StoredBody (Some profile)).
Proof.
  split.
  - exact (proj1 (profile_update_all_or_nothing rejectingAuth offlineEnv renameUpdate "alice"
                    (worldOf skilledStore))
                 eq_refl (ex_intro _ (Some 503) eq_refl)).
  - destruct (proj2 (proj2 (profile_update_all_or_nothing rejectingAuth offlineEnv bioUpdate
                              "alice" (worldOf skilledStore)))
                    (or_introl eq_refl))
      as (profile & w' & Hrun & Hrow & _ & _ & _ & _ & Hread).
    exists profile, w'. split; [exact Hrun|]. rewrite Hrow. by repeat split.
Defined.

(** X10 on a list of fifty-one entries that are not trimmed. *)
Lemma profile_update_skips_skill_rules_witness :
  skillsOf (store (put_profile_me acceptingAuth offlineEnv longUpdate "alice"
                     (worldOf emptyStore)).2) "alice"
  = replicate 51 " skill "
  ∧ ¬ skillsBounded (store (put_profile_me acceptingAuth offlineEnv longUpdate "alice"
                              (worldOf emptyStore)).2).
Proof.
  destruct (profile_update_skips_skill_rules acceptingAuth offlineEnv longUpdate "alice"
              (worldOf emptyStore) (replicate 51 " skill ") eq_refl (or_introl eq_refl))
    as [Hstored Hlong].
  split; [exact Hstored|]. apply Hlong. simpl. lia.
Defined.

(** X11 on a definition with an empty color and a blank category. *)
Lemma definitions_keep_no_blank_field_witness :
  ∃ id d w',
    post_badge_definition activeDefaults offlineEnv helperBadge "carol" (worldOf emptyStore)
    = (code_sendData 201 (BadgeDefinitionBody id d), w')
    ∧ badge_icon d = Some "star" ∧ badge_color d = None ∧ badge_category d = None
    ∧ badge_createdBy d = "carol".
Proof.
  destruct (definitions_keep_no_blank_field activeDefaults offlineEnv helperBadge "carol"
              (worldOf emptyStore) (no_row_no_id offlineEnv))
    as (id & d & w' & Hrun & _ & _ & _ & _ & _ & Hcreator & Hfields & _).
  exists id, d, w'. split; [exact Hrun|].
  apply Forall_cons in Hfields as [[_ Hicon] Hfields].
  apply Forall_cons in Hfields as [[Hcolor _] Hfields].
  apply Forall_cons in Hfields as [[Hcategory _] _]. simpl in *.
  split; [apply Hicon; by intros [|]|]. split; [apply Hcolor; by left|].
  split; [apply Hcategory; by right | exact Hcreator].
Defined.

(** X12 on a first and a second policy for college1. *)
Lemma policy_is_created_once_witness :
  ∃ policy w1 w2,
    post_policy activeDefaults collegePolicy (worldOf emptyStore)
    = (code_sendData 201 (PolicyBody "college1" policy), w1)
    ∧ policy_eventCreationRequired policy = 2
    ∧ post_policy activeDefaults stricterPolicy w1
      = (code_sendData 500 (Plain InternalServerError), w2)
    ∧ (get_policy "college1" w2).1 = sendData (PolicyBody "college1" policy).
Proof.
  destruct (policy_is_created_once activeDefaults collegePolicy (worldOf emptyStore)
              (lookup_empty _))
    as (policy & w1 & Hrun & Hbadges & _ & _ & _ & Hagain).
  destruct (Hagain stricterPolicy eq_refl) as (w2 & Hfail & _ & Hread).
  by exists policy, w1, w2.
Defined.

(** X13 on a college without a policy. *)
Lemma shown_policy_is_in_force_witness :
  ∃ policy view,
    (get_policy "college1" (worldOf fourCategories)).1 = sendData (PolicyBody "college1" policy)
    ∧ eligibilityOf (get_eligibility onlineEnv "alice" (worldOf fourCategories)).1 = Some view
    ∧ elig_requiredBadges view = Some 8 ∧ elig_requiredCategories view = Some 4.
Proof.
  destruct (shown_policy_is_in_force onlineEnv "alice" "college1" (worldOf fourCategories)
              alice_resolves (no_cache_is_stale onlineEnv "alice" fourCategories eq_refl))
    as (policy & view & Hpolicy & Hview & Hbadges & Hcategories & Hdefault).
  - intros stored Hstored. simpl in Hstored. by rewrite lookup_empty in Hstored.
  - destruct (Hdefault (lookup_empty _)) as [Hb Hc].
    exists policy, view. rewrite Hpolicy, Hbadges, Hcategories, Hb, Hc. by repeat split.
Defined.

(** X18 on an award of a badge that no definition names. *)
Lemma award_of_unknown_badge_witness :
  ∃ w',
    post_badges_award onlineEnv aliceAward (requestUser carolPayload) (worldOf emptyStore)
    = (code_send 500 InternalServerError, w')
    ∧ studentBadges (store w') = []
    ∧ is_Some (profiles (store w') !! "alice").
Proof.
  destruct (award_of_unknown_badge onlineEnv aliceAward (requestUser carolPayload)
              (worldOf emptyStore) (mkUserResponse (Some aliceInfo)) eq_refl (lookup_empty _))
    as (w' & Hrun & Hawards & _ & Hprofile & _).
  by exists w'.
Defined.


Lemma nine_are_more : moreAwards (store (worldOf fourCategories)) (store (worldOf nineAwards)).
Proof. split; [by eexists | by split]. Qed.

(** X20 on alice's eight badges and a ninth award. *)
Lemma eligibility_grows_with_awards_witness :
  ∃ view view',
    eligibilityOf (get_eligibility onlineEnv "alice" (worldOf fourCategories)).1 = Some view
    ∧ eligibilityOf (get_eligibility onlineEnv "alice" (worldOf nineAwards)).1 = Some view'
    ∧ elig_badgeCount view ≤ elig_badgeCount view'
    ∧ (elig_canCreate view = true → elig_canCreate view' = true).
Proof.
  exact (eligibility_grows_with_awards onlineEnv onlineEnv "alice" "college1"
           (worldOf fourCategories) (worldOf nineAwards) nine_are_more
           alice_resolves (no_cache_is_stale onlineEnv "alice" fourCategories eq_refl)
           alice_resolves (no_cache_is_stale onlineEnv "alice" nineAwards eq_refl)).
Defined.

(** X23 on a definition and a policy made on an empty store. *)
Lemma reachable_stores_keep_the_rule_witness :
  writtenByRoutes
    (store (handle activeDefaults acceptingAuth onlineEnv (requestUser carolPayload)
              (POST_policy collegePolicy)
              (handle activeDefaults acceptingAuth onlineEnv (requestUser carolPayload)
                 (POST_badge_definition helperBadge) (worldOf emptyStore)))).
Proof.
  refine (proj1 (reachable_stores_keep_the_rule activeDefaults _ _)).
  apply reachable_handle, reachable_handle, reachable_empty. reflexivity.
Defined.

(** X22 on a ninth award to alice. *)
Lemma award_shows_in_listings_witness :
  ∃ badge w' counts,
    post_badges_award onlineEnv aliceAward (requestUser carolPayload) (worldOf fourCategories)
    = (code_send 201 (BadgeBody badge (definitionIn (Some "A"))), w')
    ∧ (get_counts w').1 = code_sendData 200 (CountsBody counts)
    ∧ counts !! "bA" = Some 3.
Proof.
  destruct (award_shows_in_listings onlineEnv aliceAward (requestUser carolPayload)
              (worldOf fourCategories) (mkUserResponse (Some aliceInfo))
              (definitionIn (Some "A")) eq_refl definition_bA)
    as (badge & w' & Hrun & _ & counts & Hcounts & Hcount & _).
  by exists badge, w', counts.
Defined.

Lemma busyWorld_reachable : reachable activeDefaults busyWorld.
Proof. repeat apply reachable_handle. by apply reachable_empty. Qed.

(** X24 on alice's two awards under a policy of two badges in one
    category. *)
Lemma no_eligibility_without_badges_witness :
  ∃ view,
    eligibilityOf (get_eligibility onlineEnv "alice" busyWorld).1 = Some view
    ∧ elig_canCreate view = true
    ∧ 1 ≤ elig_badgeCount view ∧ elig_categories view ≠ [].
Proof.
  eexists. split; [by vm_compute|]. split; [reflexivity|].
  apply (no_eligibility_without_badges activeDefaults busyWorld onlineEnv "alice");
    [apply busyWorld_reachable | by vm_compute | reflexivity].
Defined.

Lemma takeFirst_first (n : Z) (rows : list (StudentBadge * BadgeDefinition)) :
  0 ≤ n → takeFirst (Some n) rows = Some (take (Z.to_nat n) rows).
Proof. intros Hn. unfold takeFirst. by rewrite (proj2 (Z.leb_le 0 n) Hn). Qed.

(** X17 on carol, who made the nine awards, with the limit 1. *)
Lemma recent_awards_are_the_callers_witness :
  ∃ awards studentDetails w',
    get_recent parseOne takeFirst onlineEnv (Some "1") (requestUser carolPayload)
      (worldOf nineAwards)
    = (sendData (AwardsBody (enhancedAward studentDetails <$> awards)), w')
    ∧ (List.length awards ≤ 1)%nat
    ∧ ∀ award definition, (award, definition) ∈ awards → award_awardedBy award = "carol".
Proof.
  destruct (proj2 (recent_awards_are_the_callers parseOne takeFirst takeFirst_first onlineEnv
                     (Some "1") (requestUser carolPayload) (worldOf nineAwards))
                  1 ltac:(discriminate) eq_refl ltac:(lia))
    as (awards & studentDetails & w' & Hrun & _ & _ & Hlength & Hown & _).
  exists awards, studentDetails, w'. split; [exact Hrun|]. split; [exact Hlength|].
  intros award definition Hin. by destruct (Hown award definition Hin) as (_ & Hby & _).
Defined.

(** X25 on alice's eight badges in four categories. *)
Lemma fresh_categories_are_distinct_witness :
  ∃ view,
    eligibilityOf (get_eligibility onlineEnv "alice" (worldOf fourCategories)).1 = Some view
    ∧ NoDup (elig_categories view)
    ∧ Z.of_nat (List.length (elig_categories view)) ≤ elig_badgeCount view.
Proof.
  destruct (fresh_categories_are_distinct onlineEnv "alice" "college1" (worldOf fourCategories)
              alice_resolves (no_cache_is_stale onlineEnv "alice" fourCategories eq_refl))
    as (view & Hview & Hdistinct & _ & Hfewer & _).
  by exists view.
Defined.
